(** * wacli: the inter-process command-delegation protocol

    A shallow embedding of [internal/ipc/ipc.go] (wire types, dispatcher,
    connection handling, client proxy), of the chat-state mirror
    operations of [internal/app], of the cache setters of
    [internal/store] with [UpsertChat] and [GetChat], of
    [ResolveSenderNames], of the daemon side handler [syncHandler], of
    the command entry points of [cmd/wacli] that choose between the
    daemon and the direct path, with the commands of [wacli chats],
    and of [wacli sync], which runs the daemon.

    Go strings are byte sequences: they are modelled by [string] (a list
    of 8-bit [ascii]).  A Go [error] is modelled by its message, and a
    nil error by [None]. *)

From Stdlib Require Import ZArith Ascii.
From stdpp Require Import base option strings list gmap.

Local Open Scope string_scope.
Set Warnings "-register-all".

(** ** Go values shared by all packages *)

Definition error := string.

(** [fmt.Errorf("<prefix>: %w", err)] and [fmt.Sprintf("<prefix>: %v", err)]:
    the message is the prefix followed by the message of [err]. *)
Definition wrap (prefix : string) (err : error) : error := prefix +:+ err.

(** [strings.Contains(s, sub)] as a proposition. *)
Definition Contains (s sub : string) : Prop :=
  ∃ pre post, s = pre +:+ sub +:+ post.

(** ** UTF-8, as package [unicode/utf8] of the Go library reads it *)

Module utf8.

Definition byte_in (lo hi : N) (c : ascii) : bool :=
  let n := Ascii.N_of_ascii c in (N.leb lo n && N.leb n hi)%bool.

Definition cont (c : ascii) : bool := byte_in 128 191 c.

(** The number of bytes of the well-formed encoding at the head of [s],
    or [0] when the head is not the start of one (then [DecodeRune]
    answers [RuneError] with width 1). *)
Definition width (s : string) : nat :=
  match s with
  | EmptyString => 0
  | String b0 r0 =>
    if byte_in 0 127 b0 then 1
    else match r0 with
    | EmptyString => 0
    | String b1 r1 =>
      if byte_in 194 223 b0 then (if cont b1 then 2 else 0)
      else match r1 with
      | EmptyString => 0
      | String b2 r2 =>
        let second3 :=
          if byte_in 224 224 b0 then byte_in 160 191 b1
          else if byte_in 237 237 b0 then byte_in 128 159 b1
          else cont b1 in
        if byte_in 224 239 b0 then (if (second3 && cont b2)%bool then 3 else 0)
        else match r2 with
        | EmptyString => 0
        | String b3 _ =>
          let second4 :=
            if byte_in 240 240 b0 then byte_in 144 191 b1
            else if byte_in 244 244 b0 then byte_in 128 143 b1
            else cont b1 in
          if (byte_in 240 244 b0 && second4 && cont b2 && cont b3)%bool
          then 4 else 0
        end
      end
    end
  end.

(** U+FFFD, the replacement character, in UTF-8. *)
Definition RuneError : string :=
  String (Ascii.ascii_of_N 239)
    (String (Ascii.ascii_of_N 191) (String (Ascii.ascii_of_N 189) EmptyString)).

Fixpoint string_take (n : nat) (s : string) : string :=
  match n, s with
  | S n', String c r => String c (string_take n' r)
  | _, _ => EmptyString
  end.

Fixpoint string_drop (n : nat) (s : string) : string :=
  match n, s with
  | S n', String _ r => string_drop n' r
  | _, _ => s
  end.

(** [utf8.ValidString]. The fuel bounds the number of runes; the length
    of the string is always enough. *)
Fixpoint valid_fuel (fuel : nat) (s : string) : bool :=
  match s, fuel with
  | EmptyString, _ => true
  | _, O => false
  | _, S fuel' =>
    match width s with
    | O => false
    | S k => valid_fuel fuel' (string_drop (S k) s)
    end
  end.

Definition ValidString (s : string) : bool := valid_fuel (String.length s) s.

(** What [encoding/json] writes for a Go string, read back: the
    encoder walks the string rune by rune, copies every well-formed
    rune and writes U+FFFD for every byte that starts none
    ([DecodeRuneInString] answering [RuneError] with size 1). *)
Fixpoint coerce_fuel (fuel : nat) (s : string) : string :=
  match s, fuel with
  | EmptyString, _ => EmptyString
  | _, O => EmptyString
  | String _ r, S fuel' =>
    match width s with
    | O => RuneError +:+ coerce_fuel fuel' r
    | S k => string_take (S k) s +:+ coerce_fuel fuel' (string_drop (S k) s)
    end
  end.

Definition coerce (s : string) : string := coerce_fuel (String.length s) s.

End utf8.

(** ** JSON values, as package [encoding/json] of the Go library reads
    and writes them

    The library is modelled at the level of JSON values: a [json.t] is
    what a JSON text denotes, its strings already unquoted.  The text
    itself (quoting, escapes, white space) is the library's business and
    enters through the class [Text]. *)

Module json.

Inductive t : Type :=
| Null
| Bool (b : bool)
| Number (lit : string)
| Str (s : string)
| Array (elems : list t)
| Object (members : list (string * t)).

(** The name of a value's kind in the library's error messages. *)
Definition kind (j : t) : string :=
  match j with
  | Null => "null"
  | Bool _ => "bool"
  | Number _ => "number"
  | Str _ => "string"
  | Array _ => "array"
  | Object _ => "object"
  end.

(** The textual layer: [parse] is the scanner and literal reader
    behind [json.Unmarshal], [print] the writer behind [json.Marshal].
    A number is kept as the literal that writes it; [ParseFloat] and
    [FormatFloat] of package [strconv] convert it from and to a
    [float64] ([FormatFloat] has no answer for NaN and the infinities,
    which [Marshal] refuses). *)
Class Text := {
  parse : string → error + t;
  print : t → string;
  float64 : Type;
  ParseFloat : string → error + float64;
  FormatFloat : float64 → option string
}.

(** *** Matching an object key with a struct field

    [Unmarshal] prefers an exact match and accepts a match under
    Unicode simple case folding.  For the ASCII field names of this
    program that is: letters match in either case, U+212A (Kelvin
    sign) matches k and U+017F (long s) matches s. *)

Definition lower (c : ascii) : ascii :=
  if utf8.byte_in 65 90 c then Ascii.ascii_of_N (Ascii.N_of_ascii c + 32) else c.

Fixpoint strip_prefix (p s : string) : option string :=
  match p, s with
  | EmptyString, _ => Some s
  | String a p', String b s' => if Ascii.eqb a b then strip_prefix p' s' else None
  | String _ _, EmptyString => None
  end.

Definition kelvin : string :=
  String (Ascii.ascii_of_N 226)
    (String (Ascii.ascii_of_N 132) (String (Ascii.ascii_of_N 170) EmptyString)).

Definition long_s : string :=
  String (Ascii.ascii_of_N 197) (String (Ascii.ascii_of_N 191) EmptyString).

(** The rest of [key] after one rune that folds to the letter [c]. *)
Definition strip_fold (c : ascii) (key : string) : option string :=
  match key with
  | EmptyString => None
  | String d rest =>
    if Ascii.eqb (lower d) (lower c) then Some rest
    else if Ascii.eqb (lower c) "k"%char then strip_prefix kelvin key
    else if Ascii.eqb (lower c) "s"%char then strip_prefix long_s key
    else None
  end.

Fixpoint equalFold (name key : string) : bool :=
  match name with
  | EmptyString => match key with EmptyString => true | _ => false end
  | String c name' =>
    match strip_fold c key with
    | Some key' => equalFold name' key'
    | None => false
    end
  end.

(** *** Go maps with string keys, kept as lists sorted by key

    A Go map has one entry per key; [Marshal] writes the entries in
    the byte order of the keys. *)

Fixpoint map_insert {A} (k : string) (v : A) (m : list (string * A)) : list (string * A) :=
  match m with
  | [] => [(k, v)]
  | (k', v') :: m' =>
    match String.compare k k' with
    | Lt => (k, v) :: m
    | Eq => (k, v) :: m'
    | Gt => (k', v') :: map_insert k v m'
    end
  end.

Fixpoint map_lookup {A} (k : string) (m : list (string * A)) : option A :=
  match m with
  | [] => None
  | (k', v) :: m' => if String.eqb k k' then Some v else map_lookup k m'
  end.

(** The entries of a map literal or of a decoded object, as a map:
    later entries replace earlier ones with the same key. *)
Definition map_of_list {A} (l : list (string * A)) : list (string * A) :=
  fold_left (λ m kv, map_insert kv.1 kv.2 m) l [].

(** [&UnmarshalTypeError{...}.Error()] for a struct field. *)
Definition type_error (j : t) (strct field ty : string) : error :=
  "json: cannot unmarshal " +:+ kind j +:+ " into Go struct field " +:+
  strct +:+ "." +:+ field +:+ " of type " +:+ ty.

(** ... and for the value as a whole. *)
Definition type_error_top (j : t) (ty : string) : error :=
  "json: cannot unmarshal " +:+ kind j +:+ " into Go value of type " +:+ ty.

(** Decoding one value into a [string] or a [bool] variable: null
    leaves the variable as it is, a value of another kind is a type
    error and also leaves it. *)
Definition into_string (j : t) (old : string) : string + unit :=
  match j with
  | Str s => inl s
  | Null => inl old
  | _ => inr ()
  end.

Definition into_bool (j : t) (old : bool) : bool + unit :=
  match j with
  | Bool b => inl b
  | Null => inl old
  | _ => inr ()
  end.

(** [Unmarshal] reports the first type error it met and decodes on. *)
Definition first_error (old new : option error) : option error :=
  match old with
  | Some e => Some e
  | None => new
  end.

(** *** The text of a JSON value, as [Marshal] writes it and as
    [Unmarshal] reads it

    [write] gives the compact text of the encoder (HTML-safe, as
    [Marshal] sets it); [read] accepts the JSON grammar with white
    space, up to the nesting depth of the scanner.  The messages of
    syntax errors are abridged. *)

Definition chr (n : N) : ascii := Ascii.ascii_of_N n.
Definition ord (c : ascii) : N := Ascii.N_of_ascii c.
Definition dquote : ascii := chr 34.
Definition isc (c d : ascii) : bool := Ascii.eqb c d.
Definition str1 (c : ascii) : string := String c EmptyString.

Definition hex (n : N) : ascii := if (n <? 10)%N then chr (48 + n) else chr (87 + n).

Definition unhex (c : ascii) : option N :=
  if utf8.byte_in 48 57 c then Some (ord c - 48)%N
  else if utf8.byte_in 97 102 c then Some (ord c - 87)%N
  else if utf8.byte_in 65 70 c then Some (ord c - 55)%N
  else None.

(** The bytes the encoder copies as they are. *)
Definition safe (c : ascii) : bool :=
  (utf8.byte_in 32 127 c && negb (isc c dquote) && negb (isc c "\") &&
   negb (isc c "<") && negb (isc c ">") && negb (isc c "&"))%bool.

Definition escape_byte (c : ascii) : string :=
  if safe c then str1 c
  else if (isc c "\" || isc c dquote)%bool then String "\" (str1 c)
  else if (ord c =? 8)%N then "\b"
  else if (ord c =? 12)%N then "\f"
  else if (ord c =? 10)%N then "\n"
  else if (ord c =? 13)%N then "\r"
  else if (ord c =? 9)%N then "\t"
  else "\u00" +:+ String (hex (ord c / 16)) (str1 (hex (ord c mod 16))).

(** U+2028 and U+2029 in UTF-8. *)
Definition line_sep : string := String (chr 226) (String (chr 128) (str1 (chr 168))).
Definition para_sep : string := String (chr 226) (String (chr 128) (str1 (chr 169))).

Fixpoint escape_fuel (fuel : nat) (s : string) : string :=
  match s, fuel with
  | EmptyString, _ => EmptyString
  | _, O => EmptyString
  | String c r, S fuel' =>
    if utf8.byte_in 0 127 c then escape_byte c +:+ escape_fuel fuel' r
    else
      match utf8.width s with
      | O => "\ufffd" +:+ escape_fuel fuel' r
      | S k =>
        let rune := utf8.string_take (S k) s in
        (if String.eqb rune line_sep then "\u2028"
         else if String.eqb rune para_sep then "\u2029"
         else rune) +:+ escape_fuel fuel' (utf8.string_drop (S k) s)
      end
  end.

Definition quote (s : string) : string :=
  str1 dquote +:+ escape_fuel (String.length s) s +:+ str1 dquote.

Fixpoint write (j : t) : string :=
  match j with
  | Null => "null"
  | Bool b => if b then "true" else "false"
  | Number lit => lit
  | Str s => quote s
  | Array l =>
    "[" +:+
    (fix elems (l : list t) : string :=
       match l with
       | [] => ""
       | x :: l' => write x +:+ match l' with [] => "" | _ => "," +:+ elems l' end
       end) l +:+ "]"
  | Object ms =>
    "{" +:+
    (fix members (ms : list (string * t)) : string :=
       match ms with
       | [] => ""
       | (k, x) :: ms' =>
         quote k +:+ ":" +:+ write x +:+ match ms' with [] => "" | _ => "," +:+ members ms' end
       end) ms +:+ "}"
  end.

(** The members of an object as [write] lays them out. *)
Fixpoint write_members (ms : list (string * t)) : string :=
  match ms with
  | [] => ""
  | (k, x) :: ms' =>
    quote k +:+ ":" +:+ write x +:+ match ms' with [] => "" | _ => "," +:+ write_members ms' end
  end.

(** The values the wire types of this program are made of, with
    strings that are well-formed UTF-8. *)
Definition plain (x : t) : bool :=
  match x with
  | Str s => utf8.ValidString s
  | Null | Bool _ => true
  | _ => false
  end.

Definition plain_member (kv : string * t) : bool :=
  (utf8.ValidString kv.1 && plain kv.2)%bool.

(** [utf8.EncodeRune]. *)
Definition encode_rune (r : N) : string :=
  if (r <? 128)%N then str1 (chr r)
  else if (r <? 2048)%N then String (chr (192 + r / 64)) (str1 (chr (128 + r mod 64)))
  else if ((55296 <=? r) && (r <? 57344) || (1114111 <? r))%N%bool then utf8.RuneError
  else if (r <? 65536)%N then
    String (chr (224 + r / 4096))
      (String (chr (128 + (r / 64) mod 64)) (str1 (chr (128 + r mod 64))))
  else
    String (chr (240 + r / 262144))
      (String (chr (128 + (r / 4096) mod 64))
         (String (chr (128 + (r / 64) mod 64)) (str1 (chr (128 + r mod 64))))).

(** [getu4]: the code unit of a [\uXXXX] at the head of [s]. *)
Definition getu4 (s : string) : option (N * string) :=
  match s with
  | String b (String u (String h3 (String h2 (String h1 (String h0 rest))))) =>
    if (isc b "\" && isc u "u")%bool then
      match unhex h3, unhex h2, unhex h1, unhex h0 with
      | Some a, Some b, Some c, Some d => Some (a * 4096 + b * 256 + c * 16 + d, rest)%N
      | _, _, _, _ => None
      end
    else None
  | _ => None
  end.

Definition is_ws (c : ascii) : bool :=
  ((ord c =? 32) || (ord c =? 9) || (ord c =? 10) || (ord c =? 13))%N%bool.

Fixpoint skip_ws (s : string) : string :=
  match s with
  | String c r => if is_ws c then skip_ws r else s
  | EmptyString => EmptyString
  end.

Definition prepend {A} (p : string) (r : option (string * A)) : option (string * A) :=
  (λ x, (p +:+ x.1, x.2)) <$> r.

(** The string literal whose opening quote was just read: its value
    and the text after its closing quote. *)
Fixpoint unquote (fuel : nat) (s : string) : option (string * string) :=
  match fuel, s with
  | O, _ => None
  | _, EmptyString => None
  | S fuel', String c r =>
    if isc c dquote then Some (EmptyString, r)
    else if isc c "\" then
      match r with
      | EmptyString => None
      | String e r' =>
        if (isc e dquote || isc e "\" || isc e "/")%bool then prepend (str1 e) (unquote fuel' r')
        else if isc e "b" then prepend (str1 (chr 8)) (unquote fuel' r')
        else if isc e "f" then prepend (str1 (chr 12)) (unquote fuel' r')
        else if isc e "n" then prepend (str1 (chr 10)) (unquote fuel' r')
        else if isc e "r" then prepend (str1 (chr 13)) (unquote fuel' r')
        else if isc e "t" then prepend (str1 (chr 9)) (unquote fuel' r')
        else if isc e "u" then
          match getu4 s with
          | None => None
          | Some (rr, rest) =>
            if ((55296 <=? rr) && (rr <? 57344))%N%bool then
              match getu4 rest with
              | Some (rr1, rest1) =>
                if ((rr <? 56320) && (56320 <=? rr1) && (rr1 <? 57344))%N%bool then
                  prepend (encode_rune ((rr - 55296) * 1024 + (rr1 - 56320) + 65536)%N)
                          (unquote fuel' rest1)
                else prepend utf8.RuneError (unquote fuel' rest)
              | None => prepend utf8.RuneError (unquote fuel' rest)
              end
            else prepend (encode_rune rr) (unquote fuel' rest)
          end
        else None
      end
    else if (ord c <? 32)%N then None
    else if utf8.byte_in 0 127 c then prepend (str1 c) (unquote fuel' r)
    else
      match utf8.width s with
      | O => prepend utf8.RuneError (unquote fuel' r)
      | S k => prepend (utf8.string_take (S k) s) (unquote fuel' (utf8.string_drop (S k) s))
      end
  end.

Fixpoint digits (s : string) : string * string :=
  match s with
  | String c r =>
    if utf8.byte_in 48 57 c then let '(d, rest) := digits r in (String c d, rest)
    else (EmptyString, s)
  | EmptyString => (EmptyString, EmptyString)
  end.

(** A number literal at the head of [s]: an optional minus, the
    integer part, an optional fraction, an optional exponent. *)
Definition number (s : string) : option (string * string) :=
  let '(sign, s1) :=
    match s with
    | String c r => if isc c "-" then ("-", r) else ("", s)
    | EmptyString => ("", s)
    end in
  let int_part :=
    match s1 with
    | String c r =>
      if isc c "0" then Some ("0", r)
      else if utf8.byte_in 49 57 c then let '(d, rest) := digits r in Some (String c d, rest)
      else None
    | EmptyString => None
    end in
  match int_part with
  | None => None
  | Some (i, s2) =>
    let frac_part :=
      match s2 with
      | String c r =>
        if isc c "." then
          match digits r with
          | (EmptyString, _) => None
          | (d, rest) => Some ("." +:+ d, rest)
          end
        else Some ("", s2)
      | EmptyString => Some ("", s2)
      end in
    match frac_part with
    | None => None
    | Some (f, s3) =>
      let exp_part :=
        match s3 with
        | String c r =>
          if (isc c "e" || isc c "E")%bool then
            let '(esign, r1) :=
              match r with
              | String d r' => if (isc d "+" || isc d "-")%bool then (str1 d, r') else ("", r)
              | EmptyString => ("", r)
              end in
            match digits r1 with
            | (EmptyString, _) => None
            | (d, rest) => Some (str1 c +:+ esign +:+ d, rest)
            end
          else Some ("", s3)
        | EmptyString => Some ("", s3)
        end in
      match exp_part with
      | None => None
      | Some (e, s4) => Some (sign +:+ i +:+ f +:+ e, s4)
      end
    end
  end.

Definition keyword (w : string) (j : t) (s : string) : option (t * string) :=
  (λ rest, (j, rest)) <$> strip_prefix w s.

(** One value at the head of [s] and the text after it.  [depth] is
    the nesting still allowed; [fuel] bounds the recursion. *)
Fixpoint value (fuel depth : nat) (s : string) {struct fuel} : option (t * string) :=
  match fuel with
  | O => None
  | S fuel' =>
    match skip_ws s with
    | EmptyString => None
    | String c r as s' =>
      if isc c "{" then
        match depth with
        | O => None
        | S depth' =>
          match skip_ws r with
          | EmptyString => None
          | String d r' as r1 =>
            if isc d "}" then Some (Object [], r')
            else (λ x, (Object x.1, x.2)) <$> members fuel' depth' r1
          end
        end
      else if isc c "[" then
        match depth with
        | O => None
        | S depth' =>
          match skip_ws r with
          | EmptyString => None
          | String d r' as r1 =>
            if isc d "]" then Some (Array [], r')
            else (λ x, (Array x.1, x.2)) <$> elements fuel' depth' r1
          end
        end
      else if isc c dquote then (λ x, (Str x.1, x.2)) <$> unquote (S (String.length r)) r
      else if isc c "n" then keyword "null" Null s'
      else if isc c "t" then keyword "true" (Bool true) s'
      else if isc c "f" then keyword "false" (Bool false) s'
      else (λ x, (Number x.1, x.2)) <$> number s'
    end
  end
with members (fuel depth : nat) (s : string) {struct fuel}
    : option (list (string * t) * string) :=
  match fuel with
  | O => None
  | S fuel' =>
    match skip_ws s with
    | EmptyString => None
    | String c r =>
      if isc c dquote then
        match unquote (S (String.length r)) r with
        | None => None
        | Some (k, r1) =>
          match skip_ws r1 with
          | EmptyString => None
          | String colon r2 =>
            if isc colon ":" then
              match value fuel' depth r2 with
              | None => None
              | Some (v, r3) =>
                match skip_ws r3 with
                | EmptyString => None
                | String d r4 =>
                  if isc d "," then (λ x, ((k, v) :: x.1, x.2)) <$> members fuel' depth r4
                  else if isc d "}" then Some ([(k, v)], r4)
                  else None
                end
              end
            else None
          end
        end
      else None
    end
  end
with elements (fuel depth : nat) (s : string) {struct fuel} : option (list t * string) :=
  match fuel with
  | O => None
  | S fuel' =>
    match value fuel' depth s with
    | None => None
    | Some (v, r1) =>
      match skip_ws r1 with
      | EmptyString => None
      | String d r2 =>
        if isc d "," then (λ x, (v :: x.1, x.2)) <$> elements fuel' depth r2
        else if isc d "]" then Some ([v], r2)
        else None
      end
    end
  end.

(** The nesting depth the scanner allows. *)
Definition maxNestingDepth : nat := 100 * 100.

Definition read (s : string) : error + t :=
  match skip_ws s with
  | EmptyString => inl "unexpected end of JSON input"
  | _ =>
    match value (2 * String.length s + 2) maxNestingDepth s with
    | None => inl "invalid character or unexpected end of JSON input"
    | Some (j, rest) =>
      match skip_ws rest with
      | EmptyString => inr j
      | _ => inl "invalid character after top-level value"
      end
    end
  end.

End json.

(** ** Package [ipc]: wire types *)

Module ipc.

Definition socketName : string := "wacli.sock".

(** [type Request struct], with the zero value [Request{}]. *)
Record Request := {
  Command : string;
  To : string;
  Message : string;
  File : string;
  Caption : string;
  Chat : string;
  MsgID : string;
  ForEveryone : bool;
  Action : string;
  Duration : string
}.

Definition Request_zero : Request :=
  {| Command := ""; To := ""; Message := ""; File := ""; Caption := "";
     Chat := ""; MsgID := ""; ForEveryone := false; Action := ""; Duration := "" |}.

(** [type SendTextResult struct]. *)
Record SendTextResult := { Result_To : string; Result_MsgID : string }.

Definition SendTextResult_zero : SendTextResult :=
  {| Result_To := ""; Result_MsgID := "" |}.

(** *** The [Handler] interface

    A handler method runs on the state of whoever implements it (for
    the daemon: the live session and the cache).  It returns, or it
    panics; a panic is kept with the text [%v] prints for its value. *)

Inductive outcome (A : Type) : Type :=
| Returned (a : A)
| Panicked (v : string).
Arguments Returned {A} a.
Arguments Panicked {A} v.

Record Handler (H : Type) := {
  SendText : string → string → H → outcome (string * option error) * H;
  DeleteMessage : string → string → bool → H → outcome (option error) * H;
  ChatState : string → string → string → H → outcome (option error) * H
}.
Arguments SendText {H} _ _ _ _.
Arguments DeleteMessage {H} _ _ _ _ _.
Arguments ChatState {H} _ _ _ _ _.

(** The calls made on the handler, in order. *)
Inductive Call : Type :=
| CallSendText (to message : string)
| CallDeleteMessage (chat msgID : string) (forEveryone : bool)
| CallChatState (jid action duration : string).

(** *** The server *)

Record Listener := { laddr : string }.

Record Server (H : Type) := {
  storeDir : string;
  handler : Handler H;
  listener : option Listener;
  wg : nat;             (* sync.WaitGroup: the goroutines not yet done *)
  done : bool           (* chan struct{}: [true] once closed *)
}.
Arguments storeDir {H} _.
Arguments handler {H} _.
Arguments listener {H} _.
Arguments wg {H} _.
Arguments done {H} _.

Definition NewServer {H} (storeDir : string) (handler : Handler H) : Server H :=
  {| storeDir := storeDir; handler := handler; listener := None; wg := 0; done := false |}.

Section Wire.
Context {text : json.Text}.

(** The dynamic values that reach the [Data any] field: what the
    dispatcher stores there (a string, a [SendTextResult], a
    [map[string]any]) and what [Unmarshal] stores into an [any]
    (nil, bool, float64, string, [[]any], [map[string]any]).  A map
    is listed by its entries; their order carries no meaning. *)
Inductive any : Type :=
| AnyNil
| AnyBool (b : bool)
| AnyFloat64 (f : json.float64)
| AnyString (s : string)
| AnySlice (elems : list any)
| AnyMap (entries : list (string * any))
| AnySendTextResult (r : SendTextResult).

(** [type Response struct]. *)
Record Response := { Success : bool; Error : string; Data : any }.

Definition Response_zero : Response :=
  {| Success := false; Error := ""; Data := AnyNil |}.

(** *** [json.Marshal] on the wire types

    A field tagged [omitempty] is left out when it holds the empty
    string, [false] or a nil interface.  Strings are written as valid
    UTF-8 ([utf8.coerce]). *)

Definition str_member (key val : string) : list (string * json.t) :=
  [(key, json.Str (utf8.coerce val))].

Definition str_omitempty (key val : string) : list (string * json.t) :=
  if String.eqb val "" then [] else str_member key val.

Definition bool_omitempty (key : string) (val : bool) : list (string * json.t) :=
  if val then [(key, json.Bool true)] else [].

Definition marshal_Request (r : Request) : json.t :=
  json.Object
    (str_member "command" (Command r) ++
     str_omitempty "to" (To r) ++
     str_omitempty "message" (Message r) ++
     str_omitempty "file" (File r) ++
     str_omitempty "caption" (Caption r) ++
     str_omitempty "chat" (Chat r) ++
     str_omitempty "msg_id" (MsgID r) ++
     bool_omitempty "for_everyone" (ForEveryone r) ++
     str_omitempty "action" (Action r) ++
     str_omitempty "duration" (Duration r)).

Definition marshal_SendTextResult (r : SendTextResult) : json.t :=
  json.Object (str_member "to" (Result_To r) ++ str_member "msg_id" (Result_MsgID r)).

(** [Marshal] of a dynamic value; [None] is the library's
    [UnsupportedValueError] for NaN and the infinities. *)
Fixpoint marshal_any (v : any) : option json.t :=
  match v with
  | AnyNil => Some json.Null
  | AnyBool b => Some (json.Bool b)
  | AnyFloat64 f => json.Number <$> json.FormatFloat f
  | AnyString s => Some (json.Str (utf8.coerce s))
  | AnySlice l =>
    json.Array <$>
      (fix elems (l : list any) : option (list json.t) :=
         match l with
         | [] => Some []
         | x :: l' =>
           match marshal_any x, elems l' with
           | Some j, Some js => Some (j :: js)
           | _, _ => None
           end
         end) l
  | AnyMap m =>
    (λ ms, json.Object (prod_map utf8.coerce id <$> json.map_of_list ms)) <$>
      (fix members (m : list (string * any)) : option (list (string * json.t)) :=
         match m with
         | [] => Some []
         | (k, x) :: m' =>
           match marshal_any x, members m' with
           | Some j, Some js => Some ((k, j) :: js)
           | _, _ => None
           end
         end) m
  | AnySendTextResult r => Some (marshal_SendTextResult r)
  end.

Definition data_omitempty (val : any) : option (list (string * json.t)) :=
  match val with
  | AnyNil => Some []
  | _ => (λ j, [("data", j)]) <$> marshal_any val
  end.

Definition marshal_Response (r : Response) : option json.t :=
  (λ d, json.Object ([("success", json.Bool (Success r))] ++
                     str_omitempty "error" (Error r) ++ d))
    <$> data_omitempty (Data r).

(** *** [json.Unmarshal] on the wire types *)

(** Storing a JSON value into an [any].  A number that [ParseFloat]
    refuses (out of range) stores nil and is a type error. *)
Fixpoint any_of_json (j : json.t) : any :=
  match j with
  | json.Null => AnyNil
  | json.Bool b => AnyBool b
  | json.Number lit =>
    match json.ParseFloat lit with
    | inr f => AnyFloat64 f
    | inl _ => AnyNil
    end
  | json.Str s => AnyString s
  | json.Array l => AnySlice (any_of_json <$> l)
  | json.Object ms =>
    AnyMap (json.map_of_list ((λ kv, (kv.1, any_of_json kv.2)) <$> ms))
  end.

(** The first number of [j], in the order of the text, that
    [ParseFloat] refuses. *)
Fixpoint bad_number (j : json.t) : option string :=
  match j with
  | json.Number lit =>
    match json.ParseFloat lit with
    | inr _ => None
    | inl _ => Some lit
    end
  | json.Array l =>
    (fix elems (l : list json.t) : option string :=
       match l with
       | [] => None
       | x :: l' => match bad_number x with Some e => Some e | None => elems l' end
       end) l
  | json.Object ms =>
    (fix members (ms : list (string * json.t)) : option string :=
       match ms with
       | [] => None
       | (_, x) :: ms' => match bad_number x with Some e => Some e | None => members ms' end
       end) ms
  | _ => None
  end.

Definition set_any {R} (strct key : string) (j : json.t)
    (set : any → R → R) (acc : R * option error) : R * option error :=
  (set (any_of_json j) acc.1,
   json.first_error acc.2
     ((λ lit, "json: cannot unmarshal number " +:+ lit +:+ " into Go struct field " +:+
              strct +:+ "." +:+ key +:+ " of type float64") <$> bad_number j)).

Definition set_string {R} (strct key : string) (j : json.t)
    (get : R → string) (set : string → R → R) (acc : R * option error) : R * option error :=
  match json.into_string j (get acc.1) with
  | inl s => (set s acc.1, acc.2)
  | inr _ => (acc.1, json.first_error acc.2 (Some (json.type_error j strct key "string")))
  end.

Definition set_bool {R} (strct key : string) (j : json.t)
    (get : R → bool) (set : bool → R → R) (acc : R * option error) : R * option error :=
  match json.into_bool j (get acc.1) with
  | inl b => (set b acc.1, acc.2)
  | inr _ => (acc.1, json.first_error acc.2 (Some (json.type_error j strct key "bool")))
  end.

Definition with_Command v r := {| Command := v; To := To r; Message := Message r; File := File r; Caption := Caption r; Chat := Chat r; MsgID := MsgID r; ForEveryone := ForEveryone r; Action := Action r; Duration := Duration r |}.
Definition with_To v r := {| Command := Command r; To := v; Message := Message r; File := File r; Caption := Caption r; Chat := Chat r; MsgID := MsgID r; ForEveryone := ForEveryone r; Action := Action r; Duration := Duration r |}.
Definition with_Message v r := {| Command := Command r; To := To r; Message := v; File := File r; Caption := Caption r; Chat := Chat r; MsgID := MsgID r; ForEveryone := ForEveryone r; Action := Action r; Duration := Duration r |}.
Definition with_File v r := {| Command := Command r; To := To r; Message := Message r; File := v; Caption := Caption r; Chat := Chat r; MsgID := MsgID r; ForEveryone := ForEveryone r; Action := Action r; Duration := Duration r |}.
Definition with_Caption v r := {| Command := Command r; To := To r; Message := Message r; File := File r; Caption := v; Chat := Chat r; MsgID := MsgID r; ForEveryone := ForEveryone r; Action := Action r; Duration := Duration r |}.
Definition with_Chat v r := {| Command := Command r; To := To r; Message := Message r; File := File r; Caption := Caption r; Chat := v; MsgID := MsgID r; ForEveryone := ForEveryone r; Action := Action r; Duration := Duration r |}.
Definition with_MsgID v r := {| Command := Command r; To := To r; Message := Message r; File := File r; Caption := Caption r; Chat := Chat r; MsgID := v; ForEveryone := ForEveryone r; Action := Action r; Duration := Duration r |}.
Definition with_ForEveryone v r := {| Command := Command r; To := To r; Message := Message r; File := File r; Caption := Caption r; Chat := Chat r; MsgID := MsgID r; ForEveryone := v; Action := Action r; Duration := Duration r |}.
Definition with_Action v r := {| Command := Command r; To := To r; Message := Message r; File := File r; Caption := Caption r; Chat := Chat r; MsgID := MsgID r; ForEveryone := ForEveryone r; Action := v; Duration := Duration r |}.
Definition with_Duration v r := {| Command := Command r; To := To r; Message := Message r; File := File r; Caption := Caption r; Chat := Chat r; MsgID := MsgID r; ForEveryone := ForEveryone r; Action := Action r; Duration := v |}.

(** One member of the object, stored into the field its key matches;
    a key that matches no field is skipped. *)
Definition Request_member (acc : Request * option error) (kv : string * json.t)
    : Request * option error :=
  let '(key, j) := kv in
  if json.equalFold "command" key then set_string "Request" "command" j Command with_Command acc
  else if json.equalFold "to" key then set_string "Request" "to" j To with_To acc
  else if json.equalFold "message" key then set_string "Request" "message" j Message with_Message acc
  else if json.equalFold "file" key then set_string "Request" "file" j File with_File acc
  else if json.equalFold "caption" key then set_string "Request" "caption" j Caption with_Caption acc
  else if json.equalFold "chat" key then set_string "Request" "chat" j Chat with_Chat acc
  else if json.equalFold "msg_id" key then set_string "Request" "msg_id" j MsgID with_MsgID acc
  else if json.equalFold "for_everyone" key then set_bool "Request" "for_everyone" j ForEveryone with_ForEveryone acc
  else if json.equalFold "action" key then set_string "Request" "action" j Action with_Action acc
  else if json.equalFold "duration" key then set_string "Request" "duration" j Duration with_Duration acc
  else acc.

(** [json.Unmarshal(data, &req)] on the value [data] denotes, for a
    [req] that holds [old]. *)
Definition unmarshal_Request (j : json.t) (old : Request) : Request * option error :=
  match j with
  | json.Object ms => fold_left Request_member ms (old, None)
  | json.Null => (old, None)
  | _ => (old, Some (json.type_error_top j "ipc.Request"))
  end.

Definition SendTextResult_member (acc : SendTextResult * option error) (kv : string * json.t)
    : SendTextResult * option error :=
  let '(key, j) := kv in
  if json.equalFold "to" key then
    set_string "SendTextResult" "to" j Result_To
      (λ v r, {| Result_To := v; Result_MsgID := Result_MsgID r |}) acc
  else if json.equalFold "msg_id" key then
    set_string "SendTextResult" "msg_id" j Result_MsgID
      (λ v r, {| Result_To := Result_To r; Result_MsgID := v |}) acc
  else acc.

Definition unmarshal_SendTextResult (j : json.t) (old : SendTextResult)
    : SendTextResult * option error :=
  match j with
  | json.Object ms => fold_left SendTextResult_member ms (old, None)
  | json.Null => (old, None)
  | _ => (old, Some (json.type_error_top j "ipc.SendTextResult"))
  end.

Definition Response_member (acc : Response * option error) (kv : string * json.t)
    : Response * option error :=
  let '(key, j) := kv in
  if json.equalFold "success" key then
    set_bool "Response" "success" j Success
      (λ v r, {| Success := v; Error := Error r; Data := Data r |}) acc
  else if json.equalFold "error" key then
    set_string "Response" "error" j Error
      (λ v r, {| Success := Success r; Error := v; Data := Data r |}) acc
  else if json.equalFold "data" key then
    set_any "Response" "data" j
      (λ v r, {| Success := Success r; Error := Error r; Data := v |}) acc
  else acc.

Definition unmarshal_Response (j : json.t) (old : Response) : Response * option error :=
  match j with
  | json.Object ms => fold_left Response_member ms (old, None)
  | json.Null => (old, None)
  | _ => (old, Some (json.type_error_top j "ipc.Response"))
  end.

(** Code that calls the handler: it threads the handler's state and
    the list of calls made, and stops at a panic. *)
Section Dispatch.
Context {H : Type}.

Definition world : Type := H * list Call.
Definition M (A : Type) : Type := world → outcome A * world.

Definition ret {A} (a : A) : M A := λ w, (Returned a, w).

Definition bind {A B} (m : M A) (k : A → M B) : M B :=
  λ w, match m w with
       | (Returned a, w') => k a w'
       | (Panicked v, w') => (Panicked v, w')
       end.

Definition invoke {A} (c : Call) (f : H → outcome A * H) : M A :=
  λ w, let '(r, st) := f w.1 in (r, (st, (w.2 ++ [c])%list)).

Notation "'let*' x ':=' m 'in' k" := (bind m (λ x, k))
  (at level 10, x name, m at level 100, k at level 200, only parsing).

Definition processRequest (s : Server H) (req : Request) : M Response :=
  if String.eqb (Command req) "ping" then
    ret {| Success := true; Error := ""; Data := AnyString "pong" |}
  else if String.eqb (Command req) "send_text" then
    if (String.eqb (To req) "" || String.eqb (Message req) "")%bool then
      ret {| Success := false; Error := "to and message are required"; Data := AnyNil |}
    else
      let* r := invoke (CallSendText (To req) (Message req))
                 (SendText (handler s) (To req) (Message req)) in
      match r with
      | (_, Some err) => ret {| Success := false; Error := err; Data := AnyNil |}
      | (msgID, None) =>
        ret {| Success := true; Error := "";
               Data := AnySendTextResult {| Result_To := To req; Result_MsgID := msgID |} |}
      end
  else if String.eqb (Command req) "delete_message" then
    if (String.eqb (Chat req) "" || String.eqb (MsgID req) "")%bool then
      ret {| Success := false; Error := "chat and msg_id are required"; Data := AnyNil |}
    else
      let* r := invoke (CallDeleteMessage (Chat req) (MsgID req) (ForEveryone req))
                 (DeleteMessage (handler s) (Chat req) (MsgID req) (ForEveryone req)) in
      match r with
      | Some err => ret {| Success := false; Error := err; Data := AnyNil |}
      | None =>
        ret {| Success := true; Error := "";
               Data := AnyMap [("deleted", AnyBool true);
                               ("chat", AnyString (Chat req));
                               ("msg_id", AnyString (MsgID req));
                               ("for_everyone", AnyBool (ForEveryone req))] |}
      end
  else if String.eqb (Command req) "chat_state" then
    if (String.eqb (Chat req) "" || String.eqb (Action req) "")%bool then
      ret {| Success := false; Error := "chat and action are required"; Data := AnyNil |}
    else
      let* r := invoke (CallChatState (Chat req) (Action req) (Duration req))
                 (ChatState (handler s) (Chat req) (Action req) (Duration req)) in
      match r with
      | Some err => ret {| Success := false; Error := err; Data := AnyNil |}
      | None =>
        ret {| Success := true; Error := "";
               Data := AnyMap [("action", AnyString (Action req));
                               ("jid", AnyString (Chat req));
                               ("ok", AnyBool true)] |}
      end
  else
    ret {| Success := false; Error := "unknown command: " +:+ Command req; Data := AnyNil |}.

(** One accepted connection, from the server's end: what
    [ReadBytes] will answer (a line with its newline, or an error,
    which includes the read deadline passing), the bytes written so
    far, and the responses handed to [writeResponse] so far. *)
Record Conn := {
  incoming : error + string;
  written : list string;
  sent : list Response;
  closed : bool
}.

(** A connection just accepted: nothing was written on it yet. *)
Definition fresh_conn (incoming : error + string) : Conn :=
  {| incoming := incoming; written := []; sent := []; closed := false |}.

Definition Close (conn : Conn) : Conn :=
  {| incoming := incoming conn; written := written conn; sent := sent conn; closed := true |}.

(** [json.Marshal] failing leaves [data] nil: only the newline is
    written.  The error of [conn.Write] is dropped. *)
Definition writeResponse (conn : Conn) (resp : Response) : Conn :=
  let data := match marshal_Response resp with
              | Some j => json.print j
              | None => ""
              end in
  {| incoming := incoming conn;
     written := (written conn ++ [data +:+ String (Ascii.ascii_of_N 10) EmptyString])%list;
     sent := (sent conn ++ [resp])%list;
     closed := closed conn |}.

(** [json.Unmarshal(line, &req)]. *)
Definition Unmarshal_Request (line : string) (old : Request) : Request * option error :=
  match json.parse line with
  | inl e => (old, Some e)
  | inr j => unmarshal_Request j old
  end.

(** The deferred calls run when the body returns or panics: the
    recovering function first, then [conn.Close], then [wg.Done]. *)
Definition handleConn (s : Server H) (conn : Conn) (w : world) : Server H * Conn * world :=
  let '(conn', w') :=
    match incoming conn with
    | inl err =>
      (writeResponse conn {| Success := false; Error := wrap "read error: " err; Data := AnyNil |}, w)
    | inr line =>
      match Unmarshal_Request line Request_zero with
      | (_, Some err) =>
        (writeResponse conn {| Success := false; Error := wrap "invalid request: " err; Data := AnyNil |}, w)
      | (req, None) =>
        match processRequest s req w with
        | (Returned resp, w') => (writeResponse conn resp, w')
        | (Panicked r, w') =>
          (writeResponse conn {| Success := false; Error := "internal error: " +:+ r; Data := AnyNil |}, w')
        end
      end
    end in
  ({| storeDir := storeDir s; handler := handler s; listener := listener s;
      wg := pred (wg s); done := done s |},
   Close conn', w').

End Dispatch.

(** *** The socket file and the network

    The file system is the set of paths at which a file or a socket
    exists.  Directories and permissions are not modelled: a failure
    of [bind] for such a reason is an input of [Start], and so is a
    failure to remove the file that is at the socket path. *)

Class Filepath := { Join : string → string → string }.

Section Endpoint.
Context {fp : Filepath}.

Definition SocketPath (storeDir : string) : string := Join storeDir socketName.

Definition os_Remove (path : string) (fs : gset string) : option error * gset string :=
  if decide (path ∈ fs) then (None, fs ∖ {[path]})
  else (Some ("remove " +:+ path +:+ ": no such file or directory"), fs).

(** [os.Stat]: only whether it failed matters to this program. *)
Definition os_Stat (path : string) (fs : gset string) : option error :=
  if decide (path ∈ fs) then None
  else Some ("stat " +:+ path +:+ ": no such file or directory").

(** [net.Listen("unix", path)]: binding creates the socket file and
    fails when the path is taken. *)
Definition net_Listen (fault : option error) (path : string) (fs : gset string)
    : (error + Listener) * gset string :=
  match fault with
  | Some e => (inl e, fs)
  | None =>
    if decide (path ∈ fs)
    then (inl ("listen unix " +:+ path +:+ ": bind: address already in use"), fs)
    else (inr {| laddr := path |}, {[path]} ∪ fs)
  end.

(** Closing a Unix listener made by [net.Listen] unlinks its socket file. *)
Definition Listener_Close (l : Listener) (fs : gset string) : gset string :=
  fs ∖ {[laddr l]}.

(** [os.Remove] where the removal of a file that exists can fail too
    (a directory that cannot be written, a path that is a directory
    with entries): the file then stays. *)
Definition os_Remove_or (fault : option error) (path : string) (fs : gset string)
    : option error * gset string :=
  match fault with
  | Some e => (Some e, fs)
  | None => os_Remove path fs
  end.

(** [Start].  The result of [os.Remove] is dropped ([_ = os.Remove(sockPath)]):
    [unlink] is the fault of that removal, [bind] the fault of
    [net.Listen] other than a path that is taken. *)
Definition Start {H} (unlink bind : option error) (s : Server H) (fs : gset string)
    : option error * Server H * gset string :=
  let sockPath := SocketPath (storeDir s) in
  let fs1 := (os_Remove_or unlink sockPath fs).2 in
  match net_Listen bind sockPath fs1 with
  | (inl err, fs2) => (Some (wrap "listen on socket: " err), s, fs2)
  | (inr l, fs2) =>
    (None,
     {| storeDir := storeDir s; handler := handler s; listener := Some l;
        wg := S (wg s); done := done s |},
     fs2)
  end.

(** [Stop]: closing the closed channel [done] panics.  [wg.Wait]
    returns once the accept loop and the connection handlers in
    flight are done; none of them touches the socket file. *)
Definition Stop {H} (s : Server H) (fs : gset string) : outcome (Server H * gset string) :=
  if done s then Panicked "close of closed channel"
  else
    let fs1 := match listener s with
               | Some l => Listener_Close l fs
               | None => fs
               end in
    let fs2 := (os_Remove (SocketPath (storeDir s)) fs1).2 in
    Returned ({| storeDir := storeDir s; handler := handler s; listener := listener s;
                 wg := 0; done := true |}, fs2).

(** *** The client *)

Record Client := { client_storeDir : string }.

Definition NewClient (storeDir : string) : Client := {| client_storeDir := storeDir |}.

Definition IsAvailable (c : Client) (fs : gset string) : bool :=
  match os_Stat (SocketPath (client_storeDir c)) fs with
  | None => true
  | Some _ => false
  end.

(** What one connection does with the bytes the client writes. *)
Inductive Exchange : Type :=
| WriteFails (err : error)
| ReadFails (err : error)   (* also: the read deadline passes *)
| Replies (line : string).

(** The network seen from the client: dialing a path fails, or gives
    a connection. *)
Definition Network : Type := string → error + (string → Exchange).

Definition newline : string := String (Ascii.ascii_of_N 10) EmptyString.

(** [json.Unmarshal(line, &resp)]. *)
Definition Unmarshal_Response (line : string) (old : Response) : Response * option error :=
  match json.parse line with
  | inl e => (old, Some e)
  | inr j => unmarshal_Response j old
  end.

(** Every return of [send] is either a nil pointer with an error or a
    response with a nil error: its result is a sum. *)
Definition send (c : Client) (req : Request) (net : Network) : error + Response :=
  let sockPath := SocketPath (client_storeDir c) in
  match net sockPath with
  | inl err => inl (wrap "connect to daemon: " err)
  | inr conn =>
    let data := json.print (marshal_Request req) +:+ newline in
    match conn data with
    | WriteFails err => inl (wrap "write request: " err)
    | ReadFails err => inl (wrap "read response: " err)
    | Replies line =>
      match Unmarshal_Response line Response_zero with
      | (_, Some err) => inl (wrap "parse response: " err)
      | (resp, None) => inr resp
      end
    end
  end.

(** The requests the typed helpers build. *)
Definition ping_request : Request :=
  {| Command := "ping"; To := ""; Message := ""; File := ""; Caption := ""; Chat := "";
     MsgID := ""; ForEveryone := false; Action := ""; Duration := "" |}.

Definition send_text_request (to message : string) : Request :=
  {| Command := "send_text"; To := to; Message := message; File := ""; Caption := "";
     Chat := ""; MsgID := ""; ForEveryone := false; Action := ""; Duration := "" |}.

Definition delete_message_request (chat msgID : string) (forEveryone : bool) : Request :=
  {| Command := "delete_message"; To := ""; Message := ""; File := ""; Caption := "";
     Chat := chat; MsgID := msgID; ForEveryone := forEveryone; Action := ""; Duration := "" |}.

Definition chat_state_request (jid action duration : string) : Request :=
  {| Command := "chat_state"; To := ""; Message := ""; File := ""; Caption := "";
     Chat := jid; MsgID := ""; ForEveryone := false; Action := action; Duration := duration |}.

(** [Client.SendText] returns a pointer and an error: a nil pointer
    is [None].

    [json.Unmarshal(data, &result)] on the [data] that
    [json.Marshal(resp.Data)] wrote: the text written and read back
    denotes the same value; after a failed [Marshal] the data is
    empty, which is no JSON text. *)
Definition reparse_SendTextResult (v : any) : SendTextResult * option error :=
  match marshal_any v with
  | Some j => unmarshal_SendTextResult j SendTextResult_zero
  | None => (SendTextResult_zero, Some "unexpected end of JSON input")
  end.

Definition Client_SendText (c : Client) (to message : string) (net : Network)
    : option SendTextResult * option error :=
  let req := send_text_request to message in
  match send c req net with
  | inl err => (None, Some err)
  | inr resp =>
    if negb (Success resp) then (None, Some (Error resp))
    else
      match reparse_SendTextResult (Data resp) with
      | (_, Some err) => (None, Some (wrap "parse response: " err))
      | (result, None) => (Some result, None)
      end
  end.

Definition Client_Ping (c : Client) (net : Network) : option error :=
  let req := ping_request in
  match send c req net with
  | inl err => Some err
  | inr resp => if negb (Success resp) then Some (Error resp) else None
  end.

Definition Client_DeleteMessage (c : Client) (chat msgID : string) (forEveryone : bool)
    (net : Network) : option error :=
  let req := delete_message_request chat msgID forEveryone in
  match send c req net with
  | inl err => Some err
  | inr resp => if negb (Success resp) then Some (Error resp) else None
  end.

Definition Client_ChatState (c : Client) (jid action duration : string) (net : Network)
    : option error :=
  let req := chat_state_request jid action duration in
  match send c req net with
  | inl err => Some err
  | inr resp => if negb (Success resp) then Some (Error resp) else None
  end.

End Endpoint.

End Wire.

End ipc.

(** ** What this program takes from outside the files at hand

    [types.JID] of whatsmeow with its [String] method,
    [wa.ParseUserOrJID], [time.ParseDuration] (a [time.Duration] is a
    number of nanoseconds), [strings.TrimSpace],
    [config.DefaultStoreDir], [filepath.Abs], the helper [boolToInt] of
    package [store], and [waCommon.MessageKey]. *)

Class Lib := {
  JID : Type;
  JID_String : JID → string;
  ParseUserOrJID : string → error + JID;
  ParseDuration : string → error + Z;
  TrimSpace : string → string;
  DefaultStoreDir : string;
  filepath_Abs : string → string;
  boolToInt : bool → Z;
  MessageKey : Type
}.

(** A [time.Time], as nanoseconds since the Unix epoch. *)
Definition Time := Z.

(** [time.Time{}]: January 1 of year 1, 00:00 UTC. *)
Definition Time_zero : Time := (-62135596800 * 1000000000)%Z.

(** [t.Add(d)] and [t.Unix()] (away from the ends of the range of [Time]). *)
Definition Time_Add (t : Time) (d : Z) : Time := (t + d)%Z.
Definition Time_Unix (t : Time) : Z := (t `div` 1000000000)%Z.

(** ** Package [store]: the chat-state columns of table [chats] *)

Module store.

(** One row of [chats]; the primary key [jid] is the key of the map. *)
Record row := {
  kind : string;
  name : string;
  last_message_ts : Z;
  archived : Z;
  pinned : Z;
  muted_until : Z;
  unread : Z
}.

(** The database: the rows of [chats], and the error every statement
    meets while the connection is broken (closed, locked, disk full). *)
Record DB := {
  chats : gmap string row;
  broken : option error
}.

(** [d.sql.Exec("UPDATE chats SET <column> = ? WHERE jid = ?", v, jid)]:
    the statement changes the row with that key when there is one, and
    is no error when there is none. *)
Definition exec_update (upd : row → row) (jid : string) (d : DB) : option error * DB :=
  match broken d with
  | Some err => (Some err, d)
  | None => (None, {| chats := alter upd jid (chats d); broken := broken d |})
  end.

Section Setters.
Context {lib : Lib}.

Definition SetChatArchived (jid : string) (v : bool) (d : DB) : option error * DB :=
  exec_update (λ r, {| kind := kind r; name := name r; last_message_ts := last_message_ts r;
                       archived := boolToInt v; pinned := pinned r;
                       muted_until := muted_until r; unread := unread r |}) jid d.

Definition SetChatPinned (jid : string) (v : bool) (d : DB) : option error * DB :=
  exec_update (λ r, {| kind := kind r; name := name r; last_message_ts := last_message_ts r;
                       archived := archived r; pinned := boolToInt v;
                       muted_until := muted_until r; unread := unread r |}) jid d.

Definition SetChatMutedUntil (jid : string) (v : Z) (d : DB) : option error * DB :=
  exec_update (λ r, {| kind := kind r; name := name r; last_message_ts := last_message_ts r;
                       archived := archived r; pinned := pinned r;
                       muted_until := v; unread := unread r |}) jid d.

Definition SetChatUnread (jid : string) (v : bool) (d : DB) : option error * DB :=
  exec_update (λ r, {| kind := kind r; name := name r; last_message_ts := last_message_ts r;
                       archived := archived r; pinned := pinned r;
                       muted_until := muted_until r; unread := boolToInt v |}) jid d.
End Setters.

End store.

(** ** Package [wa]: application-state patches sent over the session *)

Module wa.

Section Session.
Context {lib : Lib}.

(** The patches of whatsmeow's [appstate.Build...] functions, by the
    function and its arguments. *)
Inductive PatchInfo : Type :=
| BuildArchive (target : JID) (archive : bool) (lastMsgTS : Time) (lastMsgKey : option MessageKey)
| BuildPin (target : JID) (pin : bool)
| BuildMute (target : JID) (mute : bool) (duration : Z)
| BuildMarkChatAsRead (target : JID) (read : bool) (lastMsgTS : Time) (lastMsgKey : option MessageKey).

(** The whatsmeow client behind [wa.Client], on a session state [W]. *)
Class Whatsmeow (W : Type) := {
  cli_IsConnected : W → bool;
  cli_SendAppState : PatchInfo → W → option error * W
}.

Context {W : Type} {cli : Whatsmeow W}.

(** [wa.Client]: the field [client] is nil until the session is opened. *)
Record Client := { client : option W }.

Definition SendAppState (patch : PatchInfo) (c : Client) : option error * Client :=
  match client c with
  | None => (Some "not connected", c)
  | Some cli =>
    if negb (cli_IsConnected cli) then (Some "not connected", c)
    else
      let '(err, cli') := cli_SendAppState patch cli in
      (err, {| client := Some cli' |})
  end.

Definition ArchiveChat (target : JID) (archive : bool) (lastMsgTS : Time)
    (lastMsgKey : option MessageKey) (c : Client) : option error * Client :=
  SendAppState (BuildArchive target archive lastMsgTS lastMsgKey) c.

Definition PinChat (target : JID) (pin : bool) (c : Client) : option error * Client :=
  SendAppState (BuildPin target pin) c.

Definition MuteChat (target : JID) (mute : bool) (duration : Z) (c : Client)
    : option error * Client :=
  SendAppState (BuildMute target mute duration) c.

Definition MarkChatAsRead (target : JID) (read : bool) (lastMsgTS : Time)
    (lastMsgKey : option MessageKey) (c : Client) : option error * Client :=
  SendAppState (BuildMarkChatAsRead target read lastMsgTS lastMsgKey) c.

End Session.
Arguments Client : clear implicits.

End wa.

(** ** Package [app]: chat-state operations mirrored into the cache *)

Module app.

Section Mirror.
Context {lib : Lib}.

(** The interface [WAClient] behind the field [a.wa], as far as these
    operations use it, on the state [S] of its implementation. *)
Class WAClient (S : Type) := {
  IsConnected : S → bool;
  wa_ArchiveChat : JID → bool → Time → option MessageKey → S → option error * S;
  wa_PinChat : JID → bool → S → option error * S;
  wa_MuteChat : JID → bool → Z → S → option error * S;
  wa_MarkChatAsRead : JID → bool → Time → option MessageKey → S → option error * S
}.

Context {S : Type} {wac : WAClient S}.

(** [App]: the session client (a nil interface until it is opened),
    the cache, and the wall clock read by [time.Now]. *)
Record App := {
  wa : option S;
  db : store.DB;
  now : Time
}.

Definition nil_dereference : string :=
  "runtime error: invalid memory address or nil pointer dereference".

(** A method call on [a.wa]; on the nil interface it panics. *)
Definition on_wa (f : S → option error * S) (a : App)
    (k : option error → App → ipc.outcome (option error) * App)
    : ipc.outcome (option error) * App :=
  match wa a with
  | None => (ipc.Panicked nil_dereference, a)
  | Some s =>
    let '(err, s') := f s in
    k err {| wa := Some s'; db := db a; now := now a |}
  end.

(** A call on [a.db], whose error is the result. *)
Definition on_db (f : store.DB → option error * store.DB) (a : App)
    : ipc.outcome (option error) * App :=
  let '(err, d') := f (db a) in
  (ipc.Returned err, {| wa := wa a; db := d'; now := now a |}).

Definition ArchiveChat (jid : JID) (archive : bool) (a : App)
    : ipc.outcome (option error) * App :=
  on_wa (wa_ArchiveChat jid archive Time_zero None) a (λ err a',
    match err with
    | Some e => (ipc.Returned (Some e), a')
    | None => on_db (store.SetChatArchived (JID_String jid) archive) a'
    end).

Definition PinChat (jid : JID) (pin : bool) (a : App)
    : ipc.outcome (option error) * App :=
  on_wa (wa_PinChat jid pin) a (λ err a',
    match err with
    | Some e => (ipc.Returned (Some e), a')
    | None => on_db (store.SetChatPinned (JID_String jid) pin) a'
    end).

Definition MuteChat (jid : JID) (mute : bool) (duration : Z) (a : App)
    : ipc.outcome (option error) * App :=
  on_wa (wa_MuteChat jid mute duration) a (λ err a',
    match err with
    | Some e => (ipc.Returned (Some e), a')
    | None =>
      let mu : Z :=
        if mute then
          if (duration <=? 0)%Z then (-1)%Z
          else Time_Unix (Time_Add (now a') duration)
        else 0%Z in
      on_db (store.SetChatMutedUntil (JID_String jid) mu) a'
    end).

Definition MarkChatRead (jid : JID) (read : bool) (a : App)
    : ipc.outcome (option error) * App :=
  on_wa (wa_MarkChatAsRead jid read Time_zero None) a (λ err a',
    match err with
    | Some e => (ipc.Returned (Some e), a')
    | None => on_db (store.SetChatUnread (JID_String jid) (negb read)) a'
    end).

End Mirror.
Arguments App : clear implicits.

End app.

(** ** Package [main] ([cmd/wacli]): the daemon's handler and the
    commands that try the daemon first *)

Module main.

(** *** [syncHandler.ChatState] *)

Section SyncHandler.
Context {lib : Lib} {S : Type} {wac : app.WAClient S}.

(** [syncHandler]: the field [app] is a pointer, nil or not. *)
Record syncHandler := { h_app : option (app.App S) }.

Definition set_app (a : app.App S) : syncHandler := {| h_app := Some a |}.

Definition lift (r : ipc.outcome (option error) * app.App S)
    : ipc.outcome (option error) * syncHandler :=
  (r.1, set_app r.2).

Definition ChatState (jid action duration : string) (h : syncHandler)
    : ipc.outcome (option error) * syncHandler :=
  match h_app h with
  | None => (ipc.Returned (Some "app not initialized"), h)
  | Some a =>
    match app.wa a with
    | None => (ipc.Returned (Some "whatsapp client not initialized"), h)
    | Some s =>
      if negb (app.IsConnected s) then (ipc.Returned (Some "whatsapp not connected"), h)
      else
        match ParseUserOrJID jid with
        | inl err => (ipc.Returned (Some (wrap "parse jid: " err)), h)
        | inr chatJID =>
          if String.eqb action "archive" then lift (app.ArchiveChat chatJID true a)
          else if String.eqb action "unarchive" then lift (app.ArchiveChat chatJID false a)
          else if String.eqb action "pin" then lift (app.PinChat chatJID true a)
          else if String.eqb action "unpin" then lift (app.PinChat chatJID false a)
          else if String.eqb action "mute" then
            match (if String.eqb duration "" then inr 0%Z else ParseDuration duration) with
            | inl err => (ipc.Returned (Some (wrap "invalid duration: " err)), h)
            | inr dur => lift (app.MuteChat chatJID true dur a)
            end
          else if String.eqb action "unmute" then lift (app.MuteChat chatJID false 0 a)
          else if String.eqb action "mark-read" then lift (app.MarkChatRead chatJID true a)
          else if String.eqb action "mark-unread" then lift (app.MarkChatRead chatJID false a)
          else (ipc.Returned (Some ("unknown chat state action: " +:+ action)), h)
        end
    end
  end.

End SyncHandler.
Arguments syncHandler : clear implicits.

(** *** The commands *)

Record rootFlags := { flag_storeDir : string; asJSON : bool }.

(** [store.UpsertMessageParams], as the commands fill it. *)
Record UpsertMessageParams := {
  ChatJID : string;
  ChatName : string;
  MsgID : string;
  SenderJID : string;
  SenderName : string;
  Timestamp : Time;
  FromMe : bool;
  Text : string
}.

Section Commands.
Context {lib : Lib} {fp : ipc.Filepath} {text : json.Text}.

(** What the direct path works with, on the state [P] of the
    process: [newApp] (which opens the store and takes its lock),
    [closeApp], the application with its session and cache (its
    [MuteChat] is the operation of package [app]),
    [chatKindFromJID], [out.WriteJSON] on standard output, and the
    clock. *)
Class Direct (P : Type) := {
  newApp : P → option error * P;
  closeApp : P → P;
  EnsureAuthed : P → option error * P;
  Connect : P → option error * P;
  WA_SendText : JID → string → P → (string * option error) * P;
  WA_ResolveChatName : JID → string → P → string * P;
  WA_is_Client : P → bool;
  RevokeMessage : JID → string → bool → P → option error * P;
  MuteChat : JID → bool → Z → P → option error * P;
  chatKindFromJID : JID → string;
  UpsertChat : string → string → string → Time → P → P;
  UpsertMessage : UpsertMessageParams → P → P;
  WriteJSON : ipc.any → list string → option error * list string;
  time_Now : P → Time
}.

Context {P : Type} {direct : Direct P}.

(** The process: the state behind the direct path, and what was
    written to the standard streams. *)
Record Proc := { state : P; stdout : list string; stderr : list string }.

Definition on_state {A} (f : P → A * P) (p : Proc) : A * Proc :=
  let '(a, s) := f (state p) in
  (a, {| state := s; stdout := stdout p; stderr := stderr p |}).

Definition Fprintf_stdout (s : string) (p : Proc) : Proc :=
  {| state := state p; stdout := (stdout p ++ [s])%list; stderr := stderr p |}.

Definition Fprintf_stderr (s : string) (p : Proc) : Proc :=
  {| state := state p; stdout := stdout p; stderr := (stderr p ++ [s])%list |}.

Definition WriteJSON_stdout (v : ipc.any) (p : Proc) : option error * Proc :=
  let '(err, o) := WriteJSON v (stdout p) in
  (err, {| state := state p; stdout := o; stderr := stderr p |}).

(** The store directory a command works in. *)
Definition resolve_storeDir (flags : rootFlags) : string :=
  filepath_Abs (if String.eqb (flag_storeDir flags) "" then DefaultStoreDir
                else flag_storeDir flags).

(** The first half of a command either returns or falls through to
    the direct path. *)
Inductive tried : Type :=
| Return (r : ipc.outcome (option error)) (p : Proc)
| FallThrough (p : Proc).

Definition or_else (t : tried) (direct : Proc → ipc.outcome (option error) * Proc)
    : ipc.outcome (option error) * Proc :=
  match t with
  | Return r p => (r, p)
  | FallThrough p => direct p
  end.

(** The opening of every direct path: [newApp], the deferred
    [closeApp], [EnsureAuthed], [Connect]. *)
Definition with_app (body : Proc → option error * Proc) (p : Proc)
    : ipc.outcome (option error) * Proc :=
  match on_state newApp p with
  | (Some err, p1) => (ipc.Returned (Some err), p1)
  | (None, p1) =>
    let '(r, p4) :=
      match on_state EnsureAuthed p1 with
      | (Some err, p2) => (Some err, p2)
      | (None, p2) =>
        match on_state Connect p2 with
        | (Some err, p3) => (Some err, p3)
        | (None, p3) => body p3
        end
      end in
    (ipc.Returned r, (on_state (λ s, ((), closeApp s)) p4).2)
  end.

(** **** [wacli send text] *)

Definition sendText_ipc (flags : rootFlags) (to message : string) (noIPC : bool)
    (fs : gset string) (net : ipc.Network) (p : Proc) : tried :=
  if noIPC then FallThrough p
  else
    let client := ipc.NewClient (resolve_storeDir flags) in
    if ipc.IsAvailable client fs then
      match ipc.Client_SendText client to message net with
      | (_, Some err) =>
        FallThrough (Fprintf_stderr ("IPC send failed (" +:+ err +:+ "), trying direct mode..." +:+ ipc.newline) p)
      | (None, None) => Return (ipc.Panicked app.nil_dereference) p
      | (Some result, None) =>
        if asJSON flags then
          let '(err, p') :=
            WriteJSON_stdout (ipc.AnyMap [("sent", ipc.AnyBool true);
                                          ("to", ipc.AnyString (ipc.Result_To result));
                                          ("id", ipc.AnyString (ipc.Result_MsgID result));
                                          ("via", ipc.AnyString "ipc")]) p in
          Return (ipc.Returned err) p'
        else
          Return (ipc.Returned None)
            (Fprintf_stdout ("Sent to " +:+ ipc.Result_To result +:+ " (id " +:+
                             ipc.Result_MsgID result +:+ ") via daemon" +:+ ipc.newline) p)
      end
    else FallThrough p.

Definition sendText_direct (flags : rootFlags) (to message : string) (p : Proc)
    : ipc.outcome (option error) * Proc :=
  with_app (λ p,
    match ParseUserOrJID to with
    | inl err => (Some err, p)
    | inr toJID =>
      match on_state (WA_SendText toJID message) p with
      | ((_, Some err), p1) => (Some err, p1)
      | ((msgID, None), p1) =>
        let now := time_Now (state p1) in
        let chat := toJID in
        let '(chatName, p2) := on_state (WA_ResolveChatName chat "") p1 in
        let kind := chatKindFromJID chat in
        let p3 := (on_state (λ s, ((), UpsertChat (JID_String chat) kind chatName now s)) p2).2 in
        let p4 := (on_state (λ s, ((), UpsertMessage
                     {| ChatJID := JID_String chat; ChatName := chatName; MsgID := msgID;
                        SenderJID := ""; SenderName := "me"; Timestamp := now;
                        FromMe := true; Text := message |} s)) p3).2 in
        if asJSON flags then
          WriteJSON_stdout (ipc.AnyMap [("sent", ipc.AnyBool true);
                                        ("to", ipc.AnyString (JID_String chat));
                                        ("id", ipc.AnyString msgID);
                                        ("via", ipc.AnyString "direct")]) p4
        else
          (None, Fprintf_stdout ("Sent to " +:+ JID_String chat +:+ " (id " +:+ msgID +:+ ")"
                                 +:+ ipc.newline) p4)
      end
    end) p.

(** [RunE] of [newSendTextCmd], with the values of its flags. *)
Definition sendText_RunE (flags : rootFlags) (to message : string) (noIPC : bool)
    (fs : gset string) (net : ipc.Network) (p : Proc) : ipc.outcome (option error) * Proc :=
  if (String.eqb to "" || String.eqb message "")%bool then
    (ipc.Returned (Some "--to and --message are required"), p)
  else
    or_else (sendText_ipc flags to message noIPC fs net p) (sendText_direct flags to message).

(** **** [wacli delete message] *)

Definition deleteMessage_ipc (flags : rootFlags) (chat msgID : string) (forEveryone noIPC : bool)
    (fs : gset string) (net : ipc.Network) (p : Proc) : tried :=
  if noIPC then FallThrough p
  else
    let client := ipc.NewClient (resolve_storeDir flags) in
    if ipc.IsAvailable client fs then
      match ipc.Client_DeleteMessage client chat msgID forEveryone net with
      | Some err =>
        FallThrough (Fprintf_stderr ("IPC delete failed (" +:+ err +:+ "), trying direct mode..." +:+ ipc.newline) p)
      | None =>
        if asJSON flags then
          let '(err, p') :=
            WriteJSON_stdout (ipc.AnyMap [("deleted", ipc.AnyBool true);
                                          ("chat", ipc.AnyString chat);
                                          ("id", ipc.AnyString msgID);
                                          ("forEveryone", ipc.AnyBool forEveryone);
                                          ("via", ipc.AnyString "ipc")]) p in
          Return (ipc.Returned err) p'
        else
          Return (ipc.Returned None)
            (Fprintf_stdout ("Deleted message " +:+ msgID +:+ " from " +:+ chat +:+
                             " via daemon" +:+ ipc.newline) p)
      end
    else FallThrough p.

Definition deleteMessage_direct (flags : rootFlags) (chat msgID : string) (forEveryone : bool)
    (p : Proc) : ipc.outcome (option error) * Proc :=
  with_app (λ p,
    match ParseUserOrJID chat with
    | inl err => (Some (wrap "parse chat: " err), p)
    | inr chatJID =>
      if negb (WA_is_Client (state p)) then (Some "unexpected WA client type", p)
      else
        match on_state (RevokeMessage chatJID msgID forEveryone) p with
        | (Some err, p1) => (Some (wrap "revoke: " err), p1)
        | (None, p1) =>
          if asJSON flags then
            WriteJSON_stdout (ipc.AnyMap [("deleted", ipc.AnyBool true);
                                          ("chat", ipc.AnyString (JID_String chatJID));
                                          ("id", ipc.AnyString msgID);
                                          ("forEveryone", ipc.AnyBool forEveryone);
                                          ("via", ipc.AnyString "direct")]) p1
          else
            (None, Fprintf_stdout ("Deleted message " +:+ msgID +:+ " from " +:+
                                   JID_String chatJID +:+ ipc.newline) p1)
        end
    end) p.

(** [RunE] of [newDeleteMessageCmd]. *)
Definition deleteMessage_RunE (flags : rootFlags) (chat msgID : string)
    (forEveryone noIPC : bool) (fs : gset string) (net : ipc.Network) (p : Proc)
    : ipc.outcome (option error) * Proc :=
  if (String.eqb chat "" || String.eqb msgID "")%bool then
    (ipc.Returned (Some "--chat and --id are required"), p)
  else
    or_else (deleteMessage_ipc flags chat msgID forEveryone noIPC fs net p)
            (deleteMessage_direct flags chat msgID forEveryone).

(** **** [wacli chats archive|unarchive|pin|unpin|unmute|mark-read|mark-unread] *)

Record chatStateAction := {
  use : string;
  short : string;
  run : JID → string → P → option error * P
}.

Definition chatState_ipc (flags : rootFlags) (action : chatStateAction) (jidStr : string)
    (noIPC : bool) (fs : gset string) (net : ipc.Network) (p : Proc) : tried :=
  if noIPC then FallThrough p
  else
    let client := ipc.NewClient (resolve_storeDir flags) in
    if ipc.IsAvailable client fs then
      match ipc.Client_ChatState client jidStr (use action) "" net with
      | Some err =>
        FallThrough (Fprintf_stderr ("IPC " +:+ use action +:+ " failed (" +:+ err +:+
                                     "), trying direct mode..." +:+ ipc.newline) p)
      | None =>
        if asJSON flags then
          let '(err, p') :=
            WriteJSON_stdout (ipc.AnyMap [("jid", ipc.AnyString jidStr);
                                          ("action", ipc.AnyString (use action));
                                          ("ok", ipc.AnyBool true);
                                          ("via", ipc.AnyString "ipc")]) p in
          Return (ipc.Returned err) p'
        else
          Return (ipc.Returned None) (Fprintf_stdout ("OK (via daemon)" +:+ ipc.newline) p)
      end
    else FallThrough p.

Definition chatState_direct (flags : rootFlags) (action : chatStateAction) (jidStr : string)
    (p : Proc) : ipc.outcome (option error) * Proc :=
  with_app (λ p,
    match ParseUserOrJID jidStr with
    | inl err => (Some err, p)
    | inr jid =>
      match on_state (run action jid jidStr) p with
      | (Some err, p1) => (Some err, p1)
      | (None, p1) =>
        if asJSON flags then
          WriteJSON_stdout (ipc.AnyMap [("jid", ipc.AnyString (JID_String jid));
                                        ("action", ipc.AnyString (use action));
                                        ("ok", ipc.AnyBool true);
                                        ("via", ipc.AnyString "direct")]) p1
        else (None, Fprintf_stdout ("OK" +:+ ipc.newline) p1)
      end
    end) p.

(** [RunE] of [newChatStateCmd]. *)
Definition chatState_RunE (flags : rootFlags) (action : chatStateAction) (jidStr : string)
    (noIPC : bool) (fs : gset string) (net : ipc.Network) (p : Proc)
    : ipc.outcome (option error) * Proc :=
  if String.eqb (TrimSpace jidStr) "" then (ipc.Returned (Some "--jid is required"), p)
  else
    or_else (chatState_ipc flags action jidStr noIPC fs net p)
            (chatState_direct flags action jidStr).

(** **** [wacli chats mute] *)

Definition chatsMute_ipc (flags : rootFlags) (jidStr durStr : string)
    (noIPC : bool) (fs : gset string) (net : ipc.Network) (p : Proc) : tried :=
  if noIPC then FallThrough p
  else
    let client := ipc.NewClient (resolve_storeDir flags) in
    if ipc.IsAvailable client fs then
      match ipc.Client_ChatState client jidStr "mute" durStr net with
      | Some err =>
        FallThrough (Fprintf_stderr ("IPC mute failed (" +:+ err +:+
                                     "), trying direct mode..." +:+ ipc.newline) p)
      | None =>
        if asJSON flags then
          let '(err, p') :=
            WriteJSON_stdout (ipc.AnyMap [("jid", ipc.AnyString jidStr);
                                          ("action", ipc.AnyString "mute");
                                          ("ok", ipc.AnyBool true);
                                          ("via", ipc.AnyString "ipc")]) p in
          Return (ipc.Returned err) p'
        else
          Return (ipc.Returned None) (Fprintf_stdout ("OK (via daemon)" +:+ ipc.newline) p)
      end
    else FallThrough p.

Definition chatsMute_direct (flags : rootFlags) (jidStr durStr : string)
    (p : Proc) : ipc.outcome (option error) * Proc :=
  with_app (λ p,
    match ParseUserOrJID jidStr with
    | inl err => (Some err, p)
    | inr jid =>
      match (if String.eqb (TrimSpace durStr) "" then inr 0%Z else ParseDuration durStr) with
      | inl err => (Some (wrap "invalid --duration: " err), p)
      | inr dur =>
        match on_state (MuteChat jid true dur) p with
        | (Some err, p1) => (Some err, p1)
        | (None, p1) =>
          if asJSON flags then
            WriteJSON_stdout (ipc.AnyMap [("jid", ipc.AnyString (JID_String jid));
                                          ("action", ipc.AnyString "mute");
                                          ("ok", ipc.AnyBool true);
                                          ("via", ipc.AnyString "direct")]) p1
          else (None, Fprintf_stdout ("OK" +:+ ipc.newline) p1)
        end
      end
    end) p.

(** [RunE] of [newChatsMuteCmd]. *)
Definition chatsMute_RunE (flags : rootFlags) (jidStr durStr : string)
    (noIPC : bool) (fs : gset string) (net : ipc.Network) (p : Proc)
    : ipc.outcome (option error) * Proc :=
  if String.eqb (TrimSpace jidStr) "" then (ipc.Returned (Some "--jid is required"), p)
  else
    or_else (chatsMute_ipc flags jidStr durStr noIPC fs net p)
            (chatsMute_direct flags jidStr durStr).

End Commands.
Arguments Proc : clear implicits.

End main.

(** ** A concrete environment for the examples *)

Module example.

(** The text layer of the examples: the writer and the reader above;
    a number keeps its decimal literal (the examples hold none). *)
#[export] Instance text : json.Text := {|
  json.parse := json.read;
  json.print := json.write;
  json.float64 := string;
  json.ParseFloat := inr;
  json.FormatFloat := Some
|}.

(** [filepath.Join] on a clean directory name and a file name. *)
#[export] Instance fp : ipc.Filepath := {| ipc.Join dir file := dir +:+ "/" +:+ file |}.

(** A handler without a session: it counts its calls, sends nothing
    and answers as told. *)
Definition scripted (send : ipc.outcome (string * option error))
    (other : ipc.outcome (option error)) : ipc.Handler nat :=
  {| ipc.SendText _ _ n := (send, S n);
     ipc.DeleteMessage _ _ _ n := (other, S n);
     ipc.ChatState _ _ _ n := (other, S n) |}.

Definition request (command : string) : ipc.Request :=
  ipc.with_Command command ipc.Request_zero.

(** The network when the daemon [s] listens: dialing its socket path
    gives a connection served by [handleConn]; dialing elsewhere fails. *)
Definition daemon (s : ipc.Server nat) : ipc.Network :=
  λ path,
    if String.eqb path (ipc.SocketPath (ipc.storeDir s)) then
      inr (λ data,
             match ipc.written (ipc.handleConn s (ipc.fresh_conn (inr data)) (0, [])).1.2 with
             | [line] => ipc.Replies line
             | _ => ipc.ReadFails "EOF"
             end)
    else inl ("dial unix " +:+ path +:+ ": connect: no such file or directory").

(** The network when whatever listens answers every request like a ping. *)
Definition pong_everywhere : ipc.Network :=
  λ _, inr (λ _,
    ipc.Replies
      (json.write (json.Object [("success", json.Bool true); ("data", json.Str "pong")])
       +:+ ipc.newline)).

(** The library functions of the examples: a JID is written in full;
    a duration is a decimal number followed by [h], [m] or [s]. *)
Definition decimal (ds : string) : Z :=
  (fix go (ds : string) (acc : Z) : Z :=
     match ds with
     | EmptyString => acc
     | String d ds' => go ds' (10 * acc + Z.of_N (json.ord d - 48))%Z
     end) ds 0%Z.

Definition parse_duration (s : string) : error + Z :=
  match json.digits s with
  | (EmptyString, _) => inl ("time: invalid duration " +:+ s)
  | (ds, unit) =>
    if String.eqb unit "h" then inr (decimal ds * 3600000000000)%Z
    else if String.eqb unit "m" then inr (decimal ds * 60000000000)%Z
    else if String.eqb unit "s" then inr (decimal ds * 1000000000)%Z
    else inl ("time: unknown unit in duration " +:+ s)
  end.

#[export] Instance lib : Lib := {|
  JID := string;
  JID_String := id;
  ParseUserOrJID s := if String.eqb s "" then inl "empty JID" else inr s;
  ParseDuration := parse_duration;
  TrimSpace s := String.rev (json.skip_ws (String.rev (json.skip_ws s)));
  DefaultStoreDir := "/home/user/.wacli";
  filepath_Abs := id;
  boolToInt b := if b then 1%Z else 0%Z;
  MessageKey := unit
|}.

(** A whatsmeow client that records the patches it sent, and refuses
    them all while [refuse] holds an error. *)
Record session := {
  connected : bool;
  refuse : option error;
  patches : list wa.PatchInfo
}.

#[export] Instance whatsmeow : wa.Whatsmeow session := {|
  wa.cli_IsConnected := connected;
  wa.cli_SendAppState patch w :=
    match refuse w with
    | Some err => (Some err, w)
    | None => (None, {| connected := connected w; refuse := refuse w;
                        patches := (patches w ++ [patch])%list |})
    end
|}.

(** [wa.Client] as the [WAClient] of the application. *)
#[export] Instance wa_client : app.WAClient (wa.Client session) := {|
  app.IsConnected c := match wa.client c with Some w => connected w | None => false end;
  app.wa_ArchiveChat := wa.ArchiveChat;
  app.wa_PinChat := wa.PinChat;
  app.wa_MuteChat := wa.MuteChat;
  app.wa_MarkChatAsRead := wa.MarkChatAsRead
|}.

Definition alice : string := "4915112345678@s.whatsapp.net".

Definition cache : store.DB :=
  {| store.chats := {[ alice := {| store.kind := "dm"; store.name := "Alice";
                                   store.last_message_ts := 1700000000;
                                   store.archived := 0; store.pinned := 0;
                                   store.muted_until := 0; store.unread := 1 |} ]};
     store.broken := None |}.

(** The application of a daemon whose session is up ([refuse = None])
    or refuses every patch. *)
Definition application (refuse : option error) : app.App (wa.Client session) :=
  {| app.wa := Some {| wa.client := Some {| connected := true; refuse := refuse; patches := [] |} |};
     app.db := cache;
     app.now := 1700000000000000000%Z |}.

(** A direct path that succeeds at every step and keeps the list of the
    steps taken. *)
#[export] Instance direct : main.Direct (list string) := {|
  main.newApp p := (None, (p ++ ["newApp"])%list);
  main.closeApp p := (p ++ ["closeApp"])%list;
  main.EnsureAuthed p := (None, (p ++ ["EnsureAuthed"])%list);
  main.Connect p := (None, (p ++ ["Connect"])%list);
  main.WA_SendText jid message p :=
    (("3EB0C0FFEE", None), (p ++ ["SendText " +:+ jid +:+ " " +:+ message])%list);
  main.WA_ResolveChatName jid _ p := ("Alice", p);
  main.WA_is_Client _ := true;
  main.RevokeMessage jid msgID _ p := (None, (p ++ ["RevokeMessage " +:+ jid +:+ " " +:+ msgID])%list);
  main.MuteChat jid _ _ p := (None, (p ++ ["MuteChat " +:+ jid])%list);
  main.chatKindFromJID _ := "dm";
  main.UpsertChat jid _ _ _ p := (p ++ ["UpsertChat " +:+ jid])%list;
  main.UpsertMessage m p := (p ++ ["UpsertMessage " +:+ main.MsgID m])%list;
  main.WriteJSON v out :=
    (None, (out ++ [match ipc.marshal_any v with Some j => json.write j | None => "" end
                    +:+ ipc.newline])%list);
  main.time_Now _ := 1700000000000000000%Z
|}.

Definition archive : main.chatStateAction :=
  {| main.use := "archive"; main.short := "Archive a chat";
     main.run jid _ p := (None, (p ++ ["ArchiveChat " +:+ jid])%list) |}.

Definition flags : main.rootFlags := {| main.flag_storeDir := "/tmp/wa"; main.asJSON := false |}.

Definition proc : main.Proc (list string) :=
  {| main.state := []; main.stdout := []; main.stderr := [] |}.

(** A daemon in [/tmp/wa] whose session is down, and the file system
    while it runs. *)
Definition disconnected : ipc.Handler nat :=
  scripted (ipc.Returned ("", Some "whatsapp not connected"))
           (ipc.Returned (Some "whatsapp not connected")).

Definition socket_there : gset string := {[ "/tmp/wa/wacli.sock" ]}.

(** A server that has been started in [/tmp/wa]. *)
Definition started (h : ipc.Handler nat) : ipc.Server nat :=
  {| ipc.storeDir := "/tmp/wa"; ipc.handler := h;
     ipc.listener := Some {| ipc.laddr := "/tmp/wa/wacli.sock" |};
     ipc.wg := 1; ipc.done := false |}.

End example.

(** ** The shape of a response, in the words of the specification

    [error] present iff [success] is false, [data] present iff
    [success] is true.  A field tagged [omitempty] is present on the
    wire iff it is not the empty string, respectively not nil. *)

Section Shape.
Context {text : json.Text}.

Definition data_present (resp : ipc.Response) : bool :=
  match ipc.Data resp with
  | ipc.AnyNil => false
  | _ => true
  end.

Definition error_present (resp : ipc.Response) : bool :=
  negb (String.eqb (ipc.Error resp) "").

Definition response_shape (resp : ipc.Response) : bool :=
  if ipc.Success resp then (negb (error_present resp) && data_present resp)%bool
  else (error_present resp && negb (data_present resp))%bool.

(** A handler none of whose errors has the empty message. *)
Definition errors_named {H : Type} (h : ipc.Handler H) : Prop :=
  (∀ to message st msgID st',
     ipc.SendText h to message st ≠ (ipc.Returned (msgID, Some ""), st'))
  ∧ (∀ chat msgID forEveryone st st',
     ipc.DeleteMessage h chat msgID forEveryone st ≠ (ipc.Returned (Some ""), st'))
  ∧ (∀ jid action duration st st',
     ipc.ChatState h jid action duration st ≠ (ipc.Returned (Some ""), st')).

End Shape.

(** ** The vocabulary of chat-state actions, in the words of the
    specification *)

Definition chat_state_actions : list string :=
  ["archive"; "unarchive"; "pin"; "unpin"; "mute"; "unmute"; "mark-read"; "mark-unread"].

(** An action is answered with an error that names it. *)
Definition names_the_action {St : Type} (action : string)
    (run : ipc.outcome (option error) * St) : Prop :=
  ∃ err, run.1 = ipc.Returned (Some err) ∧ Contains err action.

(** ** Surfacing the daemon's answer, in the words of the specification

    A command that takes a decoded failure for final returns the
    daemon's error and does no direct-path work: the state behind the
    direct path is as before. *)

Definition surfaces_daemon_error {text : json.Text} {P : Type}
    (run : ipc.outcome (option error) * main.Proc P) (p : main.Proc P)
    (resp : ipc.Response) : Prop :=
  run.1 = ipc.Returned (Some (ipc.Error resp)) ∧ main.state run.2 = main.state p.

(** The warning of a command that gives up on the daemon. *)
Definition warned {P : Type} (what : string) (err : error) (p : main.Proc P) : main.Proc P :=
  main.Fprintf_stderr ("IPC " +:+ what +:+ " failed (" +:+ err +:+ "), trying direct mode..."
                       +:+ String (Ascii.ascii_of_N 10) EmptyString) p.

(** The error a typed helper of the client makes of what [send]
    returned: a transport error as it is, a decoded failure as an error
    with the daemon's message. *)
Definition helper_error {text : json.Text} (r : error + ipc.Response) : option error :=
  match r with
  | inl err => Some err
  | inr resp => if ipc.Success resp then None else Some (ipc.Error resp)
  end.

(** ** Requests of text

    Every string of the request is well-formed UTF-8.  (The encoder
    writes U+FFFD for every other byte.) *)

Definition utf8_request (r : ipc.Request) : bool :=
  (utf8.ValidString (ipc.Command r) && utf8.ValidString (ipc.To r) &&
   utf8.ValidString (ipc.Message r) && utf8.ValidString (ipc.File r) &&
   utf8.ValidString (ipc.Caption r) && utf8.ValidString (ipc.Chat r) &&
   utf8.ValidString (ipc.MsgID r) && utf8.ValidString (ipc.Action r) &&
   utf8.ValidString (ipc.Duration r))%bool.

(** ** Valid requests, in the words of the specification

    A request is valid when the dispatcher's validation lets it
    through: its command is one of the four and the fields that the
    command requires are not empty. *)

Definition valid_request (r : ipc.Request) : bool :=
  if String.eqb (ipc.Command r) "ping" then true
  else if String.eqb (ipc.Command r) "send_text" then
    negb (String.eqb (ipc.To r) "") && negb (String.eqb (ipc.Message r) "")
  else if String.eqb (ipc.Command r) "delete_message" then
    negb (String.eqb (ipc.Chat r) "") && negb (String.eqb (ipc.MsgID r) "")
  else if String.eqb (ipc.Command r) "chat_state" then
    negb (String.eqb (ipc.Chat r) "") && negb (String.eqb (ipc.Action r) "")
  else false.

(** Encoding and then decoding gives the request back. *)
Definition round_trips (r : ipc.Request) : Prop :=
  ipc.Unmarshal_Request (text := example.text)
    (json.write (ipc.marshal_Request r) +:+ ipc.newline) ipc.Request_zero = (r, None).

(** ** What a command leaves behind when the daemon did the work

    In plain mode one line on standard output and a nil result; in
    JSON mode the object that [WriteJSON] writes to standard output,
    and the result of [WriteJSON].  The state behind the direct path
    and standard error are those of [p]. *)

Definition served {lib : Lib} {text : json.Text} {P : Type} {direct : main.Direct P}
    (flags : main.rootFlags) (line : string) (object : ipc.any) (p : main.Proc P)
    : ipc.outcome (option error) * main.Proc P :=
  if main.asJSON flags then
    (ipc.Returned (main.WriteJSON object (main.stdout p)).1,
     {| main.state := main.state p;
        main.stdout := (main.WriteJSON object (main.stdout p)).2;
        main.stderr := main.stderr p |})
  else
    (ipc.Returned None,
     {| main.state := main.state p;
        main.stdout := (main.stdout p ++ [line])%list;
        main.stderr := main.stderr p |}).

(** ** [wacli chats]: what each command runs on the direct path

    [newChatsCmd] adds one command per action with [newChatStateCmd],
    each with the [run] that is called on the handle once the direct
    path has its application, and [newChatsMuteCmd] for mute, which
    reads a duration first. *)

Module chatsCmd.

Section Table.
Context {lib : Lib} {S : Type} {wac : app.WAClient S}.

(** [appHandle]: the application and the chat identifier as parsed. *)
Record appHandle := { handle_app : app.App S; handle_jid : JID }.

Record chatStateAction := {
  use : string;
  short : string;
  run : appHandle → string → ipc.outcome (option error) * app.App S
}.

Definition newChatsCmd : list chatStateAction :=
  [ {| use := "archive"; short := "Archive a chat";
       run a _ := app.ArchiveChat (handle_jid a) true (handle_app a) |};
    {| use := "unarchive"; short := "Unarchive a chat";
       run a _ := app.ArchiveChat (handle_jid a) false (handle_app a) |};
    {| use := "pin"; short := "Pin a chat";
       run a _ := app.PinChat (handle_jid a) true (handle_app a) |};
    {| use := "unpin"; short := "Unpin a chat";
       run a _ := app.PinChat (handle_jid a) false (handle_app a) |};
    {| use := "unmute"; short := "Unmute a chat";
       run a _ := app.MuteChat (handle_jid a) false 0 (handle_app a) |};
    {| use := "mark-read"; short := "Mark a chat as read";
       run a _ := app.MarkChatRead (handle_jid a) true (handle_app a) |};
    {| use := "mark-unread"; short := "Mark a chat as unread";
       run a _ := app.MarkChatRead (handle_jid a) false (handle_app a) |} ].

(** The direct path of [newChatsMuteCmd] from the duration on: a
    blank duration is no duration. *)
Definition newChatsMuteCmd_run (durStr : string) (a : appHandle)
    : ipc.outcome (option error) * app.App S :=
  match (if String.eqb (TrimSpace durStr) "" then inr 0%Z else ParseDuration durStr) with
  | inl err => (ipc.Returned (Some (wrap "invalid --duration: " err)), handle_app a)
  | inr dur => app.MuteChat (handle_jid a) true dur (handle_app a)
  end.

End Table.
Arguments appHandle : clear implicits.
Arguments chatStateAction : clear implicits.

End chatsCmd.

(** ** One column of one chat

    What an [UPDATE chats SET <column> = ? WHERE jid = ?] is meant to
    do, said of the cache before and after: the connection is as it
    was, no row came or went, every other row is as it was, and the row
    of the chat, when there is one, has the new value in that column
    and is otherwise as it was. *)

Inductive column := Archived | Pinned | MutedUntil | Unread.

Definition column_of (c : column) (r : store.row) : Z :=
  match c with
  | Archived => store.archived r
  | Pinned => store.pinned r
  | MutedUntil => store.muted_until r
  | Unread => store.unread r
  end.

Definition column_set (c : column) (v : Z) (jid : string) (d d' : store.DB) : Prop :=
  store.broken d' = store.broken d
  ∧ dom (store.chats d') = dom (store.chats d)
  ∧ (∀ j, j ≠ jid → store.chats d' !! j = store.chats d !! j)
  ∧ (∀ r, store.chats d !! jid = Some r →
       ∃ r', store.chats d' !! jid = Some r'
         ∧ column_of c r' = v
         ∧ (∀ c', c' ≠ c → column_of c' r' = column_of c' r)
         ∧ store.kind r' = store.kind r ∧ store.name r' = store.name r
         ∧ store.last_message_ts r' = store.last_message_ts r).

(** What the cache keeps in [muted_until] for a chat: 0 for not muted,
    -1 for muted without an end, otherwise the second of the Unix clock
    at which a mute asked for at [now] for [duration] nanoseconds ends. *)
Definition muted_until_of (mute : bool) (duration : Z) (now : Time) : Z :=
  if mute then
    if (duration <=? 0)%Z then (-1)%Z else ((now + duration) `div` 1000000000)%Z
  else 0%Z.

(** [cli == nil || !cli.IsConnected()] *)
Definition offline {W : Type} {lib : Lib} {cli : wa.Whatsmeow W} (c : wa.Client W) : bool :=
  match wa.client c with
  | None => true
  | Some w => negb (wa.cli_IsConnected w)
  end.

(** ** The values on the wire

    The JSON values that requests and responses are made of: strings
    of well-formed UTF-8, booleans, null, and objects of such values
    under keys of well-formed UTF-8. *)

Fixpoint wire (x : json.t) : bool :=
  match x with
  | json.Str s => utf8.ValidString s
  | json.Null | json.Bool _ => true
  | json.Object ms =>
    (fix members (ms : list (string * json.t)) : bool :=
       match ms with
       | [] => true
       | (k, v) :: ms' => (utf8.ValidString k && wire v && members ms')%bool
       end) ms
  | _ => false
  end.

Fixpoint wire_members (ms : list (string * json.t)) : bool :=
  match ms with
  | [] => true
  | (k, v) :: ms' => (utf8.ValidString k && wire v && wire_members ms')%bool
  end.

(** The number of values and members of a value: a bound on the steps
    of the reader and on the nesting. *)
Fixpoint value_size (x : json.t) : nat :=
  match x with
  | json.Object ms =>
    S ((fix members (ms : list (string * json.t)) : nat :=
          match ms with
          | [] => 0
          | (_, v) :: ms' => S (value_size v + members ms')
          end) ms)
  | _ => 1
  end.

Fixpoint members_size (ms : list (string * json.t)) : nat :=
  match ms with
  | [] => 0
  | (_, v) :: ms' => S (value_size v + members_size ms')
  end.

(** No newline among the bytes of [s]. *)
Fixpoint one_line (s : string) : bool :=
  match s with
  | EmptyString => true
  | String c r => (negb (json.isc c (json.chr 10)) && one_line r)%bool
  end.

(** [bufio.Reader.ReadBytes('\n')]: the bytes up to the first newline
    and that newline; [None] when there is no newline to come. *)
Fixpoint ReadBytes_newline (data : string) : option string :=
  match data with
  | EmptyString => None
  | String c r =>
    if json.isc c (json.chr 10) then Some (String c EmptyString)
    else String c <$> ReadBytes_newline r
  end.

(** ** The daemon at the other end of the socket *)

(** A result of the handler all of whose strings are text. *)
Definition valid_outcome {A} (valid : A → bool) (r : ipc.outcome A) : bool :=
  match r with
  | ipc.Returned a => valid a
  | ipc.Panicked v => utf8.ValidString v
  end.

Definition valid_error (err : option error) : bool :=
  match err with
  | Some e => utf8.ValidString e
  | None => true
  end.

Definition valid_sent (r : string * option error) : bool :=
  (utf8.ValidString r.1 && valid_error r.2)%bool.

Section Serving.
Context {text : json.Text} {fp : ipc.Filepath} {H : Type}.

(** The network when the daemon [s] listens and its handler is in the
    state [w]: dialing its socket path gives a connection on which
    [handleConn] reads the first line of what the client writes (the
    read deadline passes when there is none) and the client reads the
    first line of what [handleConn] wrote; dialing elsewhere fails. *)
Definition serving (s : ipc.Server H) (w : H * list ipc.Call) : ipc.Network :=
  λ path,
    if String.eqb path (ipc.SocketPath (ipc.storeDir s)) then
      inr (λ data,
        let incoming := match ReadBytes_newline data with
                        | Some line => inr line
                        | None => inl ("read unix " +:+ path +:+ ": i/o timeout")
                        end in
        let conn := (ipc.handleConn s (ipc.fresh_conn incoming) w).1.2 in
        match ReadBytes_newline (foldr String.append "" (ipc.written conn)) with
        | Some line => ipc.Replies line
        | None => ipc.ReadFails "EOF"
        end)
    else inl ("dial unix " +:+ path +:+ ": connect: no such file or directory").

(** The response of the daemon to a decoded request: what the
    dispatcher returned, or the failure that the recovering function
    writes after a panic. *)
Definition answer (s : ipc.Server H) (req : ipc.Request) (w : H * list ipc.Call)
    : ipc.Response :=
  match (ipc.processRequest s req w).1 with
  | ipc.Returned resp => resp
  | ipc.Panicked v =>
    {| ipc.Success := false; ipc.Error := "internal error: " +:+ v; ipc.Data := ipc.AnyNil |}
  end.

End Serving.

(** ** Package [store]: [UpsertChat] and [GetChat]

    A column that holds NULL reads as the empty string or as 0
    ([COALESCE] in every query of the program), and is kept as such. *)

Module chats.

Section Chats.
Context {lib : Lib}.

(** The helpers [unix] and [fromUnix] of package [store], which
    convert between a [time.Time] and the seconds kept in a column. *)
Class Seconds := { unix : Time → Z; fromUnix : Z → Time }.
Context {seconds : Seconds}.

(** [INSERT INTO chats(jid, kind, name, last_message_ts) VALUES(?, ?, ?, ?)
     ON CONFLICT(jid) DO UPDATE SET kind=excluded.kind,
       name=CASE WHEN excluded.name IS NOT NULL AND excluded.name != ''
            THEN excluded.name ELSE chats.name END,
       last_message_ts=CASE WHEN excluded.last_message_ts >
            COALESCE(chats.last_message_ts, 0)
            THEN excluded.last_message_ts ELSE chats.last_message_ts END]:
    a new row takes the defaults of the other columns, which is 0 for
    the four columns of the chat state. *)
Definition UpsertChat (jid kind name : string) (lastTS : Time) (d : store.DB)
    : option error * store.DB :=
  let kind := if String.eqb (TrimSpace kind) "" then "unknown" else kind in
  match store.broken d with
  | Some err => (Some err, d)
  | None =>
    let row :=
      match store.chats d !! jid with
      | None =>
        {| store.kind := kind; store.name := name; store.last_message_ts := unix lastTS;
           store.archived := 0; store.pinned := 0; store.muted_until := 0; store.unread := 0 |}
      | Some old =>
        {| store.kind := kind;
           store.name := if negb (String.eqb name "") then name else store.name old;
           store.last_message_ts :=
             if (store.last_message_ts old <? unix lastTS)%Z then unix lastTS
             else store.last_message_ts old;
           store.archived := store.archived old; store.pinned := store.pinned old;
           store.muted_until := store.muted_until old; store.unread := store.unread old |}
      end in
    (None, {| store.chats := <[jid := row]> (store.chats d); store.broken := store.broken d |})
  end.

(** [type Chat struct], as [GetChat] fills it. *)
Record Chat := {
  JID : string;
  Kind : string;
  Name : string;
  LastMessageTS : Time;
  Archived : bool;
  Pinned : bool;
  MutedUntil : Z;
  Unread : bool
}.

Definition Chat_zero : Chat :=
  {| JID := ""; Kind := ""; Name := ""; LastMessageTS := Time_zero; Archived := false;
     Pinned := false; MutedUntil := 0; Unread := false |}.

(** [sql.ErrNoRows]. *)
Definition ErrNoRows : error := "sql: no rows in result set".

Definition GetChat (jid : string) (d : store.DB) : Chat * option error :=
  match store.broken d with
  | Some err => (Chat_zero, Some err)
  | None =>
    match store.chats d !! jid with
    | None => (Chat_zero, Some ErrNoRows)
    | Some r =>
      ({| JID := jid; Kind := store.kind r; Name := store.name r;
          LastMessageTS := fromUnix (store.last_message_ts r);
          Archived := negb (store.archived r =? 0)%Z;
          Pinned := negb (store.pinned r =? 0)%Z;
          MutedUntil := store.muted_until r;
          Unread := negb (store.unread r =? 0)%Z |}, None)
    end
  end.

End Chats.

End chats.

(** ** Package [main]: the other two methods of the daemon's handler *)

Module sync.

Section Handler.
Context {lib : Lib} {seconds : chats.Seconds} {S : Type} {wac : app.WAClient S}.

(** What [SendText] and [DeleteMessage] use besides: [SendText] and
    [ResolveChatName] of the session client, whether that client is
    the [*wa.Client] that [DeleteMessage] asserts it to be and its
    [RevokeMessage], [chatKindFromJID], and [UpsertMessage] of the
    cache. *)
Class Messaging := {
  wa_SendText : JID → string → S → (string * option error) * S;
  wa_ResolveChatName : JID → string → S → string * S;
  wa_is_Client : S → bool;
  wa_RevokeMessage : JID → string → bool → S → option error * S;
  chatKindFromJID : JID → string;
  db_UpsertMessage : main.UpsertMessageParams → store.DB → option error * store.DB
}.
Context {messaging : Messaging}.

Definition with_wa (a : app.App S) (s : S) : app.App S :=
  {| app.wa := Some s; app.db := app.db a; app.now := app.now a |}.

Definition with_db (a : app.App S) (d : store.DB) : app.App S :=
  {| app.wa := app.wa a; app.db := d; app.now := app.now a |}.

Definition SendText (to message : string) (h : main.syncHandler S)
    : ipc.outcome (string * option error) * main.syncHandler S :=
  match main.h_app h with
  | None => (ipc.Returned ("", Some "app not initialized"), h)
  | Some a =>
    match app.wa a with
    | None => (ipc.Returned ("", Some "whatsapp client not initialized"), h)
    | Some s =>
      if negb (app.IsConnected s) then (ipc.Returned ("", Some "whatsapp not connected"), h)
      else
        match ParseUserOrJID to with
        | inl err => (ipc.Returned ("", Some (wrap "parse recipient: " err)), h)
        | inr toJID =>
          match wa_SendText toJID message s with
          | ((_, Some err), s1) =>
            (ipc.Returned ("", Some (wrap "send: " err)), main.set_app (with_wa a s1))
          | ((msgID, None), s1) =>
            let now := app.now a in
            let chat := toJID in
            let '(chatName, s2) := wa_ResolveChatName chat "" s1 in
            let kind := chatKindFromJID chat in
            let d1 := (chats.UpsertChat (JID_String chat) kind chatName now (app.db a)).2 in
            let d2 := (db_UpsertMessage
                         {| main.ChatJID := JID_String chat; main.ChatName := chatName;
                            main.MsgID := msgID; main.SenderJID := ""; main.SenderName := "me";
                            main.Timestamp := now; main.FromMe := true; main.Text := message |}
                         d1).2 in
            (ipc.Returned (msgID, None), main.set_app (with_db (with_wa a s2) d2))
          end
        end
    end
  end.

Definition DeleteMessage (chat msgID : string) (forEveryone : bool) (h : main.syncHandler S)
    : ipc.outcome (option error) * main.syncHandler S :=
  match main.h_app h with
  | None => (ipc.Returned (Some "app not initialized"), h)
  | Some a =>
    match app.wa a with
    | None => (ipc.Returned (Some "whatsapp client not initialized"), h)
    | Some s =>
      if negb (app.IsConnected s) then (ipc.Returned (Some "whatsapp not connected"), h)
      else
        match ParseUserOrJID chat with
        | inl err => (ipc.Returned (Some (wrap "parse chat: " err)), h)
        | inr chatJID =>
          if negb (wa_is_Client s) then (ipc.Returned (Some "unexpected WA client type"), h)
          else
            let '(err, s1) := wa_RevokeMessage chatJID msgID forEveryone s in
            (ipc.Returned err, main.set_app (with_wa a s1))
        end
    end
  end.

(** [&syncHandler{app: a}] as the [ipc.Handler] of the server. *)
Definition handler : ipc.Handler (main.syncHandler S) :=
  {| ipc.SendText := SendText;
     ipc.DeleteMessage := DeleteMessage;
     ipc.ChatState := main.ChatState |}.

End Handler.

End sync.

(** The guards that the three methods of the handler share. *)
Inductive refusal := NoApp | NoClient | NotConnected.

Definition refusal_error (r : refusal) : error :=
  match r with
  | NoApp => "app not initialized"
  | NoClient => "whatsapp client not initialized"
  | NotConnected => "whatsapp not connected"
  end.

Definition refused {lib : Lib} {S : Type} {wac : app.WAClient S} (h : main.syncHandler S)
    : option refusal :=
  match main.h_app h with
  | None => Some NoApp
  | Some a =>
    match app.wa a with
    | None => Some NoClient
    | Some s => if app.IsConnected s then None else Some NotConnected
    end
  end.

(** ** Package [app]: [ResolveSenderNames] *)

Module resolve.

(** [strings.Contains]. *)
Fixpoint contains (s sub : string) : bool :=
  match json.strip_prefix sub s with
  | Some _ => true
  | None =>
    match s with
    | EmptyString => false
    | String _ s' => contains s' sub
    end
  end.

(** The fields of a [store.Message] that [ResolveSenderNames] reads or
    writes. *)
Record Message := { SenderJID : string; SenderName : string; FromMe : bool }.

Definition with_SenderName (name : string) (m : Message) : Message :=
  {| SenderJID := SenderJID m; SenderName := name; FromMe := FromMe m |}.

Section Resolve.
Context {lib : Lib}.

(** What the function works with, on the state [A] of the
    application: [OpenWA], after whose success [a.wa] is the session
    client; [types.ParseJID]; [GetPNForLID] and [GetContact] of that
    client; [IsEmpty] and the field [User] of a [types.JID]; and
    [wa.BestContactName]. *)
Class Contacts (A : Type) := {
  OpenWA : A → option error * A;
  ParseJID : string → error + JID;
  GetPNForLID : JID → A → (JID * option error) * A;
  IsEmpty : JID → bool;
  User : JID → string;
  ContactInfo : Type;
  GetContact : JID → A → (ContactInfo * option error) * A;
  BestContactName : ContactInfo → string
}.

Context {A : Type} {contacts : Contacts A}.

(** One round of the loop, on the message [m]. *)
Definition resolve_one (m : Message) (a : A) : Message * A :=
  if (negb (String.eqb (SenderName m) "") || FromMe m)%bool then (m, a)
  else
    let senderJID := TrimSpace (SenderJID m) in
    if String.eqb senderJID "" then (m, a)
    else if negb (contains senderJID "@lid") then (m, a)
    else
      match ParseJID senderJID with
      | inl _ => (m, a)
      | inr jid =>
        match GetPNForLID jid a with
        | ((_, Some _), a1) => (m, a1)
        | ((pn, None), a1) =>
          if IsEmpty pn then (m, a1)
          else
            let '((info, err), a2) := GetContact pn a1 in
            let name := match err with
                        | None => BestContactName info
                        | Some _ => ""
                        end in
            if negb (String.eqb name "") then (with_SenderName name m, a2)
            else if negb (String.eqb (User pn) "") then (with_SenderName ("+" +:+ User pn) m, a2)
            else (m, a2)
        end
      end.

Fixpoint each (msgs : list Message) (a : A) : list Message * A :=
  match msgs with
  | [] => ([], a)
  | m :: msgs' =>
    let '(m', a1) := resolve_one m a in
    let '(rest, a2) := each msgs' a1 in
    (m' :: rest, a2)
  end.

(** The messages are changed in place: the result is the slice after
    the call. *)
Definition ResolveSenderNames (msgs : list Message) (a : A) : list Message * A :=
  match msgs with
  | [] => (msgs, a)
  | _ =>
    match OpenWA a with
    | (Some _, a1) => (msgs, a1)
    | (None, a1) => each msgs a1
    end
  end.

End Resolve.

End resolve.

(** What [ResolveSenderNames] may do to a message: nothing, or give a
    name to one that had none, was not sent by this account, and whose
    sender is a hidden user (its trimmed JID holds "@lid"); the sender
    and the direction stay. *)
Definition filled {lib : Lib} (m m' : resolve.Message) : Prop :=
  resolve.SenderJID m' = resolve.SenderJID m
  ∧ resolve.FromMe m' = resolve.FromMe m
  ∧ (m' = m
     ∨ resolve.SenderName m = "" ∧ resolve.FromMe m = false
       ∧ Contains (TrimSpace (resolve.SenderJID m)) "@lid"
       ∧ resolve.SenderName m' ≠ "").

(** ** Package [main]: [wacli sync], which runs the daemon *)

Module syncCmd.

(** [appPkg.SyncMode] and [appPkg.SyncOptions]. *)
Inductive SyncMode := SyncModeOnce | SyncModeFollow.

Record SyncOptions := {
  Mode : SyncMode;
  AllowQR : bool;
  DownloadMedia : bool;
  RefreshContacts : bool;
  RefreshGroups : bool;
  IdleExit : Z
}.

(** The flags of the command, with their defaults. *)
Record syncFlags := {
  once : bool;
  follow : bool;
  idleExit : Z;
  downloadMedia : bool;
  refreshContacts : bool;
  refreshGroups : bool;
  enableIPC : bool
}.

Definition default_flags : syncFlags :=
  {| once := false; follow := true; idleExit := 30 * 1000000000; downloadMedia := false;
     refreshContacts := false; refreshGroups := false; enableIPC := true |}.

Section Sync.
Context {lib : Lib} {fp : ipc.Filepath} {text : json.Text} {P : Type}.

(** What the command calls, on the state [P] of the process and on
    the file system, which the application shares with the IPC server:
    [newApp], which opens the store and takes its lock; the deferred
    [closeApp]; [a.EnsureAuthed]; [a.StoreDir()]; [a.Sync], which
    returns the number of messages stored and runs while the daemon
    serves its connections; the decimal digits of [%d]; and
    [out.WriteJSON] on standard output of the map of [synced] and
    [messages_stored].  Each call may write and remove files, and may
    panic. *)
Class Syncing := {
  newApp : P → gset string → ipc.outcome (option error) * P * gset string;
  closeApp : P → gset string → ipc.outcome unit * P * gset string;
  EnsureAuthed : P → gset string → ipc.outcome (option error) * P * gset string;
  StoreDir : P → string;
  Sync : SyncOptions → P → gset string → ipc.outcome (Z * option error) * P * gset string;
  decimal : Z → string;
  WriteJSON_synced : Z → list string → option error * list string
}.
Context {syncing : Syncing}.

Definition mode_of (f : syncFlags) : SyncMode :=
  if once f then SyncModeOnce
  else if follow f then SyncModeFollow
  else SyncModeOnce.

Definition is_follow (m : SyncMode) : bool :=
  match m with SyncModeFollow => true | SyncModeOnce => false end.

Definition set_state (st : P) (p : main.Proc P) : main.Proc P :=
  {| main.state := st; main.stdout := main.stdout p; main.stderr := main.stderr p |}.

(** What a run is so far: its outcome, the process and the file system. *)
Definition run : Type := ipc.outcome (option error) * main.Proc P * gset string.

(** A deferred call runs when the function returns and when it
    panics; a panic of the deferred call is the one that goes on. *)
Definition deferred_closeApp (r : run) : run :=
  let '(o, p, fs) := r in
  match closeApp (main.state p) fs with
  | (ipc.Returned _, st, fs') => (o, set_state st p, fs')
  | (ipc.Panicked v, st, fs') => (ipc.Panicked v, set_state st p, fs')
  end.

Definition deferred_Stop {H : Type} (srv : ipc.Server H) (r : run) : run :=
  let '(o, p, fs) := r in
  match ipc.Stop srv fs with
  | ipc.Returned (_, fs') => (o, p, fs')
  | ipc.Panicked v => (ipc.Panicked v, p, fs)
  end.

(** [a.Sync] and the report of what it stored. *)
Definition report (flags : main.rootFlags) (f : syncFlags) (mode : SyncMode)
    (p : main.Proc P) (fs : gset string) : run :=
  match Sync {| Mode := mode; AllowQR := false;
                DownloadMedia := downloadMedia f;
                RefreshContacts := refreshContacts f;
                RefreshGroups := refreshGroups f;
                IdleExit := idleExit f |} (main.state p) fs with
  | (ipc.Panicked v, st, fs1) => (ipc.Panicked v, set_state st p, fs1)
  | (ipc.Returned (_, Some err), st, fs1) => (ipc.Returned (Some err), set_state st p, fs1)
  | (ipc.Returned (stored, None), st, fs1) =>
    if main.asJSON flags then
      let '(err, out) := WriteJSON_synced stored (main.stdout p) in
      (ipc.Returned err,
       {| main.state := st; main.stdout := out; main.stderr := main.stderr p |}, fs1)
    else
      (ipc.Returned None,
       main.Fprintf_stdout ("Messages stored: " +:+ decimal stored +:+ ipc.newline)
         (set_state st p),
       fs1)
  end.

Definition warning (err : error) : string :=
  "Warning: failed to start IPC server: " +:+ err +:+ ipc.newline.

(** [RunE] of [newSyncCmd].  [unlink] and [bind] are the faults that
    [Start] meets.  The handler has no hold of the server, so that at
    the deferred [Stop] the listener and the channel of the server are
    those that [Start] left. *)
Definition RunE {H : Type} (handler : ipc.Handler H) (flags : main.rootFlags) (f : syncFlags)
    (unlink bind : option error) (fs : gset string) (p : main.Proc P) : run :=
  match newApp (main.state p) fs with
  | (ipc.Panicked v, st, fs1) => (ipc.Panicked v, set_state st p, fs1)
  | (ipc.Returned (Some err), st, fs1) => (ipc.Returned (Some err), set_state st p, fs1)
  | (ipc.Returned None, st, fs1) =>
    deferred_closeApp
      match EnsureAuthed st fs1 with
      | (ipc.Panicked v, st, fs2) => (ipc.Panicked v, set_state st p, fs2)
      | (ipc.Returned (Some err), st, fs2) => (ipc.Returned (Some err), set_state st p, fs2)
      | (ipc.Returned None, st, fs2) =>
        let mode := mode_of f in
        if (enableIPC f && is_follow mode)%bool then
          match ipc.Start unlink bind (ipc.NewServer (StoreDir st) handler) fs2 with
          | (Some err, _, fs3) =>
            report flags f mode (main.Fprintf_stderr (warning err) (set_state st p)) fs3
          | (None, srv, fs3) =>
            deferred_Stop srv (report flags f mode (set_state st p) fs3)
          end
        else report flags f mode (set_state st p) fs2
      end
  end.

End Sync.

End syncCmd.

(** ** A concrete daemon and a concrete address book for the examples *)

Module scenario.

(** Seconds since the epoch, the zero time kept as 0. *)
#[export] Instance seconds : chats.Seconds := {|
  chats.unix t := if (t =? Time_zero)%Z then 0%Z else Time_Unix t;
  chats.fromUnix n := (n * 1000000000)%Z
|}.

(** The session of the examples as the messenger: it sends unless it
    refuses, and names every message the same. *)
#[export] Instance messaging :
    sync.Messaging (lib := example.lib) (S := wa.Client example.session) := {|
  sync.wa_SendText _ _ c :=
    match wa.client c with
    | Some w =>
      match example.refuse w with
      | Some err => (("", Some err), c)
      | None => (("3EB0C0FFEE", None), c)
      end
    | None => (("", Some "not connected"), c)
    end;
  sync.wa_ResolveChatName _ _ c := ("Alice", c);
  sync.wa_is_Client _ := true;
  sync.wa_RevokeMessage _ _ _ c :=
    (match wa.client c with
     | Some w => example.refuse w
     | None => Some "not connected"
     end, c);
  sync.chatKindFromJID _ := "dm";
  sync.db_UpsertMessage _ d := (store.broken d, d)
|}.

(** The handler of a daemon whose session is up. *)
Definition ready : main.syncHandler (wa.Client example.session) :=
  {| main.h_app := Some (example.application None) |}.

(** The handler of a daemon that has not opened its session. *)
Definition unopened : main.syncHandler (wa.Client example.session) :=
  {| main.h_app := Some {| app.wa := None; app.db := example.cache;
                           app.now := 1700000000000000000%Z |} |}.

(** The address book of the tests of [ResolveSenderNames]: one hidden
    user whose phone number is known, with or without a contact. *)
Definition lid : string := "248317879549994@lid".
Definition pn : string := "4915112345678@s.whatsapp.net".

Fixpoint user_of (jid : string) : string :=
  match jid with
  | EmptyString => EmptyString
  | String c r => if json.isc c "@" then EmptyString else String c (user_of r)
  end.

(** The state is the contact of [pn], if there is one. *)
#[export] Instance contacts : resolve.Contacts (lib := example.lib) (option string) :=
  resolve.Build_Contacts (lib := example.lib) (option string)
    (λ a, (None, a))
    (λ s, inr s)
    (λ jid a, ((if String.eqb jid lid then pn else "", None), a))
    (λ jid, String.eqb jid "")
    user_of
    (option string)
    (λ jid a,
       ((if String.eqb jid pn then a else None,
         if String.eqb jid pn then (match a with Some _ => None | None => Some "not found" end)
         else Some "not found"), a))
    (default "").

Definition from (jid name : string) (fromMe : bool) : resolve.Message :=
  {| resolve.SenderJID := jid; resolve.SenderName := name; resolve.FromMe := fromMe |}.

(** The application of the examples behind [wacli sync], on the log of
    its calls: it holds a lock file while it is open, and its [Sync]
    stores a media file and then panics. *)
#[export] Instance syncing : syncCmd.Syncing (P := list string) := {|
  syncCmd.newApp st fs :=
    (ipc.Returned None, (st ++ ["newApp"])%list, {[ "/tmp/wa/LOCK" ]} ∪ fs);
  syncCmd.closeApp st fs :=
    (ipc.Returned (), (st ++ ["closeApp"])%list, fs ∖ {[ "/tmp/wa/LOCK" ]});
  syncCmd.EnsureAuthed st fs := (ipc.Returned None, (st ++ ["EnsureAuthed"])%list, fs);
  syncCmd.StoreDir _ := "/tmp/wa";
  syncCmd.Sync _ st fs :=
    (ipc.Panicked "boom", (st ++ ["Sync"])%list, {[ "/tmp/wa/media/1.jpg" ]} ∪ fs);
  syncCmd.decimal _ := "0";
  syncCmd.WriteJSON_synced _ out := (None, out)
|}.

End scenario.

(** * Properties *)

(** ** The dispatcher *)

Section Dispatcher.
Context {text : json.Text} {H : Type}.
Implicit Types (s : ipc.Server H) (req : ipc.Request) (w : H * list ipc.Call).

Lemma processRequest_ping s req w :
  ipc.Command req = "ping" →
  ipc.processRequest s req w =
    (ipc.Returned {| ipc.Success := true; ipc.Error := ""; ipc.Data := ipc.AnyString "pong" |}, w).
Proof. intros Hc. unfold ipc.processRequest. by rewrite Hc. Qed.

Lemma processRequest_unknown s req w :
  ipc.Command req ≠ "ping" → ipc.Command req ≠ "send_text" →
  ipc.Command req ≠ "delete_message" → ipc.Command req ≠ "chat_state" →
  ipc.processRequest s req w =
    (ipc.Returned {| ipc.Success := false;
                     ipc.Error := "unknown command: " +:+ ipc.Command req;
                     ipc.Data := ipc.AnyNil |}, w).
Proof.
  intros H1 H2 H3 H4. unfold ipc.processRequest.
  by rewrite (proj2 (String.eqb_neq _ _) H1), (proj2 (String.eqb_neq _ _) H2),
    (proj2 (String.eqb_neq _ _) H3), (proj2 (String.eqb_neq _ _) H4).
Qed.

Lemma processRequest_send_text s req w :
  ipc.Command req = "send_text" →
  ipc.processRequest s req w =
    if (String.eqb (ipc.To req) "" || String.eqb (ipc.Message req) "")%bool then
      (ipc.Returned {| ipc.Success := false; ipc.Error := "to and message are required";
                       ipc.Data := ipc.AnyNil |}, w)
    else
      let '(r, st) := ipc.SendText (ipc.handler s) (ipc.To req) (ipc.Message req) w.1 in
      (match r with
       | ipc.Panicked v => ipc.Panicked v
       | ipc.Returned (_, Some err) =>
         ipc.Returned {| ipc.Success := false; ipc.Error := err; ipc.Data := ipc.AnyNil |}
       | ipc.Returned (msgID, None) =>
         ipc.Returned {| ipc.Success := true; ipc.Error := "";
                         ipc.Data := ipc.AnySendTextResult
                                       {| ipc.Result_To := ipc.To req; ipc.Result_MsgID := msgID |} |}
       end, (st, (w.2 ++ [ipc.CallSendText (ipc.To req) (ipc.Message req)])%list)).
Proof.
  intros Hc. unfold ipc.processRequest. rewrite Hc. simpl.
  destruct (_ || _)%bool; [done|].
  unfold ipc.bind, ipc.invoke.
  destruct (ipc.SendText _ _ _ _) as [[[msgID [err|]]|v] st]; done.
Qed.

End Dispatcher.

Lemma append_nil_r (s : string) : s +:+ "" = s.
Proof.
  induction s as [|c s IH]; [done|].
  change (String c (s +:+ "") = String c s). by rewrite IH.
Qed.

Lemma append_assoc (s1 s2 s3 : string) : (s1 +:+ s2) +:+ s3 = s1 +:+ s2 +:+ s3.
Proof.
  induction s1 as [|c s1 IH]; [done|].
  change (String c ((s1 +:+ s2) +:+ s3) = String c (s1 +:+ s2 +:+ s3)). by rewrite IH.
Qed.

Lemma Contains_suffix (pre sub : string) : Contains (pre +:+ sub) sub.
Proof. exists pre, "". by rewrite append_nil_r. Qed.

(** C8. For every request whose command is ping the dispatcher returns
    [{success: true, data: "pong"}], whatever the other fields hold, and
    leaves the handler alone: its state and the list of calls made on it
    are as before.  On the wire the response is the object with the
    members success (true) and data (the string pong), and no error. *)
Theorem C8_ping_pong {text : json.Text} {H : Type} (s : ipc.Server H) (req : ipc.Request)
    (w : H * list ipc.Call) :
  ipc.Command req = "ping" →
  ipc.processRequest s req w =
    (ipc.Returned {| ipc.Success := true; ipc.Error := ""; ipc.Data := ipc.AnyString "pong" |}, w)
  ∧ ipc.marshal_Response
      {| ipc.Success := true; ipc.Error := ""; ipc.Data := ipc.AnyString "pong" |} =
    Some (json.Object [("success", json.Bool true); ("data", json.Str "pong")]).
Proof.
  intros Hc. split; [by apply processRequest_ping | reflexivity].
Qed.

Lemma C8_ping_pong_witness :
  let s := ipc.NewServer "/tmp/wa" (example.scripted (ipc.Panicked "boom") (ipc.Panicked "boom")) in
  let req := ipc.send_text_request "4915112345678" "hi" in
  ipc.processRequest (text := example.text) s (ipc.with_Command "ping" req) (0, []) =
    (ipc.Returned {| ipc.Success := true; ipc.Error := ""; ipc.Data := ipc.AnyString "pong" |},
     (0, [])).
Proof.
  intros s req.
  exact (proj1 (C8_ping_pong (text := example.text) s (ipc.with_Command "ping" req) (0, []) eq_refl)).
Defined.

(** C4. For every request whose command is none of ping, send_text,
    delete_message and chat_state the dispatcher returns a response with
    success false whose error is "unknown command: " followed by the
    command, so it contains the command; no data; the handler's state
    and the list of calls made on it are as before. *)
Theorem C4_unknown_command {text : json.Text} {H : Type} (s : ipc.Server H) (req : ipc.Request)
    (w : H * list ipc.Call) :
  ipc.Command req ≠ "ping" → ipc.Command req ≠ "send_text" →
  ipc.Command req ≠ "delete_message" → ipc.Command req ≠ "chat_state" →
  ∃ resp, ipc.processRequest s req w = (ipc.Returned resp, w)
    ∧ ipc.Success resp = false
    ∧ ipc.Error resp = "unknown command: " +:+ ipc.Command req
    ∧ Contains (ipc.Error resp) (ipc.Command req)
    ∧ ipc.Data resp = ipc.AnyNil.
Proof.
  intros H1 H2 H3 H4. eexists. split; [by apply processRequest_unknown|].
  simpl. repeat split. apply Contains_suffix.
Qed.

Lemma C4_unknown_command_witness :
  let s := ipc.NewServer "/tmp/wa" (example.scripted (ipc.Panicked "boom") (ipc.Panicked "boom")) in
  ∃ resp, ipc.processRequest (text := example.text) s (example.request "bogus") (0, []) = (ipc.Returned resp, (0, []))
    ∧ ipc.Success resp = false
    ∧ ipc.Error resp = "unknown command: bogus"
    ∧ Contains (ipc.Error resp) "bogus"
    ∧ ipc.Data resp = ipc.AnyNil.
Proof.
  intros s.
  exact (C4_unknown_command (text := example.text) s (example.request "bogus") (0, [])
           ltac:(discriminate) ltac:(discriminate) ltac:(discriminate) ltac:(discriminate)).
Defined.

(** C2. For every request whose command is send_text: when the
    recipient or the message is the empty string the dispatcher returns
    a response with success false and no data, and the handler is not
    called (its state and the list of calls are as before); otherwise it
    calls SendText of the handler, once, with the recipient and the
    message of the request and nothing else, and when that returns a
    message identifier and a nil error the response has success true, no
    error, and as data the record of the request's recipient and that
    identifier; when it returns an error the response has success false
    and that error. *)
Theorem C2_send_text {text : json.Text} {H : Type} (s : ipc.Server H) (req : ipc.Request)
    (w : H * list ipc.Call) :
  ipc.Command req = "send_text" →
  (ipc.To req = "" ∨ ipc.Message req = "" →
     ∃ err, err ≠ "" ∧
       ipc.processRequest s req w =
         (ipc.Returned {| ipc.Success := false; ipc.Error := err; ipc.Data := ipc.AnyNil |}, w))
  ∧ (ipc.To req ≠ "" → ipc.Message req ≠ "" →
     ∀ r st, ipc.SendText (ipc.handler s) (ipc.To req) (ipc.Message req) w.1 = (r, st) →
       (ipc.processRequest s req w).2 =
         (st, (w.2 ++ [ipc.CallSendText (ipc.To req) (ipc.Message req)])%list)
       ∧ (∀ msgID, r = ipc.Returned (msgID, None) →
            (ipc.processRequest s req w).1 =
              ipc.Returned {| ipc.Success := true; ipc.Error := "";
                              ipc.Data := ipc.AnySendTextResult
                                {| ipc.Result_To := ipc.To req; ipc.Result_MsgID := msgID |} |})
       ∧ (∀ msgID err, r = ipc.Returned (msgID, Some err) →
            (ipc.processRequest s req w).1 =
              ipc.Returned {| ipc.Success := false; ipc.Error := err; ipc.Data := ipc.AnyNil |})).
Proof.
  intros Hc. rewrite (processRequest_send_text s req w Hc). split.
  - intros Hempty. exists "to and message are required". split; [done|].
    destruct Hempty as [-> | ->]; simpl; [done|].
    by rewrite orb_true_r.
  - intros Hto Hmsg r st Hcall.
    rewrite (proj2 (String.eqb_neq _ _) Hto), (proj2 (String.eqb_neq _ _) Hmsg), Hcall.
    simpl. repeat split; by intros; subst.
Qed.

Lemma C2_send_text_witness :
  let s := ipc.NewServer "/tmp/wa"
             (example.scripted (ipc.Returned ("ABC123", None)) (ipc.Panicked "boom")) in
  ipc.processRequest (text := example.text) s (ipc.send_text_request "4915112345678" "") (0, []) =
    (ipc.Returned {| ipc.Success := false; ipc.Error := "to and message are required";
                     ipc.Data := ipc.AnyNil |}, (0, []))
  ∧ ipc.processRequest (text := example.text) s (ipc.send_text_request "4915112345678" "hi") (0, []) =
    (ipc.Returned {| ipc.Success := true; ipc.Error := "";
                     ipc.Data := ipc.AnySendTextResult
                       {| ipc.Result_To := "4915112345678"; ipc.Result_MsgID := "ABC123" |} |},
     (1, [ipc.CallSendText "4915112345678" "hi"])).
Proof.
  intros s. split.
  - destruct (proj1 (C2_send_text (text := example.text) s (ipc.send_text_request "4915112345678" "") (0, []) eq_refl)
                (or_intror eq_refl)) as (err & _ & Heq).
    reflexivity.
  - pose proof (proj2 (C2_send_text (text := example.text) s (ipc.send_text_request "4915112345678" "hi") (0, []) eq_refl)
      ltac:(discriminate) ltac:(discriminate) _ _ eq_refl) as (Hw & Hok & _).
    specialize (Hok "ABC123" eq_refl).
    destruct (ipc.processRequest _ _ _) as [r w']. simpl in *. by subst.
Defined.

(** ** The shape of the responses *)

Lemma append_nonempty (p s : string) : p ≠ "" → p +:+ s ≠ "".
Proof. destruct p as [|c p]; [done|]. intros _. discriminate. Qed.

Lemma eqb_empty_false (s : string) : s ≠ "" → String.eqb s "" = false.
Proof. intros Hs. by apply String.eqb_neq. Qed.

Section ResponseShape.
Context {text : json.Text} {H : Type}.
Implicit Types (s : ipc.Server H) (req : ipc.Request) (w : H * list ipc.Call).

(** What the dispatcher returns: a success has no error and has data, a
    failure has no data, and its error is empty only when it is the
    message of an error the handler returned. *)
Lemma processRequest_shape s req w resp w' :
  ipc.processRequest s req w = (ipc.Returned resp, w') →
  (ipc.Success resp = true → ipc.Error resp = "" ∧ data_present resp = true)
  ∧ (ipc.Success resp = false → data_present resp = false)
  ∧ (errors_named (ipc.handler s) → ipc.Success resp = false → ipc.Error resp ≠ "").
Proof.
  unfold ipc.processRequest, ipc.bind, ipc.invoke, ipc.ret, errors_named.
  intros Hrun.
  repeat match type of Hrun with
  | context [if ?b then _ else _] => destruct b eqn:?
  | context [ipc.SendText ?h ?a ?b ?c] =>
    destruct (ipc.SendText h a b c) as [[[? [?|]]|?] ?] eqn:?
  | context [ipc.DeleteMessage ?h ?a ?b ?c ?d] =>
    destruct (ipc.DeleteMessage h a b c d) as [[[?|]|?] ?] eqn:?
  | context [ipc.ChatState ?h ?a ?b ?c ?d] =>
    destruct (ipc.ChatState h a b c d) as [[[?|]|?] ?] eqn:?
  end; simpl in Hrun; simplify_eq; simpl;
  (split; [done|]; split; [done|]); intros (Hs & Hd & Hc) Hfalse;
  try discriminate; try done;
  try (intros ->; by eapply Hs); try (intros ->; by eapply Hd);
  try (intros ->; by eapply Hc).
Qed.

(** [handleConn] hands exactly one response to [writeResponse]. *)
Lemma handleConn_sent s (incoming : error + string) w :
  ∃ resp, ipc.sent (ipc.handleConn s (ipc.fresh_conn incoming) w).1.2 = [resp]
    ∧ ((∃ err, incoming = inl err ∧
          resp = {| ipc.Success := false; ipc.Error := wrap "read error: " err;
                    ipc.Data := ipc.AnyNil |})
       ∨ (∃ line req err, incoming = inr line ∧
            ipc.Unmarshal_Request line ipc.Request_zero = (req, Some err) ∧
            resp = {| ipc.Success := false; ipc.Error := wrap "invalid request: " err;
                      ipc.Data := ipc.AnyNil |})
       ∨ (∃ line req v w', incoming = inr line ∧
            ipc.Unmarshal_Request line ipc.Request_zero = (req, None) ∧
            ipc.processRequest s req w = (ipc.Panicked v, w') ∧
            resp = {| ipc.Success := false; ipc.Error := "internal error: " +:+ v;
                      ipc.Data := ipc.AnyNil |})
       ∨ (∃ line req w', incoming = inr line ∧
            ipc.Unmarshal_Request line ipc.Request_zero = (req, None) ∧
            ipc.processRequest s req w = (ipc.Returned resp, w'))).
Proof.
  unfold ipc.handleConn. destruct incoming as [err|line]; simpl.
  - eexists. split; [done|]. left. eauto.
  - destruct (ipc.Unmarshal_Request line ipc.Request_zero) as [req [err|]] eqn:Hreq.
    + eexists. split; [done|]. right. left. eauto 10.
    + destruct (ipc.processRequest s req w) as [[resp|v] w'] eqn:Hrun.
      * eexists. split; [done|]. do 3 right. eauto 10.
      * eexists. split; [done|]. right. right. left. eauto 10.
Qed.

End ResponseShape.

Lemma response_shape_intro {text : json.Text} (resp : ipc.Response) :
  (ipc.Success resp = true → ipc.Error resp = "" ∧ data_present resp = true) →
  (ipc.Success resp = false → data_present resp = false) →
  (ipc.Success resp = false → ipc.Error resp ≠ "") →
  response_shape resp = true.
Proof.
  unfold response_shape, error_present. intros Ht Hf He.
  destruct (ipc.Success resp).
  - destruct Ht as [-> ->]; done.
  - rewrite Hf, (eqb_empty_false _ (He eq_refl)); done.
Qed.

(** Present on the wire: the object [Marshal] writes for a response
    has the member error iff the error string is not empty, and the
    member data iff the data is not nil. *)
Lemma presence_on_the_wire {text : json.Text} (resp : ipc.Response) ms :
  ipc.marshal_Response resp = Some (json.Object ms) →
  json.map_lookup "success" ms = Some (json.Bool (ipc.Success resp))
  ∧ (is_Some (json.map_lookup "error" ms) ↔ error_present resp = true)
  ∧ (is_Some (json.map_lookup "data" ms) ↔ data_present resp = true).
Proof.
  unfold ipc.marshal_Response, ipc.data_omitempty, ipc.str_omitempty, error_present,
    data_present.
  destruct (String.eqb (ipc.Error resp) "");
    (destruct (ipc.Data resp) as [|b|f|v|l|m|r] eqn:Hdata;
       [|destruct (ipc.marshal_any _) as [j|] ..]);
    cbn [fmap option_fmap option_map app]; intros Hms; simplify_eq;
    cbn [json.map_lookup negb]; (split; [done|]);
    split; split; intros Hx; try done; try (by eexists); by destruct Hx.
Qed.

(** C3, as the code has it.  [handleConn] hands exactly one response to
    [writeResponse], and every response it hands over (the dispatcher's,
    the one for a failed read, the one for an undecodable request, the
    one for a recovered panic) has: with success true, no error string
    and data; with success false, no data.  With success false the
    error string is present too whenever no error returned by the
    handler has the empty message: the dispatcher passes the message of
    a handler error on as it is. *)
Theorem C3_response_shape {text : json.Text} {H : Type} (s : ipc.Server H)
    (incoming : error + string) (w : H * list ipc.Call) (resp : ipc.Response) :
  resp ∈ ipc.sent (ipc.handleConn s (ipc.fresh_conn incoming) w).1.2 →
  length (ipc.sent (ipc.handleConn s (ipc.fresh_conn incoming) w).1.2) = 1
  ∧ (ipc.Success resp = true → error_present resp = false ∧ data_present resp = true)
  ∧ (ipc.Success resp = false → data_present resp = false)
  ∧ (errors_named (ipc.handler s) → response_shape resp = true).
Proof.
  intros Hin.
  destruct (handleConn_sent s incoming w) as (resp0 & Hsent & Hcases).
  rewrite Hsent in Hin |- *. apply list_elem_of_singleton in Hin as ->.
  split; [done|].
  assert (Hfail : ∀ p e, p ≠ "" →
    let r := {| ipc.Success := false; ipc.Error := p +:+ e; ipc.Data := ipc.AnyNil |} in
    (ipc.Success r = true → error_present r = false ∧ data_present r = true)
    ∧ (ipc.Success r = false → data_present r = false)
    ∧ (errors_named (ipc.handler s) → response_shape r = true)).
  { intros p e Hp r. split; [done|]. split; [done|]. intros _.
    apply response_shape_intro; [done | done |]. intros _. by apply append_nonempty. }
  destruct Hcases as [(err & _ & ->) | [(line & req & err & _ & _ & ->)
    | [(line & req & v & w' & _ & _ & _ & ->) | (line & req & w' & _ & _ & Hrun)]]];
    [by apply Hfail .. |].
  destruct (processRequest_shape s req w resp0 w' Hrun) as (Ht & Hf & He).
  split; [|split; [done|]].
  - intros Hs. destruct (Ht Hs) as [Herr Hd]. split; [|done].
    unfold error_present. by rewrite Herr.
  - intros Hnamed. apply response_shape_intro; auto.
Qed.

Lemma C3_response_shape_witness :
  let s := ipc.NewServer "/tmp/wa"
             (example.scripted (ipc.Returned ("", Some "whatsapp not connected"))
                               (ipc.Returned (Some "whatsapp not connected"))) in
  let line := json.write (ipc.marshal_Request (ipc.send_text_request "4915112345678" "hi"))
              +:+ ipc.newline in
  let resp := {| ipc.Success := false; ipc.Error := "whatsapp not connected";
                 ipc.Data := ipc.AnyNil (text := example.text) |} in
  response_shape resp = true.
Proof.
  intros s line resp.
  refine (proj2 (proj2 (proj2
    (C3_response_shape (text := example.text) s (inr line) (0, []) resp _))) _).
  - apply list_elem_of_here.
  - repeat split; intros; discriminate.
Defined.

(** The claim C3 fails where the handler returns an error whose message
    is empty: the daemon answers [{"success":false}], a failure without
    an error string. *)
Lemma C3_counterexample :
  let s := ipc.NewServer "/tmp/wa"
             (example.scripted (ipc.Returned ("", Some "")) (ipc.Returned (Some ""))) in
  let line := json.write (ipc.marshal_Request (ipc.send_text_request "4915112345678" "hi"))
              +:+ ipc.newline in
  let conn := (ipc.handleConn (text := example.text) s (ipc.fresh_conn (inr line)) (0, [])).1.2 in
  let q := json.str1 json.dquote in
  ipc.sent conn = [{| ipc.Success := false; ipc.Error := ""; ipc.Data := ipc.AnyNil |}]
  ∧ ipc.written conn = ["{" +:+ q +:+ "success" +:+ q +:+ ":false}" +:+ ipc.newline]
  ∧ ¬ (∀ resp, resp ∈ ipc.sent conn → response_shape resp = true).
Proof.
  intros s line conn q.
  assert (Hsent : ipc.sent conn =
    [{| ipc.Success := false; ipc.Error := ""; ipc.Data := ipc.AnyNil |}])
    by reflexivity.
  split; [exact Hsent|]. split; [reflexivity|].
  intros Hall. rewrite Hsent in Hall.
  specialize (Hall _ (list_elem_of_here _ _)). discriminate Hall.
Qed.

(** ** The client proxy *)

(** C10. [Client.SendText] can fail although the daemon answered with
    success true: when the data of the decoded response does not
    unmarshal into a [SendTextResult], it returns no result and the
    error "parse response: " followed by the decoder's error.  And
    whenever it returns a nil error it returns a result. *)
Theorem C10_SendText_result {text : json.Text} {fp : ipc.Filepath} (c : ipc.Client)
    (to message : string) (net : ipc.Network) :
  (∀ resp result err,
     ipc.send c (ipc.send_text_request to message) net = inr resp →
     ipc.Success resp = true →
     ipc.reparse_SendTextResult (ipc.Data resp) = (result, Some err) →
     ipc.Client_SendText c to message net = (None, Some ("parse response: " +:+ err)))
  ∧ (∀ result, ipc.Client_SendText c to message net = (result, None) → is_Some result).
Proof.
  unfold ipc.Client_SendText.
  split.
  - intros resp result err -> -> ->. done.
  - intros result.
    destruct (ipc.send c _ net) as [err|resp]; [done|].
    destruct (ipc.Success resp); simpl; [|done].
    destruct (ipc.reparse_SendTextResult _) as [res [err|]]; [done|].
    intros [= <-]. by eexists.
Qed.

(** ** The socket file *)

(** C6. A call of [Stop] on a server whose channel [done] is not yet
    closed returns, and after it no file exists at the socket path of
    the server's store directory, so that [IsAvailable] of a client for
    the same store directory is false. *)
Theorem C6_Stop_removes_socket {fp : ipc.Filepath} {H : Type} (s : ipc.Server H)
    (fs : gset string) :
  ipc.done s = false →
  ∃ s' fs', ipc.Stop s fs = ipc.Returned (s', fs')
    ∧ (ipc.SocketPath (ipc.storeDir s) ∉ fs')
    ∧ ipc.IsAvailable (ipc.NewClient (ipc.storeDir s)) fs' = false.
Proof.
  intros Hdone. unfold ipc.Stop. rewrite Hdone. do 2 eexists. split; [done|].
  set (fs1 := match ipc.listener s with Some l => _ | None => _ end).
  assert (Hgone : ipc.SocketPath (ipc.storeDir s) ∉
                  (ipc.os_Remove (ipc.SocketPath (ipc.storeDir s)) fs1).2).
  { unfold ipc.os_Remove. case_decide; simpl; [|done].
    rewrite elem_of_difference, elem_of_singleton. tauto. }
  split; [done|].
  unfold ipc.IsAvailable, ipc.os_Stat, ipc.NewClient. simpl. by case_decide.
Qed.

Lemma C10_SendText_result_witness :
  ipc.Client_SendText (text := example.text) (fp := example.fp) (ipc.NewClient "/tmp/wa")
    "4915112345678" "hi" example.pong_everywhere =
  (None,
   Some "parse response: json: cannot unmarshal string into Go value of type ipc.SendTextResult").
Proof.
  refine (proj1 (C10_SendText_result (text := example.text) (fp := example.fp)
                   (ipc.NewClient "/tmp/wa")
                   "4915112345678" "hi" example.pong_everywhere)
            {| ipc.Success := true; ipc.Error := ""; ipc.Data := ipc.AnyString "pong" |}
            ipc.SendTextResult_zero
            "json: cannot unmarshal string into Go value of type ipc.SendTextResult" _ _ _);
    reflexivity.
Defined.

Lemma C6_Stop_removes_socket_witness :
  let s := example.started (example.scripted (ipc.Panicked "boom") (ipc.Panicked "boom")) in
  ∃ s' fs', ipc.Stop (fp := example.fp) s {[ "/tmp/wa/wacli.sock" ]} = ipc.Returned (s', fs')
    ∧ ("/tmp/wa/wacli.sock" ∉ fs')
    ∧ ipc.IsAvailable (fp := example.fp) (ipc.NewClient "/tmp/wa") fs' = false.
Proof.
  intros s.
  exact (C6_Stop_removes_socket (fp := example.fp) s {[ "/tmp/wa/wacli.sock" ]} eq_refl).
Defined.

(** ** The chat-state operations and the cache *)

Section Mirror.
Context {lib : Lib} {S : Type} {wac : app.WAClient S}.
Implicit Types (a : app.App S) (s : S).

Lemma on_wa_failed (f : S → option error * S) a k s err s' :
  app.wa a = Some s → f s = (Some err, s') →
  app.on_wa f a k = k (Some err) {| app.wa := Some s'; app.db := app.db a; app.now := app.now a |}.
Proof. intros Hwa Hf. unfold app.on_wa. by rewrite Hwa, Hf. Qed.

(** An operation of the shape of the four: the cache of the result
    differs from the cache before only if the session call returned nil. *)
Lemma on_wa_db (f : S → option error * S) a s
    (g : app.App S → ipc.outcome (option error) * app.App S) :
  app.wa a = Some s →
  app.db (app.on_wa f a (λ err a',
            match err with
            | Some e => (ipc.Returned (Some e), a')
            | None => g a'
            end)).2 ≠ app.db a →
  ∃ s', f s = (None, s').
Proof.
  intros Hwa. unfold app.on_wa. rewrite Hwa.
  destruct (f s) as [[err|] s']; simpl; [done | eauto].
Qed.

End Mirror.

(** C9. Each of [ArchiveChat], [PinChat], [MuteChat] and [MarkChatRead]
    of the application, when the operation on the session returns an
    error, returns that error and leaves the cache as it was (the whole
    database, so in particular the archived, pinned, muted_until and
    unread fields of the chat); and the cache after the operation
    differs from the cache before only if the operation on the session
    returned a nil error. *)
Theorem C9_cache_after_session {lib : Lib} {S : Type} {wac : app.WAClient S}
    (a : app.App S) (s : S) (jid : JID) :
  app.wa a = Some s →
  let kept (s' : S) := {| app.wa := Some s'; app.db := app.db a; app.now := app.now a |} in
  (∀ archive err s',
     app.wa_ArchiveChat jid archive Time_zero None s = (Some err, s') →
     app.ArchiveChat jid archive a = (ipc.Returned (Some err), kept s'))
  ∧ (∀ pin err s',
     app.wa_PinChat jid pin s = (Some err, s') →
     app.PinChat jid pin a = (ipc.Returned (Some err), kept s'))
  ∧ (∀ mute duration err s',
     app.wa_MuteChat jid mute duration s = (Some err, s') →
     app.MuteChat jid mute duration a = (ipc.Returned (Some err), kept s'))
  ∧ (∀ read err s',
     app.wa_MarkChatAsRead jid read Time_zero None s = (Some err, s') →
     app.MarkChatRead jid read a = (ipc.Returned (Some err), kept s'))
  ∧ (∀ archive, app.db (app.ArchiveChat jid archive a).2 ≠ app.db a →
     ∃ s', app.wa_ArchiveChat jid archive Time_zero None s = (None, s'))
  ∧ (∀ pin, app.db (app.PinChat jid pin a).2 ≠ app.db a →
     ∃ s', app.wa_PinChat jid pin s = (None, s'))
  ∧ (∀ mute duration, app.db (app.MuteChat jid mute duration a).2 ≠ app.db a →
     ∃ s', app.wa_MuteChat jid mute duration s = (None, s'))
  ∧ (∀ read, app.db (app.MarkChatRead jid read a).2 ≠ app.db a →
     ∃ s', app.wa_MarkChatAsRead jid read Time_zero None s = (None, s')).
Proof.
  intros Hwa kept.
  split_and!; intros.
  all: try (unfold app.ArchiveChat, app.PinChat, app.MuteChat, app.MarkChatRead;
            by erewrite on_wa_failed).
  all: match goal with
       | Hdb : app.db _ ≠ app.db _ |- _ => exact (on_wa_db _ _ _ _ Hwa Hdb)
       end.
Qed.

Lemma C9_cache_after_session_witness :
  let a := example.application (Some "server refused the patch") in
  app.ArchiveChat (lib := example.lib) (wac := example.wa_client) example.alice true a =
    (ipc.Returned (Some "server refused the patch"), a)
  ∧ app.MuteChat (lib := example.lib) (wac := example.wa_client) example.alice true
      28800000000000 a =
    (ipc.Returned (Some "server refused the patch"), a).
Proof.
  intros a.
  pose proof (C9_cache_after_session (lib := example.lib) (wac := example.wa_client)
                a _ example.alice eq_refl) as (Harchive & _ & Hmute & _).
  split.
  - exact (Harchive true "server refused the patch" _ eq_refl).
  - exact (Hmute true 28800000000000%Z "server refused the patch" _ eq_refl).
Defined.

(** ** The daemon's handler *)

Section SyncHandler.
Context {lib : Lib} {S : Type} {wac : app.WAClient S}.

(** Past the guards of [ChatState] only the action decides. *)
Lemma ChatState_ready (h : main.syncHandler S) a s jid chatJID action duration :
  main.h_app h = Some a → app.wa a = Some s → app.IsConnected s = true →
  ParseUserOrJID jid = inr chatJID →
  main.ChatState jid action duration h =
    if String.eqb action "archive" then main.lift (app.ArchiveChat chatJID true a)
    else if String.eqb action "unarchive" then main.lift (app.ArchiveChat chatJID false a)
    else if String.eqb action "pin" then main.lift (app.PinChat chatJID true a)
    else if String.eqb action "unpin" then main.lift (app.PinChat chatJID false a)
    else if String.eqb action "mute" then
      match (if String.eqb duration "" then inr 0%Z else ParseDuration duration) with
      | inl err => (ipc.Returned (Some (wrap "invalid duration: " err)), h)
      | inr dur => main.lift (app.MuteChat chatJID true dur a)
      end
    else if String.eqb action "unmute" then main.lift (app.MuteChat chatJID false 0 a)
    else if String.eqb action "mark-read" then main.lift (app.MarkChatRead chatJID true a)
    else if String.eqb action "mark-unread" then main.lift (app.MarkChatRead chatJID false a)
    else (ipc.Returned (Some ("unknown chat state action: " +:+ action)), h).
Proof.
  intros Happ Hwa Hconn Hjid. unfold main.ChatState.
  by rewrite Happ, Hwa, Hconn, Hjid.
Qed.

(** The duration reaches nothing but the mute branch. *)
Lemma ChatState_duration (h : main.syncHandler S) jid action d1 d2 :
  action ≠ "mute" →
  main.ChatState jid action d1 h = main.ChatState jid action d2 h.
Proof.
  intros Hmute. unfold main.ChatState.
  by rewrite (proj2 (String.eqb_neq _ _) Hmute).
Qed.

(** An action outside the vocabulary is refused in every state. *)
Lemma ChatState_refused (h : main.syncHandler S) jid action duration :
  action ∉ chat_state_actions →
  ∃ err, main.ChatState jid action duration h = (ipc.Returned (Some err), h).
Proof.
  intros Hnot. unfold chat_state_actions in Hnot.
  repeat (apply not_elem_of_cons in Hnot as [?%String.eqb_neq Hnot]).
  unfold main.ChatState.
  destruct (main.h_app h) as [a|]; [|by eexists].
  destruct (app.wa a) as [s|]; [|by eexists].
  destruct (app.IsConnected s); [|by eexists].
  destruct (ParseUserOrJID jid) as [err|chatJID]; [by eexists|].
  repeat match goal with Hne : String.eqb _ _ = false |- _ => rewrite Hne; clear Hne end.
  by eexists.
Qed.

End SyncHandler.

(** C5, as the code has it.  [ChatState] of the daemon's handler, once
    its guards are passed (the application and its session are there
    and connected, and the chat identifier parses): each of archive,
    unarchive, pin, unpin, mute, unmute, mark-read and mark-unread runs
    its operation of the application, and every other action returns
    the error "unknown chat state action: " followed by the action, the
    handler unchanged.  The duration is read by mute alone: for mute a
    non-empty duration that does not parse gives the error "invalid
    duration: ...", and for every other action, in every state of the
    handler, the result does not depend on the duration.  In every
    state of the handler, guards passed or not, an action outside the
    eight is refused with an error. *)
Theorem C5_ChatState_actions {lib : Lib} {S : Type} {wac : app.WAClient S}
    (h : main.syncHandler S) (a : app.App S) (s : S) (jid : string) (chatJID : JID) :
  main.h_app h = Some a → app.wa a = Some s → app.IsConnected s = true →
  ParseUserOrJID jid = inr chatJID →
  (∀ action duration, action ∉ chat_state_actions →
     main.ChatState jid action duration h =
       (ipc.Returned (Some ("unknown chat state action: " +:+ action)), h))
  ∧ (∀ duration,
       main.ChatState jid "archive" duration h = main.lift (app.ArchiveChat chatJID true a)
     ∧ main.ChatState jid "unarchive" duration h = main.lift (app.ArchiveChat chatJID false a)
     ∧ main.ChatState jid "pin" duration h = main.lift (app.PinChat chatJID true a)
     ∧ main.ChatState jid "unpin" duration h = main.lift (app.PinChat chatJID false a)
     ∧ main.ChatState jid "unmute" duration h = main.lift (app.MuteChat chatJID false 0 a)
     ∧ main.ChatState jid "mark-read" duration h = main.lift (app.MarkChatRead chatJID true a)
     ∧ main.ChatState jid "mark-unread" duration h = main.lift (app.MarkChatRead chatJID false a))
  ∧ main.ChatState jid "mute" "" h = main.lift (app.MuteChat chatJID true 0 a)
  ∧ (∀ duration dur, duration ≠ "" → ParseDuration duration = inr dur →
       main.ChatState jid "mute" duration h = main.lift (app.MuteChat chatJID true dur a))
  ∧ (∀ duration err, duration ≠ "" → ParseDuration duration = inl err →
       main.ChatState jid "mute" duration h =
         (ipc.Returned (Some ("invalid duration: " +:+ err)), h))
  ∧ (∀ (h' : main.syncHandler S) jid' action d1 d2, action ≠ "mute" →
       main.ChatState jid' action d1 h' = main.ChatState jid' action d2 h')
  ∧ (∀ (h' : main.syncHandler S) jid' action duration, action ∉ chat_state_actions →
       ∃ err, main.ChatState jid' action duration h' = (ipc.Returned (Some err), h')).
Proof.
  intros Happ Hwa Hconn Hjid.
  pose proof (ChatState_ready h a s jid chatJID) as Hready.
  split_and!.
  - intros action duration Hnot. rewrite (Hready action duration) by done.
    unfold chat_state_actions in Hnot.
    repeat (apply not_elem_of_cons in Hnot as [?%String.eqb_neq Hnot]).
    by repeat match goal with Hne : String.eqb _ _ = false |- _ => rewrite Hne; clear Hne end.
  - intros duration. split_and!; by rewrite Hready.
  - by rewrite Hready.
  - intros duration dur Hd Hparse. rewrite (Hready "mute" duration) by done.
    simpl. by rewrite (proj2 (String.eqb_neq _ _) Hd), Hparse.
  - intros duration err Hd Hparse. rewrite (Hready "mute" duration) by done.
    simpl. by rewrite (proj2 (String.eqb_neq _ _) Hd), Hparse.
  - intros. by apply ChatState_duration.
  - intros. by apply ChatState_refused.
Qed.

Lemma C5_ChatState_actions_witness :
  let h := {| main.h_app := Some (example.application None) |} in
  main.ChatState (lib := example.lib) (wac := example.wa_client) example.alice "snooze" "8h" h =
    (ipc.Returned (Some "unknown chat state action: snooze"), h)
  ∧ main.ChatState (lib := example.lib) (wac := example.wa_client) example.alice "mute" "soon" h =
    (ipc.Returned (Some "invalid duration: time: invalid duration soon"), h)
  ∧ main.ChatState (lib := example.lib) (wac := example.wa_client) example.alice "pin" "soon" h =
    main.ChatState (lib := example.lib) (wac := example.wa_client) example.alice "pin" "" h.
Proof.
  intros h.
  pose proof (C5_ChatState_actions (lib := example.lib) (wac := example.wa_client)
                h _ _ example.alice example.alice eq_refl eq_refl eq_refl eq_refl)
    as (Hunknown & _ & _ & _ & Hinvalid & Hduration & _).
  split_and!.
  - apply Hunknown. unfold chat_state_actions.
    repeat (apply not_elem_of_cons; split; [discriminate|]). apply not_elem_of_nil.
  - exact (Hinvalid "soon" "time: invalid duration soon" ltac:(discriminate) eq_refl).
  - apply Hduration. discriminate.
Defined.

(** ** The commands *)

Section Fallback.
Context {lib : Lib} {fp : ipc.Filepath} {text : json.Text}.

Lemma Client_SendText_error (c : ipc.Client) to message net err :
  helper_error (ipc.send c (ipc.send_text_request to message) net) = Some err →
  ipc.Client_SendText c to message net = (None, Some err).
Proof.
  unfold ipc.Client_SendText, helper_error.
  destruct (ipc.send c _ net) as [e|resp]; [by intros [= ->]|].
  destruct (ipc.Success resp); [done|]. by intros [= ->].
Qed.

Lemma Client_DeleteMessage_error (c : ipc.Client) chat msgID forEveryone net :
  ipc.Client_DeleteMessage c chat msgID forEveryone net =
  helper_error (ipc.send c (ipc.delete_message_request chat msgID forEveryone) net).
Proof.
  unfold ipc.Client_DeleteMessage, helper_error.
  destruct (ipc.send c _ net) as [e|resp]; [done|]. by destruct (ipc.Success resp).
Qed.

Lemma Client_ChatState_error (c : ipc.Client) jid action duration net :
  ipc.Client_ChatState c jid action duration net =
  helper_error (ipc.send c (ipc.chat_state_request jid action duration) net).
Proof.
  unfold ipc.Client_ChatState, helper_error.
  destruct (ipc.send c _ net) as [e|resp]; [done|]. by destruct (ipc.Success resp).
Qed.

Lemma IsAvailable_elem_of (c : ipc.Client) (fs : gset string) :
  ipc.SocketPath (ipc.client_storeDir c) ∈ fs → ipc.IsAvailable c fs = true.
Proof. intros Hin. unfold ipc.IsAvailable, ipc.os_Stat. by case_decide. Qed.

End Fallback.

(** C1, as the code has it.  At each of the entry points (send text,
    delete message, chat state, and mute among the chat states, which
    has a command of its own), with the daemon not disabled and
    its socket file there, whenever the helper of the client proxy
    ([Client.SendText], [Client.DeleteMessage], [Client.ChatState])
    returns an error, whatever that error is, the command writes the
    warning with that error to standard error and goes on with the
    direct path: its result is the result of the direct path.  The
    daemon's error is not the result of the command.  The errors of the
    helpers are the transport error of [send], the message of a decoded
    response with success false and, for [Client.SendText] alone, the
    "parse response" error after a decoded response with success true
    whose data is no send result. *)
Theorem C1_any_proxy_error_falls_through {lib : Lib} {fp : ipc.Filepath} {text : json.Text}
    {P : Type} {direct : main.Direct P}
    (flags : main.rootFlags) (fs : gset string) (net : ipc.Network) (p : main.Proc P)
    (err : error) :
  let client := ipc.NewClient (main.resolve_storeDir flags) in
  ipc.IsAvailable client fs = true →
  (∀ to message result, to ≠ "" → message ≠ "" →
     ipc.Client_SendText client to message net = (result, Some err) →
     main.sendText_RunE flags to message false fs net p =
       main.sendText_direct flags to message (warned "send" err p))
  ∧ (∀ chat msgID forEveryone, chat ≠ "" → msgID ≠ "" →
     ipc.Client_DeleteMessage client chat msgID forEveryone net = Some err →
     main.deleteMessage_RunE flags chat msgID forEveryone false fs net p =
       main.deleteMessage_direct flags chat msgID forEveryone (warned "delete" err p))
  ∧ (∀ action jidStr, TrimSpace jidStr ≠ "" →
     ipc.Client_ChatState client jidStr (main.use action) "" net = Some err →
     main.chatState_RunE flags action jidStr false fs net p =
       main.chatState_direct flags action jidStr (warned (main.use action) err p))
  ∧ (∀ jidStr durStr, TrimSpace jidStr ≠ "" →
     ipc.Client_ChatState client jidStr "mute" durStr net = Some err →
     main.chatsMute_RunE flags jidStr durStr false fs net p =
       main.chatsMute_direct flags jidStr durStr (warned "mute" err p))
  ∧ (∀ to message,
       (helper_error (ipc.send client (ipc.send_text_request to message) net) = Some err →
        ipc.Client_SendText client to message net = (None, Some err))
     ∧ (∀ resp result e,
          ipc.send client (ipc.send_text_request to message) net = inr resp →
          ipc.Success resp = true →
          ipc.reparse_SendTextResult (ipc.Data resp) = (result, Some e) →
          err = "parse response: " +:+ e →
          ipc.Client_SendText client to message net = (None, Some err)))
  ∧ (∀ chat msgID forEveryone,
       ipc.Client_DeleteMessage client chat msgID forEveryone net =
       helper_error (ipc.send client (ipc.delete_message_request chat msgID forEveryone) net))
  ∧ (∀ jid action duration,
       ipc.Client_ChatState client jid action duration net =
       helper_error (ipc.send client (ipc.chat_state_request jid action duration) net)).
Proof.
  intros client Havail. split_and!.
  - intros to message result Hto Hmsg Herr.
    unfold main.sendText_RunE, main.sendText_ipc. fold client.
    rewrite (proj2 (String.eqb_neq _ _) Hto), (proj2 (String.eqb_neq _ _) Hmsg), Havail.
    rewrite Herr. by destruct result.
  - intros chat msgID forEveryone Hchat Hid Herr.
    unfold main.deleteMessage_RunE, main.deleteMessage_ipc. fold client.
    rewrite (proj2 (String.eqb_neq _ _) Hchat), (proj2 (String.eqb_neq _ _) Hid), Havail.
    by rewrite Herr.
  - intros action jidStr Hjid Herr.
    unfold main.chatState_RunE, main.chatState_ipc. fold client.
    rewrite (proj2 (String.eqb_neq _ _) Hjid), Havail.
    by rewrite Herr.
  - intros jidStr durStr Hjid Herr.
    unfold main.chatsMute_RunE, main.chatsMute_ipc. fold client.
    rewrite (proj2 (String.eqb_neq _ _) Hjid), Havail.
    by rewrite Herr.
  - intros to message. split; [apply Client_SendText_error|].
    intros resp result e Hsend Hok Hdata ->.
    unfold ipc.Client_SendText. by rewrite Hsend, Hok, Hdata.
  - intros. apply Client_DeleteMessage_error.
  - intros. apply Client_ChatState_error.
Qed.

(** The daemon of [/tmp/wa] answers the send_text request with a
    decoded failure; and a peer that answers success true with data
    that is no send result makes the command warn about the "parse
    response" error and send over its own session as well. *)
Lemma C1_any_proxy_error_falls_through_witness :
  let net := example.daemon (example.started example.disconnected) in
  let parse := "parse response: json: cannot unmarshal string into Go value of type ipc.SendTextResult" in
  main.sendText_RunE (lib := example.lib) (fp := example.fp) (text := example.text)
    (direct := example.direct) example.flags example.alice "hi" false
    example.socket_there net example.proc =
  main.sendText_direct (lib := example.lib) (direct := example.direct)
    example.flags example.alice "hi" (warned "send" "whatsapp not connected" example.proc)
  ∧ main.sendText_RunE (lib := example.lib) (fp := example.fp) (text := example.text)
      (direct := example.direct) example.flags example.alice "hi" false
      example.socket_there example.pong_everywhere example.proc =
    main.sendText_direct (lib := example.lib) (direct := example.direct)
      example.flags example.alice "hi" (warned "send" parse example.proc).
Proof.
  intros net parse. split.
  - refine (proj1 (C1_any_proxy_error_falls_through (lib := example.lib) (fp := example.fp)
                     (text := example.text) (direct := example.direct)
                     example.flags example.socket_there net example.proc
                     "whatsapp not connected" _) example.alice "hi" None _ _ _).
    + reflexivity.
    + discriminate.
    + discriminate.
    + reflexivity.
  - refine (proj1 (C1_any_proxy_error_falls_through (lib := example.lib) (fp := example.fp)
                     (text := example.text) (direct := example.direct)
                     example.flags example.socket_there example.pong_everywhere example.proc
                     parse _) example.alice "hi" None _ _ _).
    + reflexivity.
    + discriminate.
    + discriminate.
    + reflexivity.
Defined.

(** The claim C1 fails: the daemon of [/tmp/wa] is alive and answers
    the send_text request with the decoded failure "whatsapp not
    connected"; the command does not return that error but warns, sends
    the message over its own session, mirrors it into the cache and
    reports success. *)
Lemma C1_counterexample :
  let net := example.daemon (example.started example.disconnected) in
  let resp := {| ipc.Success := false; ipc.Error := "whatsapp not connected";
                 ipc.Data := ipc.AnyNil (text := example.text) |} in
  let run := main.sendText_RunE (lib := example.lib) (fp := example.fp) (text := example.text)
               (direct := example.direct) example.flags example.alice "hi" false
               example.socket_there net example.proc in
  ipc.send (fp := example.fp) (ipc.NewClient "/tmp/wa") (ipc.send_text_request example.alice "hi") net
    = inr resp
  ∧ run =
    (ipc.Returned None,
     {| main.state := ["newApp"; "EnsureAuthed"; "Connect";
                       "SendText 4915112345678@s.whatsapp.net hi";
                       "UpsertChat 4915112345678@s.whatsapp.net";
                       "UpsertMessage 3EB0C0FFEE"; "closeApp"];
        main.stdout := ["Sent to 4915112345678@s.whatsapp.net (id 3EB0C0FFEE)" +:+ ipc.newline];
        main.stderr := ["IPC send failed (whatsapp not connected), trying direct mode..."
                        +:+ ipc.newline] |})
  ∧ ¬ surfaces_daemon_error run example.proc resp.
Proof.
  intros net resp run.
  assert (Hrun : run =
    (ipc.Returned None,
     {| main.state := ["newApp"; "EnsureAuthed"; "Connect";
                       "SendText 4915112345678@s.whatsapp.net hi";
                       "UpsertChat 4915112345678@s.whatsapp.net";
                       "UpsertMessage 3EB0C0FFEE"; "closeApp"];
        main.stdout := ["Sent to 4915112345678@s.whatsapp.net (id 3EB0C0FFEE)" +:+ ipc.newline];
        main.stderr := ["IPC send failed (whatsapp not connected), trying direct mode..."
                        +:+ ipc.newline] |})) by reflexivity.
  split; [reflexivity|]. split; [exact Hrun|].
  intros [Hres _]. rewrite Hrun in Hres. discriminate Hres.
Qed.

(** ** The wire codec *)

Lemma string_take_drop (n : nat) (s : string) :
  utf8.string_take n s +:+ utf8.string_drop n s = s.
Proof.
  revert s. induction n as [|n IH]; intros [|c s]; try done.
  change (String c (utf8.string_take n s +:+ utf8.string_drop n s) = String c s).
  by rewrite IH.
Qed.

Lemma string_drop_length (n : nat) (s : string) :
  (String.length (utf8.string_drop n s) ≤ String.length s)%nat.
Proof.
  revert s. induction n as [|n IH]; intros [|c s]; simpl; try lia.
  specialize (IH s). lia.
Qed.

(** The encoder leaves well-formed UTF-8 as it is. *)
Lemma coerce_fuel_valid (fuel : nat) (s : string) :
  (String.length s ≤ fuel)%nat → utf8.valid_fuel fuel s = true → utf8.coerce_fuel fuel s = s.
Proof.
  revert s. induction fuel as [|fuel IH]; intros [|c r] Hlen Hvalid; try done.
  simpl in Hlen. cbn [utf8.valid_fuel utf8.coerce_fuel] in *.
  destruct (utf8.width (String c r)) as [|k] eqn:Hw; [done|].
  rewrite IH; [apply string_take_drop | | done].
  change (utf8.string_drop (S k) (String c r)) with (utf8.string_drop k r).
  pose proof (string_drop_length k r). lia.
Qed.

Lemma coerce_valid (s : string) : utf8.ValidString s = true → utf8.coerce s = s.
Proof. intros Hvalid. by apply coerce_fuel_valid. Qed.

(** *** The text of strings and of flat objects *)

Lemma length_append (a b : string) :
  String.length (a +:+ b) = (String.length a + String.length b)%nat.
Proof.
  induction a as [|c a IH]; [done|].
  change (S (String.length (a +:+ b)) = S (String.length a + String.length b)).
  by rewrite IH.
Qed.

Lemma unquote_ascii (c : ascii) (X : string) (F : nat) :
  utf8.byte_in 0 127 c = true →
  json.unquote (S F) (json.escape_byte c +:+ X) = json.prepend (json.str1 c) (json.unquote F X).
Proof.
  destruct c as [[] [] [] [] [] [] [] []]; intros Hc; try discriminate Hc; reflexivity.
Qed.

Lemma escape_byte_length (c : ascii) : (1 ≤ String.length (json.escape_byte c))%nat.
Proof.
  destruct c as [[] [] [] [] [] [] [] []]; cbv; lia.
Qed.

Lemma string_take_app (a Y : string) : utf8.string_take (String.length a) (a +:+ Y) = a.
Proof.
  induction a as [|c a IH]; [by destruct Y|].
  change (String c (utf8.string_take (String.length a) (a +:+ Y)) = String c a). by rewrite IH.
Qed.

Lemma string_drop_app (a Y : string) : utf8.string_drop (String.length a) (a +:+ Y) = Y.
Proof.
  induction a as [|c a IH]; [by destruct Y|].
  change (utf8.string_drop (String.length a) (a +:+ Y) = Y). by rewrite IH.
Qed.

Ltac case_tests :=
  repeat match goal with
  | |- context [if ?b then _ else _] => destruct b eqn:?
  | H : context [if ?b then _ else _] |- _ => destruct b eqn:?
  end.

(** The width of a well-formed rune is decided by its own bytes. *)
Lemma width_rune (s : string) (k : nat) :
  utf8.width s = S k →
  String.length (utf8.string_take (S k) s) = S k
  ∧ ∀ Y, utf8.width (utf8.string_take (S k) s +:+ Y) = S k.
Proof.
  destruct s as [|b0 [|b1 [|b2 [|b3 r]]]]; cbn [utf8.width]; intros Hw;
    case_tests; simplify_eq; (split; [done|]); intros Y;
    cbn [utf8.string_take]; unfold String.append; fold String.append;
    cbn [utf8.width]; by repeat match goal with H : _ = _ |- _ => rewrite H; clear H end.
Qed.

Lemma not_ascii_plain (c : ascii) :
  utf8.byte_in 0 127 c = false →
  json.isc c json.dquote = false ∧ json.isc c "\" = false ∧ (json.ord c <? 32)%N = false.
Proof. destruct c as [[] [] [] [] [] [] [] []]; intros Hc; try discriminate Hc; done. Qed.

Lemma unquote_separator (sep esc : string) (Z : string) (F : nat) :
  (sep = json.line_sep ∧ esc = String "\" "u2028") ∨
  (sep = json.para_sep ∧ esc = String "\" "u2029") →
  json.unquote (S F) (esc +:+ Z) = json.prepend sep (json.unquote F Z).
Proof. intros [[-> ->]|[-> ->]]; reflexivity. Qed.

(** A rune that is copied as it is, read back. *)
Lemma unquote_rune (c : ascii) (r Y : string) (k F : nat) :
  utf8.byte_in 0 127 c = false →
  utf8.width (String c r) = S k →
  json.unquote (S F) (utf8.string_take (S k) (String c r) +:+ Y) =
    json.prepend (utf8.string_take (S k) (String c r)) (json.unquote F Y).
Proof.
  intros Hc Hw. destruct (width_rune _ _ Hw) as [Hlen Hwidth].
  destruct (not_ascii_plain c Hc) as (Hq & Hb & Hlow).
  set (rune := utf8.string_take (S k) (String c r)) in *.
  assert (Hrune : rune +:+ Y = String c (utf8.string_take k r +:+ Y)) by done.
  rewrite Hrune. cbn [json.unquote]. rewrite Hq, Hb, Hlow, Hc, <- Hrune, Hwidth.
  by rewrite <- Hlen, string_take_app, string_drop_app.
Qed.

Lemma unquote_replacement (Z : string) (F : nat) :
  json.unquote (S F) (String "\" "ufffd" +:+ Z) = json.prepend utf8.RuneError (json.unquote F Z).
Proof. reflexivity. Qed.

(** What the encoder writes for a string, read back, is the string
    with U+FFFD for the bytes that are not UTF-8. *)
Lemma unquote_escape (f : nat) (s tail : string) (F : nat) :
  (String.length s ≤ f)%nat →
  (String.length (json.escape_fuel f s) < F)%nat →
  json.unquote F (json.escape_fuel f s +:+ String json.dquote tail) =
    Some (utf8.coerce_fuel f s, tail).
Proof.
  revert s F. induction f as [|f IH]; intros [|c r] F Hlen HF;
    try (simpl in Hlen; lia); try (destruct F; [simpl in HF; lia | reflexivity]).
  simpl in Hlen. cbn [utf8.coerce_fuel json.escape_fuel] in *.
  destruct F as [|F]; [lia|].
  destruct (utf8.byte_in 0 127 c) eqn:Hc.
  - assert (Hw : utf8.width (String c r) = 1%nat) by (cbn [utf8.width]; by rewrite Hc).
    rewrite Hw. change (utf8.string_drop 1 (String c r)) with r.
    rewrite length_append in HF. pose proof (escape_byte_length c).
    rewrite append_assoc, unquote_ascii by done.
    rewrite IH by lia. done.
  - destruct (utf8.width (String c r)) as [|k] eqn:Hw;
      rewrite length_append in HF; rewrite append_assoc.
    { rewrite unquote_replacement, IH by (simpl in HF; lia). done. }
    assert (Hdrop : (String.length (utf8.string_drop (S k) (String c r)) ≤ f)%nat).
    { change (utf8.string_drop (S k) (String c r)) with (utf8.string_drop k r).
      pose proof (string_drop_length k r). lia. }
    set (rune := utf8.string_take (S k) (String c r)) in *.
    set (rest := utf8.string_drop (S k) (String c r)) in *.
    assert (Hstep : ∀ piece, (1 ≤ String.length piece)%nat →
      (String.length piece + String.length (json.escape_fuel f rest) < S F)%nat →
      json.unquote (S F) (piece +:+ json.escape_fuel f rest +:+ String json.dquote tail) =
        json.prepend rune (json.unquote F (json.escape_fuel f rest +:+ String json.dquote tail)) →
      json.unquote (S F) (piece +:+ json.escape_fuel f rest +:+ String json.dquote tail) =
        Some (rune +:+ utf8.coerce_fuel f rest, tail)).
    { intros piece Hp Hl ->. by rewrite IH by lia. }
    destruct (String.eqb_spec rune json.line_sep) as [Hl|_];
      [|destruct (String.eqb_spec rune json.para_sep) as [Hp|_]].
    + apply Hstep; [simpl; lia | done |]. apply unquote_separator. by left.
    + apply Hstep; [simpl; lia | done |]. apply unquote_separator. by right.
    + apply Hstep; [|done|by apply unquote_rune].
      destruct (width_rune _ _ Hw) as [Hrune _].
      change (String.length rune = S k) in Hrune. lia.
Qed.

Lemma value_string_literal (r : string) (fuel depth : nat) :
  json.value (S fuel) depth (String json.dquote r) =
    (λ x, (json.Str x.1, x.2)) <$> json.unquote (S (String.length r)) r.
Proof. reflexivity. Qed.

(** A string literal at the head of a text is read as the string. *)
Lemma value_quote (s tail : string) (fuel depth : nat) :
  json.value (S fuel) depth (json.quote s +:+ tail) = Some (json.Str (utf8.coerce s), tail).
Proof.
  unfold json.quote. rewrite !append_assoc.
  change (json.str1 json.dquote +:+ ?x) with (String json.dquote x).
  rewrite value_string_literal.
  change (json.str1 json.dquote +:+ tail) with (String json.dquote tail).
  rewrite unquote_escape; [done | done |].
  rewrite length_append. simpl. lia.
Qed.

Lemma value_plain (x : json.t) (tail : string) (fuel depth : nat) :
  json.plain x = true →
  json.value (S fuel) depth (json.write x +:+ tail) = Some (x, tail).
Proof.
  destruct x as [|[]|lit|s|l|ms]; intros Hx; try done.
  cbn [json.write]. by rewrite value_quote, coerce_valid.
Qed.

Lemma members_literal (r : string) (fuel depth : nat) :
  json.members (S fuel) depth (String json.dquote r) =
    match json.unquote (S (String.length r)) r with
    | None => None
    | Some (k, r1) =>
      match json.skip_ws r1 with
      | EmptyString => None
      | String colon r2 =>
        if json.isc colon ":" then
          match json.value fuel depth r2 with
          | None => None
          | Some (v, r3) =>
            match json.skip_ws r3 with
            | EmptyString => None
            | String d r4 =>
              if json.isc d "," then (λ x, ((k, v) :: x.1, x.2)) <$> json.members fuel depth r4
              else if json.isc d "}" then Some ([(k, v)], r4)
              else None
            end
          end
        else None
      end
    end.
Proof. reflexivity. Qed.

Lemma quote_head (s : string) :
  json.quote s = String json.dquote (json.escape_fuel (String.length s) s +:+ json.str1 json.dquote).
Proof. reflexivity. Qed.

Lemma write_members_head k x ms :
  ∃ r, json.write_members ((k, x) :: ms) = String json.dquote r.
Proof. cbn [json.write_members]. rewrite quote_head. by eexists. Qed.

(** The members of an object, as written, read back. *)
Lemma members_write (ms : list (string * json.t)) (rest : string) (fuel depth : nat) :
  ms ≠ [] → forallb json.plain_member ms = true → (2 * length ms ≤ fuel)%nat →
  json.members fuel depth (json.write_members ms +:+ String "}" rest) = Some (ms, rest).
Proof.
  revert fuel. induction ms as [|[k x] ms IH]; intros fuel Hne Hplain Hfuel; [done|].
  cbn [forallb] in Hplain. apply andb_true_iff in Hplain as [Hkx Hplain].
  apply andb_true_iff in Hkx as [Hk Hx]. simpl in Hk, Hx.
  destruct fuel as [|[|fuel]]; [simpl in Hfuel; lia ..|].
  cbn [json.write_members]. rewrite quote_head.
  rewrite !append_assoc.
  change (String json.dquote ?a +:+ ?b) with (String json.dquote (a +:+ b)).
  rewrite members_literal, !append_assoc.
  change (json.str1 json.dquote +:+ ?x) with (String json.dquote x).
  rewrite unquote_escape; [|done|rewrite length_append; simpl; lia].
  change (utf8.coerce_fuel (String.length k) k) with (utf8.coerce k).
  rewrite (coerce_valid k Hk).
  change (json.skip_ws (":" +:+ ?x)) with (String ":"%char x).
  change (json.isc ":" ":") with true. cbn match.
  rewrite value_plain by done.
  destruct ms as [|[k' x'] ms'].
  - reflexivity.
  - change (("," +:+ ?a) +:+ ?b) with (String ","%char (a +:+ b)).
    change (json.skip_ws (String ","%char ?x)) with (String ","%char x).
    change (json.isc "," ",") with true. cbn match.
    rewrite IH; [done | done | done |]. simpl in *. lia.
Qed.

Lemma write_Object (ms : list (string * json.t)) :
  json.write (json.Object ms) = "{" +:+ json.write_members ms +:+ "}".
Proof. reflexivity. Qed.

Lemma write_members_length (ms : list (string * json.t)) :
  (length ms ≤ String.length (json.write_members ms))%nat.
Proof.
  induction ms as [|[k x] ms IH]; [done|].
  cbn [json.write_members length]. rewrite quote_head.
  change (String json.dquote ?a +:+ ?b) with (String json.dquote (a +:+ b)).
  cbn [String.length]. rewrite !length_append.
  destruct ms as [|kv ms]; [simpl; lia|].
  rewrite !length_append. lia.
Qed.

Lemma value_object (r : string) (fuel depth : nat) :
  json.value (S fuel) (S depth) (String "{" r) =
    match json.skip_ws r with
    | EmptyString => None
    | String d r' as r1 =>
      if json.isc d "}" then Some (json.Object [], r')
      else (λ x, (json.Object x.1, x.2)) <$> json.members fuel depth r1
    end.
Proof. reflexivity. Qed.

(** An object of plain members, written on a line and read back. *)
Lemma read_write_object (ms : list (string * json.t)) :
  forallb json.plain_member ms = true →
  json.read (json.write (json.Object ms) +:+ ipc.newline) = inr (json.Object ms).
Proof.
  intros Hplain. rewrite write_Object. unfold json.read.
  set (line := ("{" +:+ json.write_members ms +:+ "}") +:+ ipc.newline).
  assert (Hline : line = String "{" (json.write_members ms +:+ String "}" ipc.newline)).
  { unfold line. by rewrite !append_assoc. }
  assert (Hfuel : ∃ fuel, (2 * String.length line + 2 = S fuel ∧ 2 * length ms ≤ fuel)%nat).
  { exists (S (2 * String.length line)). split; [lia|].
    rewrite Hline. simpl String.length. rewrite length_append.
    pose proof (write_members_length ms). lia. }
  destruct Hfuel as (fuel & -> & Hfuel).
  change json.maxNestingDepth with (S (pred json.maxNestingDepth)).
  rewrite Hline.
  change (json.skip_ws (String "{" ?x)) with (String "{"%char x).
  rewrite value_object.
  destruct ms as [|[k x] ms].
  - reflexivity.
  - destruct (write_members_head k x ms) as [r Hr].
    rewrite Hr.
    change (json.skip_ws (String json.dquote ?a +:+ ?b)) with (String json.dquote a +:+ b).
    change ((String json.dquote ?a +:+ ?b)) with (String json.dquote (a +:+ b)).
    change (json.isc json.dquote "}") with false. cbn match.
    change (String json.dquote (?a +:+ ?b)) with (String json.dquote a +:+ b).
    rewrite <- Hr, members_write by done. reflexivity.
Qed.

Section RoundTrip.
Context {text : json.Text}.
Implicit Types (r acc : ipc.Request).

(** Decoding the members one field contributes, into a request whose
    field still holds the zero value. *)
Lemma decode_str_member key v (get : ipc.Request → string) set acc :
  utf8.ValidString v = true →
  (∀ j a, ipc.Request_member a (key, j) = ipc.set_string "Request" key j get set a) →
  fold_left ipc.Request_member (ipc.str_member key v) (acc, None) = (set v acc, None).
Proof.
  intros Hvalid Hmember. unfold ipc.str_member. cbn [fold_left].
  rewrite Hmember, (coerce_valid v Hvalid). by destruct acc.
Qed.

Lemma decode_str_omitempty key v (get : ipc.Request → string) set acc :
  utf8.ValidString v = true →
  (∀ j a, ipc.Request_member a (key, j) = ipc.set_string "Request" key j get set a) →
  set "" acc = acc →
  fold_left ipc.Request_member (ipc.str_omitempty key v) (acc, None) = (set v acc, None).
Proof.
  intros Hvalid Hmember Hzero. unfold ipc.str_omitempty.
  destruct (String.eqb_spec v "") as [->|_]; [by rewrite Hzero|].
  by apply (decode_str_member key v get).
Qed.

Lemma decode_bool_omitempty (v : bool) acc :
  ipc.ForEveryone acc = false →
  fold_left ipc.Request_member (ipc.bool_omitempty "for_everyone" v) (acc, None) =
    (ipc.with_ForEveryone v acc, None).
Proof.
  intros Hzero. destruct v; cbn [ipc.bool_omitempty fold_left]; [done|].
  by destruct acc; simpl in *; subst.
Qed.

Lemma unmarshal_marshal_Request r :
  utf8_request r = true →
  ipc.unmarshal_Request (ipc.marshal_Request r) ipc.Request_zero = (r, None).
Proof.
  unfold utf8_request. rewrite !andb_true_iff.
  intros ((((((((Hcommand & Hto) & Hmessage) & Hfile) & Hcaption) & Hchat) & Hid) & Haction)
          & Hduration).
  unfold ipc.unmarshal_Request, ipc.marshal_Request.
  rewrite !fold_left_app.
  rewrite (decode_str_member "command" _ ipc.Command ipc.with_Command) by done.
  rewrite (decode_str_omitempty "to" _ ipc.To ipc.with_To) by done.
  rewrite (decode_str_omitempty "message" _ ipc.Message ipc.with_Message) by done.
  rewrite (decode_str_omitempty "file" _ ipc.File ipc.with_File) by done.
  rewrite (decode_str_omitempty "caption" _ ipc.Caption ipc.with_Caption) by done.
  rewrite (decode_str_omitempty "chat" _ ipc.Chat ipc.with_Chat) by done.
  rewrite (decode_str_omitempty "msg_id" _ ipc.MsgID ipc.with_MsgID) by done.
  rewrite decode_bool_omitempty by done.
  rewrite (decode_str_omitempty "action" _ ipc.Action ipc.with_Action) by done.
  rewrite (decode_str_omitempty "duration" _ ipc.Duration ipc.with_Duration) by done.
  by destruct r.
Qed.

End RoundTrip.

Lemma plain_str_member key v :
  utf8.ValidString key = true → utf8.ValidString v = true →
  forallb json.plain_member (ipc.str_member key v) = true.
Proof.
  intros Hkey Hv. unfold ipc.str_member, json.plain_member. cbn [forallb fst snd json.plain].
  by rewrite (coerce_valid v Hv), Hkey, Hv.
Qed.

Lemma plain_str_omitempty key v :
  utf8.ValidString key = true → utf8.ValidString v = true →
  forallb json.plain_member (ipc.str_omitempty key v) = true.
Proof.
  intros Hkey Hv. unfold ipc.str_omitempty.
  destruct (String.eqb v ""); [done | by apply plain_str_member].
Qed.

Lemma plain_bool_omitempty key v :
  utf8.ValidString key = true →
  forallb json.plain_member (ipc.bool_omitempty key v) = true.
Proof.
  intros Hkey. destruct v; [|done].
  unfold ipc.bool_omitempty, json.plain_member. cbn [forallb fst snd json.plain].
  by rewrite Hkey.
Qed.

(** A request of text is written as a flat object of plain members. *)
Lemma marshal_Request_plain (r : ipc.Request) :
  utf8_request r = true →
  ∃ ms, ipc.marshal_Request r = json.Object ms ∧ forallb json.plain_member ms = true.
Proof.
  unfold utf8_request. rewrite !andb_true_iff.
  intros ((((((((Hcommand & Hto) & Hmessage) & Hfile) & Hcaption) & Hchat) & Hid) & Haction)
          & Hduration).
  eexists. split; [reflexivity|].
  rewrite !forallb_app, !andb_true_iff.
  split_and!;
    first [ by apply plain_str_member | by apply plain_str_omitempty
          | by apply plain_bool_omitempty ].
Qed.

(** C7, as the code has it.  For every request whose strings are
    well-formed UTF-8, with any of the optional fields present or
    absent, encoding and then decoding gives the request back and no
    error: the fields are recovered from the JSON value the encoder
    writes, and the line of text written for that value (the compact
    text followed by a newline) is read back as that value.  So
    [json.Unmarshal] on the line that [json.Marshal] wrote returns the
    request; and the same holds for every text layer that reads back
    what it wrote. *)
Theorem C7_request_round_trip (r : ipc.Request) :
  utf8_request r = true →
  ipc.unmarshal_Request (ipc.marshal_Request r) ipc.Request_zero = (r, None)
  ∧ json.read (json.write (ipc.marshal_Request r) +:+ ipc.newline)
      = inr (ipc.marshal_Request r)
  ∧ ipc.Unmarshal_Request (text := example.text)
      (json.write (ipc.marshal_Request r) +:+ ipc.newline) ipc.Request_zero = (r, None)
  ∧ (∀ text : json.Text,
       json.parse (json.print (ipc.marshal_Request r) +:+ ipc.newline)
         = inr (ipc.marshal_Request r) →
       ipc.Unmarshal_Request (json.print (ipc.marshal_Request r) +:+ ipc.newline)
         ipc.Request_zero = (r, None)).
Proof.
  intros Hvalid.
  assert (Hread : json.read (json.write (ipc.marshal_Request r) +:+ ipc.newline)
                  = inr (ipc.marshal_Request r)).
  { destruct (marshal_Request_plain r Hvalid) as (ms & -> & Hplain).
    by apply read_write_object. }
  assert (Hany : ∀ text : json.Text,
    json.parse (json.print (ipc.marshal_Request r) +:+ ipc.newline)
      = inr (ipc.marshal_Request r) →
    ipc.Unmarshal_Request (json.print (ipc.marshal_Request r) +:+ ipc.newline)
      ipc.Request_zero = (r, None)).
  { intros text Hparse. unfold ipc.Unmarshal_Request. rewrite Hparse.
    by apply unmarshal_marshal_Request. }
  split_and!; [by apply unmarshal_marshal_Request | done | by apply (Hany example.text) | done].
Qed.

Lemma C7_request_round_trip_witness :
  let r := ipc.delete_message_request example.alice "3EB0C0FFEE" true in
  let q := json.str1 json.dquote in
  json.write (ipc.marshal_Request r) =
    "{" +:+ q +:+ "command" +:+ q +:+ ":" +:+ q +:+ "delete_message" +:+ q +:+ "," +:+
    q +:+ "chat" +:+ q +:+ ":" +:+ q +:+ "4915112345678@s.whatsapp.net" +:+ q +:+ "," +:+
    q +:+ "msg_id" +:+ q +:+ ":" +:+ q +:+ "3EB0C0FFEE" +:+ q +:+ "," +:+
    q +:+ "for_everyone" +:+ q +:+ ":true}"
  ∧ ipc.Unmarshal_Request (text := example.text)
      (json.write (ipc.marshal_Request r) +:+ ipc.newline) ipc.Request_zero = (r, None).
Proof.
  intros r q. split; [reflexivity|].
  exact (proj1 (proj2 (proj2 (C7_request_round_trip r eq_refl)))).
Defined.

(** The claim C7 fails for a request that the dispatcher accepts but
    whose recipient is not text: the byte 255 is no UTF-8, the encoder
    writes U+FFFD for it, and the decoder returns a request with
    another recipient.  The daemon hands that other recipient to the
    handler. *)
Lemma C7_counterexample :
  let r := ipc.send_text_request (json.str1 (json.chr 255)) "hi" in
  let r' := ipc.send_text_request utf8.RuneError "hi" in
  valid_request r = true
  ∧ utf8_request r = false
  ∧ ipc.unmarshal_Request (ipc.marshal_Request r) ipc.Request_zero = (r', None)
  ∧ ipc.Unmarshal_Request (text := example.text)
      (json.write (ipc.marshal_Request r) +:+ ipc.newline) ipc.Request_zero = (r', None)
  ∧ r' ≠ r
  ∧ ¬ (∀ r, valid_request r = true → round_trips r).
Proof.
  intros r r'.
  assert (Hline : ipc.Unmarshal_Request (text := example.text)
            (json.write (ipc.marshal_Request r) +:+ ipc.newline) ipc.Request_zero = (r', None))
    by reflexivity.
  split_and!; [reflexivity | reflexivity | reflexivity | exact Hline | discriminate |].
  intros Hall. specialize (Hall r eq_refl). unfold round_trips in Hall.
  rewrite Hline in Hall. discriminate Hall.
Qed.

(** ** The scenarios of the specification, run from end to end *)

(** The handler's [SendText] returns [("ABC123", nil)]; the client's
    [SendText("4915112345678", "hi")] goes through the socket, the
    dispatcher and back, and returns the recipient and that identifier. *)
Example delegated_send_text :
  let s := example.started (example.scripted (ipc.Returned ("ABC123", None))
                                              (ipc.Panicked "boom")) in
  ipc.Client_SendText (text := example.text) (fp := example.fp) (ipc.NewClient "/tmp/wa")
    "4915112345678" "hi" (example.daemon s) =
  (Some {| ipc.Result_To := "4915112345678"; ipc.Result_MsgID := "ABC123" |}, None).
Proof. reflexivity. Qed.

(** The client sends [{"command":"ping"}]; the daemon writes
    [{"success":true,"data":"pong"}]. *)
Example ping_on_the_wire :
  let s := example.started example.disconnected in
  let q := json.str1 json.dquote in
  let line := "{" +:+ q +:+ "command" +:+ q +:+ ":" +:+ q +:+ "ping" +:+ q +:+ "}"
              +:+ ipc.newline in
  ipc.written (ipc.handleConn (text := example.text) s (ipc.fresh_conn (inr line)) (0, [])).1.2
    = ["{" +:+ q +:+ "success" +:+ q +:+ ":true," +:+ q +:+ "data" +:+ q +:+ ":" +:+
       q +:+ "pong" +:+ q +:+ "}" +:+ ipc.newline]
  ∧ ipc.Client_Ping (text := example.text) (fp := example.fp) (ipc.NewClient "/tmp/wa")
      (example.daemon s) = None.
Proof. split; reflexivity. Qed.

(** A handler that panics in [SendText]: the client receives a failure
    with the internal-error message. *)
Example panic_is_answered :
  let s := example.started (example.scripted (ipc.Panicked "boom") (ipc.Panicked "boom")) in
  ipc.Client_SendText (text := example.text) (fp := example.fp) (ipc.NewClient "/tmp/wa")
    "4915112345678" "hi" (example.daemon s) =
  (None, Some "internal error: boom").
Proof. reflexivity. Qed.

(** ** The life of the socket file *)

Section Lifecycle.
Context {fp : ipc.Filepath} {St : Type}.
Implicit Types (s : ipc.Server St) (fs : gset string).

Lemma os_Remove_gone path fs : path ∉ (ipc.os_Remove path fs).2.
Proof.
  unfold ipc.os_Remove. case_decide; simpl; [|done].
  rewrite elem_of_difference, elem_of_singleton. tauto.
Qed.

Lemma os_Remove_other path fs p : p ≠ path → p ∈ (ipc.os_Remove path fs).2 ↔ p ∈ fs.
Proof.
  intros Hne. unfold ipc.os_Remove. case_decide; simpl; [|done].
  rewrite elem_of_difference, elem_of_singleton. tauto.
Qed.

(** Binding after the removal of whatever was at the path succeeds. *)
Lemma Start_bound s fs :
  ipc.Start None None s fs =
    (None,
     {| ipc.storeDir := ipc.storeDir s; ipc.handler := ipc.handler s;
        ipc.listener := Some {| ipc.laddr := ipc.SocketPath (ipc.storeDir s) |};
        ipc.wg := S (ipc.wg s); ipc.done := ipc.done s |},
     {[ ipc.SocketPath (ipc.storeDir s) ]}
       ∪ (ipc.os_Remove (ipc.SocketPath (ipc.storeDir s)) fs).2).
Proof.
  unfold ipc.Start, ipc.net_Listen, ipc.os_Remove_or.
  pose proof (os_Remove_gone (ipc.SocketPath (ipc.storeDir s)) fs) as Hgone.
  by case_decide.
Qed.

(** X1. [Start], when neither the removal nor binding meets a fault of
    its own, succeeds
    whether or not a file was left at the socket path by a daemon that
    died: afterwards the socket file exists, [IsAvailable] is true for
    a client of the same store directory, the server holds the listener
    and counts the accept loop, and no other path was touched. *)
Theorem Start_over_stale_file s fs :
  ∃ s' fs', ipc.Start None None s fs = (None, s', fs')
    ∧ ipc.SocketPath (ipc.storeDir s) ∈ fs'
    ∧ ipc.IsAvailable (ipc.NewClient (ipc.storeDir s)) fs' = true
    ∧ ipc.listener s' = Some {| ipc.laddr := ipc.SocketPath (ipc.storeDir s) |}
    ∧ ipc.wg s' = S (ipc.wg s)
    ∧ ipc.storeDir s' = ipc.storeDir s
    ∧ ipc.handler s' = ipc.handler s
    ∧ (∀ p, p ≠ ipc.SocketPath (ipc.storeDir s) → p ∈ fs' ↔ p ∈ fs).
Proof.
  do 2 eexists. split; [apply Start_bound|]. simpl.
  assert (ipc.SocketPath (ipc.storeDir s)
          ∈ ({[ ipc.SocketPath (ipc.storeDir s) ]}
             ∪ (ipc.os_Remove (ipc.SocketPath (ipc.storeDir s)) fs).2 : gset string)) as Hin.
  { rewrite elem_of_union, elem_of_singleton. by left. }
  split_and!; try done.
  - unfold ipc.IsAvailable, ipc.os_Stat, ipc.NewClient. simpl. by case_decide.
  - intros p Hp. rewrite elem_of_union, elem_of_singleton, os_Remove_other by done. tauto.
Qed.

(** X2. [Start] drops the result of [os.Remove], so a file at the
    socket path that could not be removed is met again by [net.Listen].
    A failed [Start] returns the error of [net.Listen] behind
    "listen on socket: " - the fault of binding, or "address already in
    use" when the stale file stayed - and leaves the server as it was,
    without a listener of this run; no path other than the socket path
    is touched; and a file is at the socket path afterwards, so that
    [IsAvailable] is true and commands still try the daemon, exactly
    when a file was there and its removal failed.  [Start] fails
    whenever binding has a fault or such a file stayed, and only then. *)
Theorem Start_failed s fs (unlink bind : option error) :
  let path := ipc.SocketPath (ipc.storeDir s) in
  let stayed := bool_decide (path ∈ fs) && bool_decide (is_Some unlink) in
  (∀ err s' fs',
     ipc.Start unlink bind s fs = (Some err, s', fs') →
     s' = s
     ∧ err = "listen on socket: " +:+
             match bind with
             | Some e => e
             | None => "listen unix " +:+ path +:+ ": bind: address already in use"
             end
     ∧ (∀ p, p ≠ path → p ∈ fs' ↔ p ∈ fs)
     ∧ (path ∈ fs' ↔ stayed = true)
     ∧ ipc.IsAvailable (ipc.NewClient (ipc.storeDir s)) fs' = stayed)
  ∧ (is_Some (ipc.Start unlink bind s fs).1.1 ↔ is_Some bind ∨ stayed = true).
Proof.
  intros path stayed.
  assert (Hstat : ∀ fs', ipc.IsAvailable (ipc.NewClient (ipc.storeDir s)) fs'
                         = bool_decide (path ∈ fs')).
  { intros fs'. unfold ipc.IsAvailable, ipc.os_Stat, ipc.NewClient. simpl. fold path.
    by case_decide; [rewrite bool_decide_eq_true_2 | rewrite bool_decide_eq_false_2]. }
  pose proof (os_Remove_gone path fs) as Hgone.
  pose proof (os_Remove_other path fs) as Hother.
  unfold stayed, ipc.Start, ipc.net_Listen, ipc.os_Remove_or. fold path.
  split.
  - intros err s' fs'.
    destruct unlink as [u|], bind as [b|]; simpl;
      rewrite ?andb_true_r, ?andb_false_r.
    + intros [= <- <- <-]. rewrite Hstat.
      split_and!; try done; try by rewrite bool_decide_eq_true.
    + case_decide as Hin; intros [= <- <- <-]. rewrite Hstat.
      split_and!; try done; try by rewrite bool_decide_eq_true.
    + intros [= <- <- <-]. rewrite Hstat, (bool_decide_eq_false_2 _ Hgone).
      split_and!; try done; try (split; [done | discriminate]).
    + by case_decide.
  - destruct unlink as [u|], bind as [b|]; simpl;
      rewrite ?andb_true_r, ?andb_false_r.
    + split; [intros _; left; by eexists | intros _; by eexists].
    + case_decide as Hin; simpl.
      * rewrite (bool_decide_eq_true_2 _ Hin). split; [by right | intros _; by eexists].
      * rewrite (bool_decide_eq_false_2 _ Hin).
        split; [by intros [? [=]] | by intros [[? [=]]|[=]]].
    + split; [intros _; left; by eexists | intros _; by eexists].
    + case_decide; [done|]. simpl.
      split; [by intros [? [=]] | by intros [[? [=]]|[=]]].
Qed.

(** X3. [Start], meeting no fault, then [Stop] on a server that was not
    stopped before:
    [Stop] returns, the file system is as it was before [Start] but for
    the socket path, where nothing is left, and a second [Stop] panics
    on the closed channel. *)
Theorem Start_Stop s fs :
  ipc.done s = false →
  let path := ipc.SocketPath (ipc.storeDir s) in
  let started := ipc.Start None None s fs in
  ∃ s2, ipc.Stop started.1.2 started.2 = ipc.Returned (s2, fs ∖ {[ path ]})
    ∧ ipc.Stop s2 (fs ∖ {[ path ]}) = ipc.Panicked "close of closed channel".
Proof.
  intros Hdone path started. unfold started. rewrite Start_bound. simpl.
  unfold ipc.Stop, ipc.Listener_Close. simpl. rewrite Hdone.
  eexists {| ipc.storeDir := _; ipc.handler := _; ipc.listener := _;
             ipc.wg := 0; ipc.done := true |}.
  split; [|reflexivity].
  do 2 f_equal. apply set_eq. intros p. fold path.
  destruct (decide (p = path)) as [->|Hp].
  - split; [intros Hx; by apply os_Remove_gone in Hx|].
    rewrite elem_of_difference, elem_of_singleton. tauto.
  - rewrite os_Remove_other by done.
    rewrite !elem_of_difference, elem_of_union, !elem_of_singleton.
    pose proof (os_Remove_other path fs p Hp) as Hfs. fold path in Hfs. tauto.
Qed.

End Lifecycle.

Lemma Start_Stop_witness :
  let s := ipc.NewServer "/tmp/wa" example.disconnected in
  let fs : gset string := {[ "/tmp/wa/wacli.db"; "/tmp/wa/wacli.sock" ]} in
  let started := ipc.Start (fp := example.fp) None None s fs in
  ∃ s2, ipc.Stop (fp := example.fp) started.1.2 started.2
          = ipc.Returned (s2, fs ∖ {[ "/tmp/wa/wacli.sock" ]})
    ∧ ipc.Stop (fp := example.fp) s2 (fs ∖ {[ "/tmp/wa/wacli.sock" ]})
      = ipc.Panicked "close of closed channel".
Proof.
  intros s fs. exact (Start_Stop (fp := example.fp) s fs eq_refl).
Defined.

(** A daemon died and left its socket file in a directory that this
    user cannot write: [Start] fails on the file that stayed, and
    [IsAvailable] is still true. *)
Lemma Start_failed_witness :
  let s := ipc.NewServer "/tmp/wa" example.disconnected in
  let fs : gset string := {[ "/tmp/wa/wacli.db"; "/tmp/wa/wacli.sock" ]} in
  let unlink := Some "remove /tmp/wa/wacli.sock: permission denied" in
  ipc.Start (fp := example.fp) unlink None s fs =
    (Some "listen on socket: listen unix /tmp/wa/wacli.sock: bind: address already in use",
     s, fs)
  ∧ ipc.IsAvailable (fp := example.fp) (ipc.NewClient "/tmp/wa") fs = true.
Proof.
  intros s fs unlink.
  split; [reflexivity|].
  exact (proj2 (proj2 (proj2 (proj2
    (proj1 (Start_failed (fp := example.fp) s fs unlink None) _ s fs eq_refl))))).
Defined.

(** ** The dispatcher: the other commands, and one connection *)

Section Delegation.
Context {text : json.Text} {St : Type}.
Implicit Types (s : ipc.Server St) (req : ipc.Request) (w : St * list ipc.Call).

Lemma processRequest_delete_message s req w :
  ipc.Command req = "delete_message" →
  ipc.processRequest s req w =
    if (String.eqb (ipc.Chat req) "" || String.eqb (ipc.MsgID req) "")%bool then
      (ipc.Returned {| ipc.Success := false; ipc.Error := "chat and msg_id are required";
                       ipc.Data := ipc.AnyNil |}, w)
    else
      let '(r, st) := ipc.DeleteMessage (ipc.handler s) (ipc.Chat req) (ipc.MsgID req)
                        (ipc.ForEveryone req) w.1 in
      (match r with
       | ipc.Panicked v => ipc.Panicked v
       | ipc.Returned (Some err) =>
         ipc.Returned {| ipc.Success := false; ipc.Error := err; ipc.Data := ipc.AnyNil |}
       | ipc.Returned None =>
         ipc.Returned {| ipc.Success := true; ipc.Error := "";
                         ipc.Data := ipc.AnyMap [("deleted", ipc.AnyBool true);
                                                 ("chat", ipc.AnyString (ipc.Chat req));
                                                 ("msg_id", ipc.AnyString (ipc.MsgID req));
                                                 ("for_everyone", ipc.AnyBool (ipc.ForEveryone req))] |}
       end, (st, (w.2 ++ [ipc.CallDeleteMessage (ipc.Chat req) (ipc.MsgID req)
                            (ipc.ForEveryone req)])%list)).
Proof.
  intros Hc. unfold ipc.processRequest. rewrite Hc. simpl.
  destruct (_ || _)%bool; [done|].
  unfold ipc.bind, ipc.invoke.
  destruct (ipc.DeleteMessage _ _ _ _ _) as [[[err|]|v] st]; done.
Qed.

Lemma processRequest_chat_state s req w :
  ipc.Command req = "chat_state" →
  ipc.processRequest s req w =
    if (String.eqb (ipc.Chat req) "" || String.eqb (ipc.Action req) "")%bool then
      (ipc.Returned {| ipc.Success := false; ipc.Error := "chat and action are required";
                       ipc.Data := ipc.AnyNil |}, w)
    else
      let '(r, st) := ipc.ChatState (ipc.handler s) (ipc.Chat req) (ipc.Action req)
                        (ipc.Duration req) w.1 in
      (match r with
       | ipc.Panicked v => ipc.Panicked v
       | ipc.Returned (Some err) =>
         ipc.Returned {| ipc.Success := false; ipc.Error := err; ipc.Data := ipc.AnyNil |}
       | ipc.Returned None =>
         ipc.Returned {| ipc.Success := true; ipc.Error := "";
                         ipc.Data := ipc.AnyMap [("action", ipc.AnyString (ipc.Action req));
                                                 ("jid", ipc.AnyString (ipc.Chat req));
                                                 ("ok", ipc.AnyBool true)] |}
       end, (st, (w.2 ++ [ipc.CallChatState (ipc.Chat req) (ipc.Action req)
                            (ipc.Duration req)])%list)).
Proof.
  intros Hc. unfold ipc.processRequest. rewrite Hc. simpl.
  destruct (_ || _)%bool; [done|].
  unfold ipc.bind, ipc.invoke.
  destruct (ipc.ChatState _ _ _ _ _) as [[[err|]|v] st]; done.
Qed.

(** X4. For every request whose command is delete_message: when the
    chat or the message identifier is the empty string the dispatcher
    answers "chat and msg_id are required" and the handler is not
    called; otherwise it calls [DeleteMessage] of the handler, once,
    with the chat, the identifier and the for-everyone flag of the
    request, and answers the handler's error with success false, or a
    nil error with success true and the map of deleted = true and the
    three fields of the request. *)
Theorem delete_message_delegated s req w :
  ipc.Command req = "delete_message" →
  (ipc.Chat req = "" ∨ ipc.MsgID req = "" →
     ipc.processRequest s req w =
       (ipc.Returned {| ipc.Success := false; ipc.Error := "chat and msg_id are required";
                        ipc.Data := ipc.AnyNil |}, w))
  ∧ (ipc.Chat req ≠ "" → ipc.MsgID req ≠ "" →
     ∀ r st, ipc.DeleteMessage (ipc.handler s) (ipc.Chat req) (ipc.MsgID req)
               (ipc.ForEveryone req) w.1 = (r, st) →
       (ipc.processRequest s req w).2 =
         (st, (w.2 ++ [ipc.CallDeleteMessage (ipc.Chat req) (ipc.MsgID req)
                         (ipc.ForEveryone req)])%list)
       ∧ (r = ipc.Returned None →
            (ipc.processRequest s req w).1 =
              ipc.Returned {| ipc.Success := true; ipc.Error := "";
                              ipc.Data := ipc.AnyMap
                                [("deleted", ipc.AnyBool true);
                                 ("chat", ipc.AnyString (ipc.Chat req));
                                 ("msg_id", ipc.AnyString (ipc.MsgID req));
                                 ("for_everyone", ipc.AnyBool (ipc.ForEveryone req))] |})
       ∧ (∀ err, r = ipc.Returned (Some err) →
            (ipc.processRequest s req w).1 =
              ipc.Returned {| ipc.Success := false; ipc.Error := err; ipc.Data := ipc.AnyNil |})).
Proof.
  intros Hc. rewrite (processRequest_delete_message s req w Hc). split.
  - intros [-> | ->]; simpl; [done|]. by rewrite orb_true_r.
  - intros Hchat Hid r st Hcall.
    rewrite (proj2 (String.eqb_neq _ _) Hchat), (proj2 (String.eqb_neq _ _) Hid), Hcall.
    simpl. repeat split; by intros; subst.
Qed.

(** X5. For every request whose command is chat_state: when the chat
    or the action is the empty string the dispatcher answers
    "chat and action are required" and the handler is not called;
    otherwise it calls [ChatState] of the handler, once, with the chat,
    the action and the duration of the request (which action it is, is
    the handler's business), and answers the handler's error with
    success false, or a nil error with success true and the map of the
    action, the chat as jid, and ok = true. *)
Theorem chat_state_delegated s req w :
  ipc.Command req = "chat_state" →
  (ipc.Chat req = "" ∨ ipc.Action req = "" →
     ipc.processRequest s req w =
       (ipc.Returned {| ipc.Success := false; ipc.Error := "chat and action are required";
                        ipc.Data := ipc.AnyNil |}, w))
  ∧ (ipc.Chat req ≠ "" → ipc.Action req ≠ "" →
     ∀ r st, ipc.ChatState (ipc.handler s) (ipc.Chat req) (ipc.Action req)
               (ipc.Duration req) w.1 = (r, st) →
       (ipc.processRequest s req w).2 =
         (st, (w.2 ++ [ipc.CallChatState (ipc.Chat req) (ipc.Action req)
                         (ipc.Duration req)])%list)
       ∧ (r = ipc.Returned None →
            (ipc.processRequest s req w).1 =
              ipc.Returned {| ipc.Success := true; ipc.Error := "";
                              ipc.Data := ipc.AnyMap
                                [("action", ipc.AnyString (ipc.Action req));
                                 ("jid", ipc.AnyString (ipc.Chat req));
                                 ("ok", ipc.AnyBool true)] |})
       ∧ (∀ err, r = ipc.Returned (Some err) →
            (ipc.processRequest s req w).1 =
              ipc.Returned {| ipc.Success := false; ipc.Error := err; ipc.Data := ipc.AnyNil |})).
Proof.
  intros Hc. rewrite (processRequest_chat_state s req w Hc). split.
  - intros [-> | ->]; simpl; [done|]. by rewrite orb_true_r.
  - intros Hchat Haction r st Hcall.
    rewrite (proj2 (String.eqb_neq _ _) Hchat), (proj2 (String.eqb_neq _ _) Haction), Hcall.
    simpl. repeat split; by intros; subst.
Qed.

(** X6. The dispatcher calls the handler at most once for a request,
    and with the fields of that request: the calls made while
    [processRequest] runs are none, or the one call that the command of
    the request names. *)
Theorem processRequest_calls s req w :
  let calls := (ipc.processRequest s req w).2.2 in
  calls = w.2
  ∨ calls = (w.2 ++ [ipc.CallSendText (ipc.To req) (ipc.Message req)])%list
      ∧ ipc.Command req = "send_text"
  ∨ calls = (w.2 ++ [ipc.CallDeleteMessage (ipc.Chat req) (ipc.MsgID req)
                       (ipc.ForEveryone req)])%list
      ∧ ipc.Command req = "delete_message"
  ∨ calls = (w.2 ++ [ipc.CallChatState (ipc.Chat req) (ipc.Action req)
                       (ipc.Duration req)])%list
      ∧ ipc.Command req = "chat_state".
Proof.
  unfold ipc.processRequest, ipc.bind, ipc.invoke, ipc.ret.
  destruct (String.eqb_spec (ipc.Command req) "ping"); [by left|].
  destruct (String.eqb_spec (ipc.Command req) "send_text").
  { destruct (_ || _)%bool; [by left|]. right. left.
    by destruct (ipc.SendText _ _ _ _) as [[[? [?|]]|?] ?]. }
  destruct (String.eqb_spec (ipc.Command req) "delete_message").
  { destruct (_ || _)%bool; [by left|]. right. right. left.
    by destruct (ipc.DeleteMessage _ _ _ _ _) as [[[?|]|?] ?]. }
  destruct (String.eqb_spec (ipc.Command req) "chat_state").
  { destruct (_ || _)%bool; [by left|]. do 3 right.
    by destruct (ipc.ChatState _ _ _ _ _) as [[[?|]|?] ?]. }
  by left.
Qed.

(** X7. One exchange on every connection, whatever happens on it:
    [handleConn] writes exactly one line, ending in a newline, closes
    the connection and gives its count back to the wait group; the
    handler and the store directory of the server stay; and the handler
    is called only through the dispatcher, on a request that was read
    and decoded: otherwise its state and the calls made are as before. *)
Theorem handleConn_one_exchange s (incoming : error + string) w :
  let '(s', conn, w') := ipc.handleConn s (ipc.fresh_conn incoming) w in
  ipc.closed conn = true
  ∧ (∃ data, ipc.written conn = [data +:+ ipc.newline])
  ∧ length (ipc.sent conn) = 1
  ∧ ipc.wg s' = pred (ipc.wg s)
  ∧ ipc.handler s' = ipc.handler s
  ∧ ipc.storeDir s' = ipc.storeDir s
  ∧ (w' = w
     ∨ ∃ line req, incoming = inr line
         ∧ ipc.Unmarshal_Request line ipc.Request_zero = (req, None)
         ∧ w' = (ipc.processRequest s req w).2).
Proof.
  unfold ipc.handleConn. destruct incoming as [err|line]; simpl.
  { split_and!; try done; [by eexists | by left]. }
  destruct (ipc.Unmarshal_Request line ipc.Request_zero) as [req [err|]] eqn:Hreq.
  { simpl. split_and!; try done; [by eexists | by left]. }
  destruct (ipc.processRequest s req w) as [[resp|v] w'] eqn:Hrun; simpl.
  - split_and!; try done; [by eexists|]. right. exists line, req. by rewrite Hrun.
  - split_and!; try done; [by eexists|]. right. exists line, req. by rewrite Hrun.
Qed.

(** X8. A panic of the handler is answered and does not end the
    daemon: the connection receives the failure "internal error: "
    followed by the panic value, what the handler did before it
    panicked stays done, and the server that comes out of [handleConn]
    answers a ping on the next connection. *)
Theorem handleConn_recovers s line req w v w1 line2 req2 :
  ipc.Unmarshal_Request line ipc.Request_zero = (req, None) →
  ipc.processRequest s req w = (ipc.Panicked v, w1) →
  ipc.Unmarshal_Request line2 ipc.Request_zero = (req2, None) →
  ipc.Command req2 = "ping" →
  let '(s', conn, w') := ipc.handleConn s (ipc.fresh_conn (inr line)) w in
  ipc.sent conn = [{| ipc.Success := false; ipc.Error := "internal error: " +:+ v;
                      ipc.Data := ipc.AnyNil |}]
  ∧ w' = w1
  ∧ ipc.sent (ipc.handleConn s' (ipc.fresh_conn (inr line2)) w').1.2
    = [{| ipc.Success := true; ipc.Error := ""; ipc.Data := ipc.AnyString "pong" |}].
Proof.
  intros Hreq Hrun Hreq2 Hping.
  unfold ipc.handleConn. simpl. rewrite Hreq, Hrun, Hreq2. simpl.
  split; [done|]. split; [done|].
  unfold ipc.processRequest. by rewrite Hping.
Qed.

End Delegation.

Lemma delete_message_delegated_witness :
  let s := ipc.NewServer "/tmp/wa"
             (example.scripted (ipc.Panicked "boom") (ipc.Returned None)) in
  ipc.processRequest (text := example.text) s
      (ipc.delete_message_request example.alice "" true) (0, []) =
    (ipc.Returned {| ipc.Success := false; ipc.Error := "chat and msg_id are required";
                     ipc.Data := ipc.AnyNil |}, (0, []))
  ∧ (ipc.processRequest (text := example.text) s
       (ipc.delete_message_request example.alice "3EB0C0FFEE" true) (0, [])).1 =
    ipc.Returned {| ipc.Success := true; ipc.Error := "";
                    ipc.Data := ipc.AnyMap [("deleted", ipc.AnyBool true);
                                            ("chat", ipc.AnyString example.alice);
                                            ("msg_id", ipc.AnyString "3EB0C0FFEE");
                                            ("for_everyone", ipc.AnyBool true)] |}.
Proof.
  intros s. split.
  - exact (proj1 (delete_message_delegated (text := example.text) s
                    (ipc.delete_message_request example.alice "" true) (0, []) eq_refl)
             (or_intror eq_refl)).
  - exact (proj1 (proj2 (proj2 (delete_message_delegated (text := example.text) s
                    (ipc.delete_message_request example.alice "3EB0C0FFEE" true) (0, []) eq_refl)
             ltac:(discriminate) ltac:(discriminate) _ _ eq_refl)) eq_refl).
Defined.

Lemma chat_state_delegated_witness :
  let s := ipc.NewServer "/tmp/wa"
             (example.scripted (ipc.Panicked "boom")
                (ipc.Returned (Some "unknown chat state action: snooze"))) in
  ipc.processRequest (text := example.text) s
      (ipc.chat_state_request example.alice "" "") (0, []) =
    (ipc.Returned {| ipc.Success := false; ipc.Error := "chat and action are required";
                     ipc.Data := ipc.AnyNil |}, (0, []))
  ∧ (ipc.processRequest (text := example.text) s
       (ipc.chat_state_request example.alice "snooze" "8h") (0, [])).1 =
    ipc.Returned {| ipc.Success := false; ipc.Error := "unknown chat state action: snooze";
                    ipc.Data := ipc.AnyNil |}.
Proof.
  intros s. split.
  - exact (proj1 (chat_state_delegated (text := example.text) s
                    (ipc.chat_state_request example.alice "" "") (0, []) eq_refl)
             (or_intror eq_refl)).
  - exact (proj2 (proj2 (proj2 (chat_state_delegated (text := example.text) s
                    (ipc.chat_state_request example.alice "snooze" "8h") (0, []) eq_refl)
             ltac:(discriminate) ltac:(discriminate) _ _ eq_refl))
             "unknown chat state action: snooze" eq_refl).
Defined.

Lemma handleConn_recovers_witness :
  let s := example.started (example.scripted (ipc.Panicked "boom") (ipc.Panicked "boom")) in
  let q := json.str1 json.dquote in
  let line := json.write (ipc.marshal_Request (ipc.send_text_request "4915112345678" "hi"))
              +:+ ipc.newline in
  let line2 := json.write (ipc.marshal_Request ipc.ping_request) +:+ ipc.newline in
  let '(s', conn, w') :=
    ipc.handleConn (text := example.text) s (ipc.fresh_conn (inr line)) (0, []) in
  ipc.sent conn = [{| ipc.Success := false; ipc.Error := "internal error: boom";
                      ipc.Data := ipc.AnyNil |}]
  ∧ w' = (1, [ipc.CallSendText "4915112345678" "hi"])
  ∧ ipc.sent (ipc.handleConn (text := example.text) s' (ipc.fresh_conn (inr line2)) w').1.2
    = [{| ipc.Success := true; ipc.Error := ""; ipc.Data := ipc.AnyString "pong" |}].
Proof.
  intros s q line line2.
  exact (handleConn_recovers (text := example.text) s line
           (ipc.send_text_request "4915112345678" "hi") (0, []) "boom"
           (1, [ipc.CallSendText "4915112345678" "hi"]) line2 ipc.ping_request
           eq_refl eq_refl eq_refl eq_refl).
Defined.

(** ** The commands: which path they take *)

Section Paths.
Context {lib : Lib} {fp : ipc.Filepath} {text : json.Text} {P : Type} {direct : main.Direct P}.
Implicit Types (flags : main.rootFlags) (fs : gset string) (net : ipc.Network) (p : main.Proc P).

(** X9. With [--no-ipc], or with no file at the socket path, a command
    goes straight to the direct path: it does not dial, so what the
    network would answer plays no part, and nothing is written to
    standard error. *)
Theorem commands_skip_the_daemon flags fs net p (noIPC : bool) :
  noIPC = true ∨ ipc.IsAvailable (ipc.NewClient (main.resolve_storeDir flags)) fs = false →
  (∀ to message, to ≠ "" → message ≠ "" →
     main.sendText_RunE flags to message noIPC fs net p = main.sendText_direct flags to message p)
  ∧ (∀ chat msgID forEveryone, chat ≠ "" → msgID ≠ "" →
     main.deleteMessage_RunE flags chat msgID forEveryone noIPC fs net p
       = main.deleteMessage_direct flags chat msgID forEveryone p)
  ∧ (∀ action jidStr, TrimSpace jidStr ≠ "" →
     main.chatState_RunE flags action jidStr noIPC fs net p
       = main.chatState_direct flags action jidStr p)
  ∧ (∀ jidStr durStr, TrimSpace jidStr ≠ "" →
     main.chatsMute_RunE flags jidStr durStr noIPC fs net p
       = main.chatsMute_direct flags jidStr durStr p).
Proof.
  intros Hskip. split_and!.
  - intros to message Hto Hmsg. unfold main.sendText_RunE, main.sendText_ipc.
    rewrite (proj2 (String.eqb_neq _ _) Hto), (proj2 (String.eqb_neq _ _) Hmsg).
    by destruct Hskip as [-> | ->]; [|destruct noIPC].
  - intros chat msgID forEveryone Hchat Hid.
    unfold main.deleteMessage_RunE, main.deleteMessage_ipc.
    rewrite (proj2 (String.eqb_neq _ _) Hchat), (proj2 (String.eqb_neq _ _) Hid).
    by destruct Hskip as [-> | ->]; [|destruct noIPC].
  - intros action jidStr Hjid. unfold main.chatState_RunE, main.chatState_ipc.
    rewrite (proj2 (String.eqb_neq _ _) Hjid).
    by destruct Hskip as [-> | ->]; [|destruct noIPC].
  - intros jidStr durStr Hjid. unfold main.chatsMute_RunE, main.chatsMute_ipc.
    rewrite (proj2 (String.eqb_neq _ _) Hjid).
    by destruct Hskip as [-> | ->]; [|destruct noIPC].
Qed.

(** X10. A command whose required flags are missing returns its usage
    error and does nothing else: no dial, no direct path, nothing
    written.  For send text both [--to] and [--message] are required,
    for delete message both [--chat] and [--id], for the chat-state
    commands a [--jid] that is not blank. *)
Theorem commands_validate_first flags fs net p (noIPC : bool) :
  (∀ to message, to = "" ∨ message = "" →
     main.sendText_RunE flags to message noIPC fs net p
       = (ipc.Returned (Some "--to and --message are required"), p))
  ∧ (∀ chat msgID forEveryone, chat = "" ∨ msgID = "" →
     main.deleteMessage_RunE flags chat msgID forEveryone noIPC fs net p
       = (ipc.Returned (Some "--chat and --id are required"), p))
  ∧ (∀ action jidStr, TrimSpace jidStr = "" →
     main.chatState_RunE flags action jidStr noIPC fs net p
       = (ipc.Returned (Some "--jid is required"), p))
  ∧ (∀ jidStr durStr, TrimSpace jidStr = "" →
     main.chatsMute_RunE flags jidStr durStr noIPC fs net p
       = (ipc.Returned (Some "--jid is required"), p)).
Proof.
  split_and!.
  - intros to message [-> | ->]; unfold main.sendText_RunE; [done|].
    by rewrite orb_true_r.
  - intros chat msgID forEveryone [-> | ->]; unfold main.deleteMessage_RunE; [done|].
    by rewrite orb_true_r.
  - intros action jidStr Hjid. unfold main.chatState_RunE. by rewrite Hjid.
  - intros jidStr durStr Hjid. unfold main.chatsMute_RunE. by rewrite Hjid.
Qed.

(** X11. When the daemon did the work, the command does none of the
    direct path, in plain mode and in JSON mode alike: the state behind
    the direct path is untouched and nothing is written to standard
    error.  In plain mode the command writes one line to standard
    output, which names the daemon, and returns nil; in JSON mode it
    writes the object that says "via": "ipc" and returns what
    [WriteJSON] returned. *)
Theorem commands_done_by_daemon flags fs net p :
  let client := ipc.NewClient (main.resolve_storeDir flags) in
  ipc.IsAvailable client fs = true →
  (∀ to message result, to ≠ "" → message ≠ "" →
     ipc.Client_SendText client to message net = (Some result, None) →
     main.sendText_RunE flags to message false fs net p =
       served flags
         ("Sent to " +:+ ipc.Result_To result +:+ " (id " +:+
          ipc.Result_MsgID result +:+ ") via daemon" +:+ ipc.newline)
         (ipc.AnyMap [("sent", ipc.AnyBool true);
                      ("to", ipc.AnyString (ipc.Result_To result));
                      ("id", ipc.AnyString (ipc.Result_MsgID result));
                      ("via", ipc.AnyString "ipc")]) p)
  ∧ (∀ chat msgID forEveryone, chat ≠ "" → msgID ≠ "" →
     ipc.Client_DeleteMessage client chat msgID forEveryone net = None →
     main.deleteMessage_RunE flags chat msgID forEveryone false fs net p =
       served flags
         ("Deleted message " +:+ msgID +:+ " from " +:+ chat +:+ " via daemon" +:+ ipc.newline)
         (ipc.AnyMap [("deleted", ipc.AnyBool true);
                      ("chat", ipc.AnyString chat);
                      ("id", ipc.AnyString msgID);
                      ("forEveryone", ipc.AnyBool forEveryone);
                      ("via", ipc.AnyString "ipc")]) p)
  ∧ (∀ action jidStr, TrimSpace jidStr ≠ "" →
     ipc.Client_ChatState client jidStr (main.use action) "" net = None →
     main.chatState_RunE flags action jidStr false fs net p =
       served flags ("OK (via daemon)" +:+ ipc.newline)
         (ipc.AnyMap [("jid", ipc.AnyString jidStr);
                      ("action", ipc.AnyString (main.use action));
                      ("ok", ipc.AnyBool true);
                      ("via", ipc.AnyString "ipc")]) p)
  ∧ (∀ jidStr durStr, TrimSpace jidStr ≠ "" →
     ipc.Client_ChatState client jidStr "mute" durStr net = None →
     main.chatsMute_RunE flags jidStr durStr false fs net p =
       served flags ("OK (via daemon)" +:+ ipc.newline)
         (ipc.AnyMap [("jid", ipc.AnyString jidStr);
                      ("action", ipc.AnyString "mute");
                      ("ok", ipc.AnyBool true);
                      ("via", ipc.AnyString "ipc")]) p)
  ∧ (∀ line object,
       main.state (served flags line object p).2 = main.state p
       ∧ main.stderr (served flags line object p).2 = main.stderr p
       ∧ (main.asJSON flags = false →
          served flags line object p = (ipc.Returned None, main.Fprintf_stdout line p))
       ∧ (main.asJSON flags = true →
          (served flags line object p).1 = ipc.Returned (main.WriteJSON object (main.stdout p)).1
          ∧ main.stdout (served flags line object p).2
            = (main.WriteJSON object (main.stdout p)).2)).
Proof.
  intros client Havail.
  assert (Hjson : ∀ (v : ipc.any),
    (let '(err, p') := main.WriteJSON_stdout v p in main.Return (ipc.Returned err) p') =
    main.Return (ipc.Returned (main.WriteJSON v (main.stdout p)).1)
      {| main.state := main.state p;
         main.stdout := (main.WriteJSON v (main.stdout p)).2;
         main.stderr := main.stderr p |}).
  { intros v. unfold main.WriteJSON_stdout. by destruct (main.WriteJSON v _). }
  split_and!.
  - intros to message result Hto Hmsg Hok.
    unfold main.sendText_RunE, main.sendText_ipc, served. fold client.
    rewrite (proj2 (String.eqb_neq _ _) Hto), (proj2 (String.eqb_neq _ _) Hmsg).
    rewrite Havail, Hok, Hjson. by destruct (main.asJSON flags).
  - intros chat msgID forEveryone Hchat Hid Hok.
    unfold main.deleteMessage_RunE, main.deleteMessage_ipc, served. fold client.
    rewrite (proj2 (String.eqb_neq _ _) Hchat), (proj2 (String.eqb_neq _ _) Hid).
    rewrite Havail, Hok, Hjson. by destruct (main.asJSON flags).
  - intros action jidStr Hjid Hok.
    unfold main.chatState_RunE, main.chatState_ipc, served. fold client.
    rewrite (proj2 (String.eqb_neq _ _) Hjid), Havail, Hok, Hjson.
    by destruct (main.asJSON flags).
  - intros jidStr durStr Hjid Hok.
    unfold main.chatsMute_RunE, main.chatsMute_ipc, served. fold client.
    rewrite (proj2 (String.eqb_neq _ _) Hjid), Havail, Hok, Hjson.
    by destruct (main.asJSON flags).
  - intros line object. unfold served.
    destruct (main.asJSON flags); split_and!; try done.
Qed.

End Paths.

Lemma commands_skip_the_daemon_witness :
  main.sendText_RunE (lib := example.lib) (fp := example.fp) (text := example.text)
      (direct := example.direct) example.flags example.alice "hi" true
      example.socket_there (example.daemon (example.started example.disconnected)) example.proc
  = main.sendText_direct (lib := example.lib) (text := example.text)
      (direct := example.direct) example.flags example.alice "hi" example.proc.
Proof.
  exact (proj1 (commands_skip_the_daemon (lib := example.lib) (fp := example.fp)
                  (text := example.text) (direct := example.direct) example.flags
                  example.socket_there (example.daemon (example.started example.disconnected))
                  example.proc true (or_introl eq_refl))
           example.alice "hi" ltac:(discriminate) ltac:(discriminate)).
Defined.

(** The daemon muted the chat, in plain mode; and it deleted the
    message, in JSON mode. *)
Lemma commands_done_by_daemon_witness :
  let net := example.daemon (example.started (example.scripted (ipc.Panicked "boom")
                                                (ipc.Returned None))) in
  let json_flags := {| main.flag_storeDir := "/tmp/wa"; main.asJSON := true |} in
  main.chatsMute_RunE (lib := example.lib) (fp := example.fp) (text := example.text)
      (direct := example.direct) example.flags example.alice "8h" false
      example.socket_there net example.proc
  = (ipc.Returned None,
     {| main.state := []; main.stdout := ["OK (via daemon)" +:+ ipc.newline];
        main.stderr := [] |})
  ∧ main.deleteMessage_RunE (lib := example.lib) (fp := example.fp) (text := example.text)
      (direct := example.direct) json_flags example.alice "3EB0C0FFEE" true false
      example.socket_there net example.proc
  = (ipc.Returned None,
     {| main.state := [];
        main.stdout :=
          [json.write (json.Object [("chat", json.Str example.alice);
                                    ("deleted", json.Bool true);
                                    ("forEveryone", json.Bool true);
                                    ("id", json.Str "3EB0C0FFEE");
                                    ("via", json.Str "ipc")]) +:+ ipc.newline];
        main.stderr := [] |}).
Proof.
  intros net json_flags. split.
  - exact (proj1 (proj2 (proj2 (proj2
             (commands_done_by_daemon (lib := example.lib) (fp := example.fp)
                (text := example.text) (direct := example.direct) example.flags
                example.socket_there net example.proc eq_refl))))
             example.alice "8h" ltac:(discriminate) eq_refl).
  - exact (proj1 (proj2
             (commands_done_by_daemon (lib := example.lib) (fp := example.fp)
                (text := example.text) (direct := example.direct) json_flags
                example.socket_there net example.proc eq_refl))
             example.alice "3EB0C0FFEE" true ltac:(discriminate) ltac:(discriminate) eq_refl).
Defined.

(** ** The daemon and the direct path of [wacli chats] *)

(** X12. The daemon does for a chat-state request what the command
    that sent it would have done on its direct path.  With the
    handler's guards passed, for each of the seven commands that
    [newChatsCmd] adds with [newChatStateCmd] (archive, unarchive, pin,
    unpin, unmute, mark-read, mark-unread: with mute, the handler's
    vocabulary) the handler's [ChatState] on the command's action and
    any duration is the command's [run] on the application.  For mute
    the two agree whenever the duration parses and is read the same by
    both, that is, unless it is blank without being empty: the command
    takes a blank duration for none and mutes for ever, while the
    handler hands it to [time.ParseDuration]; and where the duration
    does not parse, the handler's error starts with "invalid duration: ",
    the command's with "invalid --duration: ". *)
Theorem chats_commands_as_the_daemon {lib : Lib} {S : Type} {wac : app.WAClient S}
    (h : main.syncHandler S) (a : app.App S) (s : S) (jidStr : string) (chatJID : JID) :
  main.h_app h = Some a → app.wa a = Some s → app.IsConnected s = true →
  ParseUserOrJID jidStr = inr chatJID →
  let handle := {| chatsCmd.handle_app := a; chatsCmd.handle_jid := chatJID |} in
  "mute" :: map chatsCmd.use chatsCmd.newChatsCmd ≡ₚ chat_state_actions
  ∧ (∀ action duration, action ∈ chatsCmd.newChatsCmd →
       main.ChatState jidStr (chatsCmd.use action) duration h
         = main.lift (chatsCmd.run action handle jidStr))
  ∧ (∀ durStr dur,
       (durStr = "" ↔ TrimSpace durStr = "") →
       (if String.eqb durStr "" then inr 0%Z else ParseDuration durStr) = inr dur →
       chatsCmd.newChatsMuteCmd_run durStr handle = app.MuteChat chatJID true dur a
       ∧ main.ChatState jidStr "mute" durStr h
         = main.lift (chatsCmd.newChatsMuteCmd_run durStr handle))
  ∧ (∀ durStr err, TrimSpace durStr ≠ "" → durStr ≠ "" → ParseDuration durStr = inl err →
       main.ChatState jidStr "mute" durStr h
         = (ipc.Returned (Some ("invalid duration: " +:+ err)), h)
       ∧ chatsCmd.newChatsMuteCmd_run durStr handle
         = (ipc.Returned (Some ("invalid --duration: " +:+ err)), a))
  ∧ (∀ durStr, durStr ≠ "" → TrimSpace durStr = "" →
       chatsCmd.newChatsMuteCmd_run durStr handle = app.MuteChat chatJID true 0 a
       ∧ main.ChatState jidStr "mute" durStr h =
           match ParseDuration durStr with
           | inl err => (ipc.Returned (Some ("invalid duration: " +:+ err)), h)
           | inr dur => main.lift (app.MuteChat chatJID true dur a)
           end).
Proof.
  intros Happ Hwa Hconn Hjid handle.
  assert (Hready : ∀ action duration, main.ChatState jidStr action duration h = _)
    by (intros action duration;
        exact (ChatState_ready h a s jidStr chatJID action duration Happ Hwa Hconn Hjid)).
  assert (Hmute : ∀ durStr, main.ChatState jidStr "mute" durStr h =
            match (if String.eqb durStr "" then inr 0%Z else ParseDuration durStr) with
            | inl err => (ipc.Returned (Some ("invalid duration: " +:+ err)), h)
            | inr dur => main.lift (app.MuteChat chatJID true dur a)
            end)
    by (intros durStr; by rewrite Hready).
  split_and!.
  - unfold chat_state_actions. simpl.
    do 4 (etrans; [apply perm_swap|]; apply perm_skip). done.
  - intros action duration Hin. unfold chatsCmd.newChatsCmd in Hin.
    repeat (apply elem_of_cons in Hin as [-> | Hin]; [by rewrite Hready|]).
    by apply elem_of_nil in Hin.
  - intros durStr dur Hsame Hdur. rewrite Hmute, Hdur.
    unfold chatsCmd.newChatsMuteCmd_run. simpl.
    destruct (String.eqb_spec durStr "") as [He|Hne].
    + rewrite (proj2 (String.eqb_eq _ _) (proj1 Hsame He)).
      injection Hdur as <-. done.
    + assert (TrimSpace durStr ≠ "") as Ht by (intros Ht; by apply Hne, Hsame).
      rewrite (proj2 (String.eqb_neq _ _) Ht), Hdur. done.
  - intros durStr err Ht Hne Herr. rewrite Hmute.
    unfold chatsCmd.newChatsMuteCmd_run.
    by rewrite (proj2 (String.eqb_neq _ _) Ht), (proj2 (String.eqb_neq _ _) Hne), Herr.
  - intros durStr Hne Ht. rewrite Hmute.
    unfold chatsCmd.newChatsMuteCmd_run.
    by rewrite (proj2 (String.eqb_eq _ _) Ht), (proj2 (String.eqb_neq _ _) Hne).
Qed.

(** A duration of one space: the command mutes for ever, the daemon
    refuses; and the daemon unmutes as the command does. *)
Lemma chats_commands_as_the_daemon_witness :
  let a := example.application None in
  let h := {| main.h_app := Some a |} in
  let handle := chatsCmd.Build_appHandle (lib := example.lib) a example.alice in
  chatsCmd.newChatsMuteCmd_run (lib := example.lib) (wac := example.wa_client) " " handle
    = app.MuteChat (lib := example.lib) (wac := example.wa_client) example.alice true 0 a
  ∧ main.ChatState (lib := example.lib) (wac := example.wa_client) example.alice "mute" " " h
    = (ipc.Returned (Some "invalid duration: time: invalid duration  "), h)
  ∧ main.ChatState (lib := example.lib) (wac := example.wa_client) example.alice "unmute" "" h
    = main.lift (app.MuteChat (lib := example.lib) (wac := example.wa_client)
                   example.alice false 0 a).
Proof.
  intros a h handle.
  pose proof (chats_commands_as_the_daemon (lib := example.lib) (wac := example.wa_client)
                h a _ example.alice example.alice eq_refl eq_refl eq_refl eq_refl)
    as (_ & Hrun & _ & _ & Hblank).
  destruct (Hblank " " ltac:(discriminate) eq_refl) as [Hcommand Hdaemon].
  split_and!; [exact Hcommand | exact Hdaemon |].
  eapply eq_trans; [|eapply eq_trans; [eapply (Hrun _ "")|]].
  2:{ unfold chatsCmd.newChatsCmd. do 4 (apply elem_of_cons; right).
      apply elem_of_cons; left; reflexivity. }
  all: reflexivity.
Defined.

(** ** The cache: one column at a time *)

Ltac one_column :=
  intros ?; split_and!; try reflexivity;
  let c := fresh "c" in intros c ?; destruct c; try reflexivity; congruence.

Section Setters.
Context {lib : Lib}.
Implicit Types (d : store.DB) (jid : string).

Lemma exec_update_broken upd jid d err :
  store.broken d = Some err → store.exec_update upd jid d = (Some err, d).
Proof. intros Hb. unfold store.exec_update. by rewrite Hb. Qed.

Lemma exec_update_column_set (c : column) (v : Z) upd jid d :
  store.broken d = None →
  (∀ r, column_of c (upd r) = v
        ∧ (∀ c', c' ≠ c → column_of c' (upd r) = column_of c' r)
        ∧ store.kind (upd r) = store.kind r ∧ store.name (upd r) = store.name r
        ∧ store.last_message_ts (upd r) = store.last_message_ts r) →
  ∃ d', store.exec_update upd jid d = (None, d') ∧ column_set c v jid d d'.
Proof.
  intros Hb Hupd. unfold store.exec_update. rewrite Hb. eexists. split; [done|].
  unfold column_set. simpl. split_and!.
  - by rewrite Hb.
  - apply dom_alter_L.
  - intros j Hj. by rewrite lookup_alter_ne.
  - intros r Hr. exists (upd r). rewrite lookup_alter_eq, Hr. split; [done|]. apply Hupd.
Qed.

(** X13. Each of the four setters of the cache, on a working
    connection, returns nil and sets its own column of the chat's row,
    if there is such a row, and changes nothing else: no other column,
    no other row, and there is no row afterwards where there was none.
    On a broken connection it returns the error of the statement and
    the cache is as before. *)
Theorem setters_set_one_column jid d :
  (store.broken d = None →
     (∀ v, ∃ d', store.SetChatArchived jid v d = (None, d')
                 ∧ column_set Archived (boolToInt v) jid d d')
     ∧ (∀ v, ∃ d', store.SetChatPinned jid v d = (None, d')
                   ∧ column_set Pinned (boolToInt v) jid d d')
     ∧ (∀ v, ∃ d', store.SetChatMutedUntil jid v d = (None, d')
                   ∧ column_set MutedUntil v jid d d')
     ∧ (∀ v, ∃ d', store.SetChatUnread jid v d = (None, d')
                   ∧ column_set Unread (boolToInt v) jid d d'))
  ∧ (∀ err, store.broken d = Some err →
     (∀ v, store.SetChatArchived jid v d = (Some err, d))
     ∧ (∀ v, store.SetChatPinned jid v d = (Some err, d))
     ∧ (∀ v, store.SetChatMutedUntil jid v d = (Some err, d))
     ∧ (∀ v, store.SetChatUnread jid v d = (Some err, d))).
Proof.
  split.
  - intros Hb. split_and!; intros v; apply exec_update_column_set; try done; one_column.
  - intros err Hb. split_and!; intros v; by apply exec_update_broken.
Qed.

Lemma exec_update_comm (f g : store.row → store.row) jid1 jid2 d :
  (∀ r, f (g r) = g (f r)) →
  (store.exec_update g jid2 (store.exec_update f jid1 d).2).2 =
  (store.exec_update f jid1 (store.exec_update g jid2 d).2).2.
Proof.
  intros Hfg. unfold store.exec_update.
  destruct (store.broken d) as [err|] eqn:Hb; simpl; rewrite ?Hb; [done|]. simpl.
  f_equal. apply map_eq. intros j.
  destruct (decide (j = jid1)) as [E1|H1], (decide (j = jid2)) as [E2|H2]; subst;
    rewrite ?lookup_alter_eq, ?lookup_alter_ne, ?lookup_alter_eq, ?lookup_alter_ne by done;
    try done.
  match goal with |- context [store.chats d !! ?k] => destruct (store.chats d !! k) end;
    simpl; [by rewrite Hfg | done].
Qed.

(** X14. Setters of different columns commute, on the same chat or on
    two: the cache after both does not depend on which ran first. *)
Theorem setters_commute jid1 jid2 d (a p u : bool) (m : Z) :
  let after (f g : store.DB → option error * store.DB) := (g (f d).2).2 in
  after (store.SetChatArchived jid1 a) (store.SetChatPinned jid2 p)
    = after (store.SetChatPinned jid2 p) (store.SetChatArchived jid1 a)
  ∧ after (store.SetChatArchived jid1 a) (store.SetChatMutedUntil jid2 m)
    = after (store.SetChatMutedUntil jid2 m) (store.SetChatArchived jid1 a)
  ∧ after (store.SetChatArchived jid1 a) (store.SetChatUnread jid2 u)
    = after (store.SetChatUnread jid2 u) (store.SetChatArchived jid1 a)
  ∧ after (store.SetChatPinned jid1 p) (store.SetChatMutedUntil jid2 m)
    = after (store.SetChatMutedUntil jid2 m) (store.SetChatPinned jid1 p)
  ∧ after (store.SetChatPinned jid1 p) (store.SetChatUnread jid2 u)
    = after (store.SetChatUnread jid2 u) (store.SetChatPinned jid1 p)
  ∧ after (store.SetChatMutedUntil jid1 m) (store.SetChatUnread jid2 u)
    = after (store.SetChatUnread jid2 u) (store.SetChatMutedUntil jid1 m).
Proof.
  intros after. unfold after. split_and!; by apply exec_update_comm.
Qed.

End Setters.

(** ** The application: session first, then the cache *)

Section Mirrored.
Context {lib : Lib} {S : Type} {wac : app.WAClient S}.
Implicit Types (a : app.App S) (s : S).

Lemma on_wa_done (f : S → option error * S) a k s s' :
  app.wa a = Some s → f s = (None, s') →
  app.on_wa f a k = k None {| app.wa := Some s'; app.db := app.db a; app.now := app.now a |}.
Proof. intros Hwa Hf. unfold app.on_wa. by rewrite Hwa, Hf. Qed.

Lemma on_db_column_set c v upd jid a :
  store.broken (app.db a) = None →
  (∀ r, column_of c (upd r) = v
        ∧ (∀ c', c' ≠ c → column_of c' (upd r) = column_of c' r)
        ∧ store.kind (upd r) = store.kind r ∧ store.name (upd r) = store.name r
        ∧ store.last_message_ts (upd r) = store.last_message_ts r) →
  ∃ d', app.on_db (store.exec_update upd jid) a
          = (ipc.Returned None, {| app.wa := app.wa a; app.db := d'; app.now := app.now a |})
        ∧ column_set c v jid (app.db a) d'.
Proof.
  intros Hb Hupd. unfold app.on_db.
  destruct (exec_update_column_set c v upd jid (app.db a) Hb Hupd) as (d' & -> & Hset).
  eauto.
Qed.

(** X15. When the session accepts the patch and the cache works, each
    of the four operations returns nil, keeps the session as the call
    left it, and mirrors the new state into the one column of the
    chat's row: 1 or 0 (as [boolToInt] has it) in [archived] and
    [pinned], in [unread] the opposite of [read], and in [muted_until]
    the end of the mute.  Nothing else of the cache changes, and no row
    is made for a chat that has none. *)
Theorem operations_mirror_one_column a s (jid : JID) :
  app.wa a = Some s → store.broken (app.db a) = None →
  let done (s' : S) (d' : store.DB) :=
    (ipc.Returned None, {| app.wa := Some s'; app.db := d'; app.now := app.now a |}) in
  (∀ archive s', app.wa_ArchiveChat jid archive Time_zero None s = (None, s') →
     ∃ d', app.ArchiveChat jid archive a = done s' d'
           ∧ column_set Archived (boolToInt archive) (JID_String jid) (app.db a) d')
  ∧ (∀ pin s', app.wa_PinChat jid pin s = (None, s') →
     ∃ d', app.PinChat jid pin a = done s' d'
           ∧ column_set Pinned (boolToInt pin) (JID_String jid) (app.db a) d')
  ∧ (∀ mute duration s', app.wa_MuteChat jid mute duration s = (None, s') →
     ∃ d', app.MuteChat jid mute duration a = done s' d'
           ∧ column_set MutedUntil (muted_until_of mute duration (app.now a))
               (JID_String jid) (app.db a) d')
  ∧ (∀ read s', app.wa_MarkChatAsRead jid read Time_zero None s = (None, s') →
     ∃ d', app.MarkChatRead jid read a = done s' d'
           ∧ column_set Unread (boolToInt (negb read)) (JID_String jid) (app.db a) d').
Proof.
  intros Hwa Hb done. unfold done.
  split_and!; intros.
  all: unfold app.ArchiveChat, app.PinChat, app.MuteChat, app.MarkChatRead;
    erewrite on_wa_done by done.
  all: cbv beta iota zeta;
    unfold store.SetChatArchived, store.SetChatPinned, store.SetChatMutedUntil,
      store.SetChatUnread.
  all: match goal with
       | |- ∃ d', app.on_db (λ d, store.exec_update ?u ?k d) ?a' = _ ∧ column_set ?c ?v _ _ _ =>
         apply (on_db_column_set c v u k a' Hb)
       end.
  all: one_column.
Qed.

Lemma muted_until_later (duration : Z) (now : Time) :
  (0 < duration)%Z → (0 ≤ now)%Z →
  (Time_Unix now ≤ muted_until_of true duration now)%Z
  ∧ ((1000000000 ≤ now)%Z → (0 < muted_until_of true duration now)%Z).
Proof.
  intros Hd Hnow. unfold muted_until_of, Time_Unix. rewrite (proj2 (Z.leb_gt _ _) Hd).
  assert (now `div` 1000000000 ≤ (now + duration) `div` 1000000000)%Z
    by (apply Z.div_le_mono; lia).
  split; [done|]. intros Hlate.
  assert (1 ≤ now `div` 1000000000)%Z by (apply Z.div_le_lower_bound; lia). lia.
Qed.

(** X16. What [MuteChat] leaves in [muted_until] of a chat that has a
    row, when the session accepted the patch and the cache works: 0 for
    an unmute, whatever the duration; -1 for a mute with a duration of
    zero or less, which stands for "for ever"; and for a mute with a
    positive duration, asked for after 1970, the Unix second at which
    it ends, which is not before the second of the request and, from
    the first second of 1970 on, is positive: the end of a timed mute
    is never mistaken for "not muted" or for "for ever". *)
Theorem MuteChat_muted_until a s (jid : JID) (mute : bool) (duration : Z) s' r :
  app.wa a = Some s → store.broken (app.db a) = None →
  app.wa_MuteChat jid mute duration s = (None, s') →
  store.chats (app.db a) !! JID_String jid = Some r →
  ∃ r', store.chats (app.db (app.MuteChat jid mute duration a).2) !! JID_String jid = Some r'
    ∧ (mute = false → store.muted_until r' = 0%Z)
    ∧ (mute = true → (duration ≤ 0)%Z → store.muted_until r' = (-1)%Z)
    ∧ (mute = true → (0 < duration)%Z → (0 ≤ app.now a)%Z →
         (Time_Unix (app.now a) ≤ store.muted_until r')%Z
         ∧ ((1000000000 ≤ app.now a)%Z → (0 < store.muted_until r')%Z)).
Proof.
  intros Hwa Hb Hcall Hrow.
  unfold app.MuteChat. erewrite on_wa_done by done. cbv beta iota zeta.
  unfold store.SetChatMutedUntil, app.on_db, store.exec_update. simpl. rewrite Hb. simpl.
  rewrite lookup_alter_eq, Hrow. simpl. eexists. split; [done|]. simpl.
  split_and!.
  - by intros ->.
  - intros -> Hd. by rewrite (proj2 (Z.leb_le _ _) Hd).
  - intros -> Hd Hnow. by apply muted_until_later.
Qed.

(** X17. When the session accepts the patch but the statement on the
    cache fails, the operation returns the error of the cache: the
    patch has been sent (the session is as the call left it) and the
    cache is as it was, so that the two disagree about the chat. *)
Theorem cache_failure_after_session a s (jid : JID) err :
  app.wa a = Some s → store.broken (app.db a) = Some err →
  let failed (s' : S) :=
    (ipc.Returned (Some err), {| app.wa := Some s'; app.db := app.db a; app.now := app.now a |}) in
  (∀ archive s', app.wa_ArchiveChat jid archive Time_zero None s = (None, s') →
     app.ArchiveChat jid archive a = failed s')
  ∧ (∀ pin s', app.wa_PinChat jid pin s = (None, s') →
     app.PinChat jid pin a = failed s')
  ∧ (∀ mute duration s', app.wa_MuteChat jid mute duration s = (None, s') →
     app.MuteChat jid mute duration a = failed s')
  ∧ (∀ read s', app.wa_MarkChatAsRead jid read Time_zero None s = (None, s') →
     app.MarkChatRead jid read a = failed s').
Proof.
  intros Hwa Hb failed. unfold failed.
  split_and!; intros.
  all: unfold app.ArchiveChat, app.PinChat, app.MuteChat, app.MarkChatRead;
    erewrite on_wa_done by done.
  all: unfold app.on_db, store.SetChatArchived, store.SetChatPinned, store.SetChatMutedUntil,
         store.SetChatUnread; simpl.
  all: by erewrite exec_update_broken by done.
Qed.

(** X18. Before the session is opened ([a.wa] is the nil interface)
    each of the four operations panics with a nil dereference, and
    neither the cache nor anything else of the application changes. *)
Theorem operations_without_session a (jid : JID) :
  app.wa a = None →
  let panic := (ipc.Panicked (A := option error) app.nil_dereference, a) in
  (∀ archive, app.ArchiveChat jid archive a = panic)
  ∧ (∀ pin, app.PinChat jid pin a = panic)
  ∧ (∀ mute duration, app.MuteChat jid mute duration a = panic)
  ∧ (∀ read, app.MarkChatRead jid read a = panic).
Proof.
  intros Hwa panic.
  split_and!; intros;
    unfold app.ArchiveChat, app.PinChat, app.MuteChat, app.MarkChatRead, app.on_wa;
    by rewrite Hwa.
Qed.

End Mirrored.

(** ** The session: no patch without a connection *)

Section Session.
Context {lib : Lib} {W : Type} {cli : wa.Whatsmeow W}.
Implicit Types (c : wa.Client W).

Lemma SendAppState_offline patch c :
  offline c = true → wa.SendAppState patch c = (Some "not connected", c).
Proof.
  unfold offline, wa.SendAppState. destruct (wa.client c) as [w|]; [|done].
  by intros ->.
Qed.

(** X19. While the client has no session or the session is not
    connected, [SendAppState] and the four operations built on it
    return the error "not connected" and nothing is sent: the state of
    the session is untouched.  Once connected they return what the
    session answers to the patch, and the only patch sent is the one of
    the operation, built from its arguments. *)
Theorem patches_need_a_connection c :
  (offline c = true →
     (∀ patch, wa.SendAppState patch c = (Some "not connected", c))
     ∧ (∀ target archive ts key,
          wa.ArchiveChat target archive ts key c = (Some "not connected", c))
     ∧ (∀ target pin, wa.PinChat target pin c = (Some "not connected", c))
     ∧ (∀ target mute duration,
          wa.MuteChat target mute duration c = (Some "not connected", c))
     ∧ (∀ target read ts key,
          wa.MarkChatAsRead target read ts key c = (Some "not connected", c)))
  ∧ (∀ w, wa.client c = Some w → wa.cli_IsConnected w = true →
     let sent patch :=
       ((wa.cli_SendAppState patch w).1, {| wa.client := Some (wa.cli_SendAppState patch w).2 |}) in
     (∀ patch, wa.SendAppState patch c = sent patch)
     ∧ (∀ target archive ts key,
          wa.ArchiveChat target archive ts key c = sent (wa.BuildArchive target archive ts key))
     ∧ (∀ target pin, wa.PinChat target pin c = sent (wa.BuildPin target pin))
     ∧ (∀ target mute duration,
          wa.MuteChat target mute duration c = sent (wa.BuildMute target mute duration))
     ∧ (∀ target read ts key,
          wa.MarkChatAsRead target read ts key c
          = sent (wa.BuildMarkChatAsRead target read ts key))).
Proof.
  split.
  - intros Hoff. split_and!; intros; by apply SendAppState_offline.
  - intros w Hc Hw sent.
    assert (∀ patch, wa.SendAppState patch c = sent patch) as Hsend.
    { intros patch. unfold wa.SendAppState, sent. rewrite Hc, Hw. simpl.
      by destruct (wa.cli_SendAppState patch w). }
    split_and!; intros; apply Hsend.
Qed.

(** X20. With the client of package [wa] behind the application, an
    operation on a chat while the session is not connected returns
    "not connected" and changes nothing: no patch is sent and the cache
    keeps the old state of the chat. *)
Theorem offline_operations_change_nothing (wac : app.WAClient (wa.Client W))
    (a : app.App (wa.Client W)) c (jid : JID) :
  app.wa_ArchiveChat = wa.ArchiveChat → app.wa_PinChat = wa.PinChat →
  app.wa_MuteChat = wa.MuteChat → app.wa_MarkChatAsRead = wa.MarkChatAsRead →
  app.wa a = Some c → offline c = true →
  (∀ archive, app.ArchiveChat jid archive a = (ipc.Returned (Some "not connected"), a))
  ∧ (∀ pin, app.PinChat jid pin a = (ipc.Returned (Some "not connected"), a))
  ∧ (∀ mute duration,
       app.MuteChat jid mute duration a = (ipc.Returned (Some "not connected"), a))
  ∧ (∀ read, app.MarkChatRead jid read a = (ipc.Returned (Some "not connected"), a)).
Proof.
  intros Harchive Hpin Hmute Hread Hwa Hoff.
  destruct a as [wa0 db0 now0]. simpl in Hwa. subst wa0.
  split_and!; intros;
    unfold app.ArchiveChat, app.PinChat, app.MuteChat, app.MarkChatRead, app.on_wa; simpl;
    rewrite ?Harchive, ?Hpin, ?Hmute, ?Hread;
    unfold wa.ArchiveChat, wa.PinChat, wa.MuteChat, wa.MarkChatAsRead;
    by rewrite SendAppState_offline.
Qed.

End Session.

Lemma operations_mirror_one_column_witness :
  let a := example.application None in
  ∃ s' d',
    app.ArchiveChat (lib := example.lib) (wac := example.wa_client) example.alice true a
      = (ipc.Returned None, {| app.wa := Some s'; app.db := d'; app.now := app.now a |})
    ∧ column_set Archived 1 example.alice example.cache d'.
Proof.
  intros a.
  destruct (proj1 (operations_mirror_one_column (lib := example.lib) (wac := example.wa_client)
                     a _ example.alice eq_refl eq_refl) true _ eq_refl) as (d' & Hrun & Hset).
  eexists _, d'. split; [exact Hrun | exact Hset].
Defined.

Lemma MuteChat_muted_until_witness :
  let a := example.application None in
  ∃ r', store.chats (app.db (app.MuteChat (lib := example.lib) (wac := example.wa_client)
                               example.alice true 28800000000000 a).2) !! example.alice = Some r'
    ∧ (1700000000 ≤ store.muted_until r')%Z ∧ (0 < store.muted_until r')%Z.
Proof.
  intros a.
  destruct (MuteChat_muted_until (lib := example.lib) (wac := example.wa_client)
              a _ example.alice true 28800000000000 _ _ eq_refl eq_refl eq_refl eq_refl)
    as (r' & Hrow & _ & _ & Htimed).
  exists r'. split; [exact Hrow|].
  destruct (Htimed eq_refl ltac:(done) ltac:(done)) as [Hlater Hpositive].
  split; [exact Hlater | exact (Hpositive ltac:(done))].
Defined.

Lemma cache_failure_after_session_witness :
  let c := {| wa.client := Some {| example.connected := true; example.refuse := None;
                                   example.patches := [] |} |} in
  let a := {| app.wa := Some c;
              app.db := {| store.chats := store.chats example.cache;
                           store.broken := Some "database is locked" |};
              app.now := 1700000000000000000%Z |} in
  app.PinChat (lib := example.lib) (wac := example.wa_client) example.alice true a
  = (ipc.Returned (Some "database is locked"),
     {| app.wa := Some {| wa.client := Some {| example.connected := true;
                                               example.refuse := None;
                                               example.patches :=
                                                 [wa.BuildPin (lib := example.lib) example.alice true] |} |};
        app.db := app.db a; app.now := app.now a |}).
Proof.
  intros c a.
  exact (proj1 (proj2 (cache_failure_after_session (lib := example.lib)
                         (wac := example.wa_client) a c example.alice "database is locked"
                         eq_refl eq_refl)) true _ eq_refl).
Defined.

Lemma operations_without_session_witness :
  let a : app.App (wa.Client example.session) :=
    {| app.wa := None; app.db := example.cache; app.now := 1700000000000000000%Z |} in
  app.MarkChatRead (lib := example.lib) (wac := example.wa_client) example.alice true a
  = (ipc.Panicked app.nil_dereference, a).
Proof.
  intros a.
  exact (proj2 (proj2 (proj2 (operations_without_session (lib := example.lib)
                                (wac := example.wa_client) a example.alice eq_refl))) true).
Defined.

Lemma offline_operations_change_nothing_witness :
  let c := {| wa.client := Some {| example.connected := false; example.refuse := None;
                                   example.patches := [] |} |} in
  let a := {| app.wa := Some c; app.db := example.cache; app.now := 1700000000000000000%Z |} in
  app.ArchiveChat (lib := example.lib) (wac := example.wa_client) example.alice true a
  = (ipc.Returned (Some "not connected"), a).
Proof.
  intros c a.
  exact (proj1 (offline_operations_change_nothing (lib := example.lib)
                  (cli := example.whatsmeow) example.wa_client a c example.alice
                  eq_refl eq_refl eq_refl eq_refl eq_refl eq_refl) true).
Defined.

(** ** Nested objects, written and read back *)

Lemma wire_Object ms : wire (json.Object ms) = wire_members ms.
Proof. reflexivity. Qed.

Lemma value_size_Object ms : value_size (json.Object ms) = S (members_size ms).
Proof. reflexivity. Qed.

Lemma wire_plain x : json.plain x = true → wire x = true.
Proof. by destruct x. Qed.

Lemma wire_members_plain ms : forallb json.plain_member ms = true → wire_members ms = true.
Proof.
  induction ms as [|[k v] ms IH]; [done|]. cbn [forallb wire_members].
  unfold json.plain_member at 1. simpl. rewrite !andb_true_iff.
  intros [[Hk Hv] Hms]. by rewrite Hk, (wire_plain v Hv), IH.
Qed.

(** A value of the wire at the head of a text is read as that value,
    with fuel and nesting for its size. *)
Lemma value_members_wire (fuel : nat) :
  (∀ x tail depth, wire x = true → (value_size x ≤ fuel)%nat → (value_size x ≤ depth)%nat →
     json.value fuel depth (json.write x +:+ tail) = Some (x, tail))
  ∧ (∀ ms rest depth, ms ≠ [] → wire_members ms = true →
       (members_size ms ≤ fuel)%nat → (members_size ms ≤ depth)%nat →
       json.members fuel depth (json.write_members ms +:+ String "}" rest) = Some (ms, rest)).
Proof.
  induction fuel as [|fuel [IHvalue IHmembers]].
  { split.
    - intros x tail depth _ Hsize. destruct x; simpl in Hsize; lia.
    - intros [|[k v] ms] rest depth Hne _ Hsize; [done|]. simpl in Hsize. lia. }
  split.
  - intros x tail depth Hwire Hfuel Hdepth.
    destruct x as [|b|lit|str|l|ms]; try done; try (apply value_plain; exact Hwire).
    rewrite wire_Object in Hwire. rewrite value_size_Object in Hfuel, Hdepth.
    destruct depth as [|depth]; [lia|].
    rewrite write_Object, !append_assoc.
    change ("{" +:+ ?a) with (String "{"%char a).
    rewrite value_object.
    destruct ms as [|[k v] ms]; [reflexivity|].
    destruct (write_members_head k v ms) as [r Hr].
    rewrite Hr.
    change (json.skip_ws (String json.dquote ?a +:+ ?b)) with (String json.dquote a +:+ b).
    change ((String json.dquote ?a +:+ ?b)) with (String json.dquote (a +:+ b)).
    change (json.isc json.dquote "}") with false. cbn match.
    change (String json.dquote (?a +:+ ?b)) with (String json.dquote a +:+ b).
    rewrite <- Hr.
    change ("}" +:+ tail) with (String "}"%char tail).
    rewrite IHmembers; [done | done | done | lia | lia].
  - intros ms rest depth Hne Hwire Hfuel Hdepth.
    destruct ms as [|[k x] ms]; [done|].
    cbn [wire_members] in Hwire. apply andb_true_iff in Hwire as [Hkx Hms].
    apply andb_true_iff in Hkx as [Hk Hx].
    cbn [members_size] in Hfuel, Hdepth.
    cbn [json.write_members]. rewrite quote_head.
    rewrite !append_assoc.
    change (String json.dquote ?a +:+ ?b) with (String json.dquote (a +:+ b)).
    rewrite members_literal, !append_assoc.
    change (json.str1 json.dquote +:+ ?x) with (String json.dquote x).
    rewrite unquote_escape; [|done|rewrite length_append; simpl; lia].
    change (utf8.coerce_fuel (String.length k) k) with (utf8.coerce k).
    rewrite (coerce_valid k Hk).
    change (json.skip_ws (":" +:+ ?x)) with (String ":"%char x).
    change (json.isc ":" ":") with true. cbn match.
    rewrite IHvalue; [|done|lia|lia].
    destruct ms as [|[k' x'] ms'].
    + reflexivity.
    + change (("," +:+ ?a) +:+ ?b) with (String ","%char (a +:+ b)).
      change (json.skip_ws (String ","%char ?x)) with (String ","%char x).
      change (json.isc "," ",") with true. cbn match.
      rewrite IHmembers; [done | done | done | |]; simpl in *; lia.
Qed.

Lemma value_size_le_length (n : nat) :
  (∀ x, (value_size x ≤ n)%nat → wire x = true → (value_size x ≤ String.length (json.write x))%nat)
  ∧ (∀ ms, (members_size ms ≤ n)%nat → wire_members ms = true →
       (members_size ms ≤ String.length (json.write_members ms))%nat).
Proof.
  induction n as [|n [IHvalue IHmembers]].
  { split.
    - intros x Hsize. destruct x; simpl in Hsize; lia.
    - intros [|[k v] ms] Hsize; [simpl; lia|]. simpl in Hsize. lia. }
  split.
  - intros x Hsize Hwire. destruct x as [|[]|lit|str|l|ms]; try done; try (simpl; lia).
    rewrite wire_Object in Hwire. rewrite value_size_Object in *. rewrite write_Object.
    change ("{" +:+ ?a) with (String "{"%char a). cbn [String.length].
    rewrite length_append. specialize (IHmembers ms ltac:(lia) Hwire). simpl. lia.
  - intros [|[k x] ms] Hsize Hwire; [simpl; lia|].
    cbn [wire_members] in Hwire. apply andb_true_iff in Hwire as [Hkx Hms].
    apply andb_true_iff in Hkx as [Hk Hx].
    cbn [members_size] in *. cbn [json.write_members]. rewrite quote_head.
    change (String json.dquote ?a +:+ ?b) with (String json.dquote (a +:+ b)).
    cbn [String.length]. rewrite !length_append.
    specialize (IHvalue x ltac:(lia) Hx). specialize (IHmembers ms ltac:(lia) Hms).
    destruct ms as [|kv ms]; [simpl in *; lia|].
    set (written := json.write_members (kv :: ms)) in *.
    set (rest := members_size (kv :: ms)) in *.
    rewrite !length_append. simpl String.length. lia.
Qed.

(** An object of the wire, written on a line and read back. *)
Lemma read_write_wire (ms : list (string * json.t)) :
  wire_members ms = true → (members_size ms < json.maxNestingDepth)%nat →
  json.read (json.write (json.Object ms) +:+ ipc.newline) = inr (json.Object ms).
Proof.
  intros Hwire Hdepth. unfold json.read.
  assert (Hskip : json.skip_ws (json.write (json.Object ms) +:+ ipc.newline)
                  = json.write (json.Object ms) +:+ ipc.newline).
  { by rewrite write_Object, !append_assoc. }
  rewrite Hskip.
  destruct (value_members_wire (2 * String.length (json.write (json.Object ms) +:+ ipc.newline) + 2))
    as [Hvalue _].
  rewrite Hvalue; [| done | | rewrite value_size_Object; lia].
  - rewrite write_Object, !append_assoc. reflexivity.
  - destruct (value_size_le_length (value_size (json.Object ms))) as [Hsize _].
    specialize (Hsize (json.Object ms) ltac:(lia) Hwire).
    rewrite length_append. lia.
Qed.

(** ** One line for one message *)

Lemma one_line_app (a b : string) : one_line (a +:+ b) = (one_line a && one_line b)%bool.
Proof.
  induction a as [|c a IH]; [done|].
  change (String c a +:+ b) with (String c (a +:+ b)). cbn [one_line].
  by rewrite IH, andb_assoc.
Qed.

Lemma escape_byte_one_line (c : ascii) : one_line (json.escape_byte c) = true.
Proof. destruct c as [[] [] [] [] [] [] [] []]; reflexivity. Qed.

Lemma newline_low (b : ascii) (lo hi : N) :
  utf8.byte_in lo hi b = true → (11 ≤ lo)%N → json.isc b (json.chr 10) = false.
Proof.
  intros Hin Hlo. destruct (json.isc b (json.chr 10)) eqn:Hb; [|done].
  apply Ascii.eqb_eq in Hb. subst b. unfold utf8.byte_in in Hin.
  apply andb_true_iff in Hin as [Hin _]. apply N.leb_le in Hin.
  change (N_of_ascii (json.chr 10)) with 10%N in Hin. lia.
Qed.

Lemma newline_ascii (b : ascii) :
  utf8.byte_in 0 127 b = false → json.isc b (json.chr 10) = false.
Proof.
  intros Hb. destruct (json.isc b (json.chr 10)) eqn:Hnl; [|done].
  apply Ascii.eqb_eq in Hnl. by subst b.
Qed.

(** A rune that does not start with an ASCII byte holds no newline. *)
Lemma rune_one_line (c : ascii) (r : string) (k : nat) :
  utf8.byte_in 0 127 c = false → utf8.width (String c r) = S k →
  one_line (utf8.string_take (S k) (String c r)) = true.
Proof.
  intros Hc. pose proof (newline_ascii c Hc) as Hnl.
  destruct r as [|b1 [|b2 [|b3 r]]]; cbn [utf8.width]; rewrite Hc; intros Hw;
    case_tests; simplify_eq; cbn [utf8.string_take one_line]; rewrite Hnl;
    unfold utf8.cont in *;
    repeat match goal with
    | H : (_ && _)%bool = true |- _ => apply andb_true_iff in H as [? ?]
    end;
    repeat match goal with
    | H : utf8.byte_in ?lo ?hi ?b = true |- context [json.isc ?b (json.chr 10)] =>
      rewrite (newline_low b lo hi H) by lia
    end; reflexivity.
Qed.

Lemma escape_one_line (f : nat) (s : string) : one_line (json.escape_fuel f s) = true.
Proof.
  revert s. induction f as [|f IH]; intros [|c r]; try done.
  cbn [json.escape_fuel].
  destruct (utf8.byte_in 0 127 c) eqn:Hc.
  { by rewrite one_line_app, escape_byte_one_line, IH. }
  destruct (utf8.width (String c r)) as [|k] eqn:Hw; rewrite one_line_app, IH, andb_true_r.
  { reflexivity. }
  repeat case_match; try reflexivity. by apply rune_one_line.
Qed.

Lemma quote_one_line (s : string) : one_line (json.quote s) = true.
Proof. unfold json.quote. by rewrite !one_line_app, escape_one_line. Qed.

(** The text of a value of the wire holds no newline: the encoder
    writes the newline of a string as [\n]. *)
Lemma write_one_line (n : nat) :
  (∀ x, (value_size x ≤ n)%nat → wire x = true → one_line (json.write x) = true)
  ∧ (∀ ms, (members_size ms ≤ n)%nat → wire_members ms = true →
       one_line (json.write_members ms) = true).
Proof.
  induction n as [|n [IHvalue IHmembers]].
  { split.
    - intros x Hsize. destruct x; simpl in Hsize; lia.
    - intros [|[k v] ms] Hsize; [done|]. simpl in Hsize. lia. }
  split.
  - intros x Hsize Hwire. destruct x as [|[]|lit|str|l|ms]; try done.
    + apply quote_one_line.
    + rewrite wire_Object in Hwire. rewrite value_size_Object in Hsize. rewrite write_Object.
      rewrite !one_line_app, IHmembers; [done | lia | done].
  - intros [|[k x] ms] Hsize Hwire; [done|].
    cbn [wire_members] in Hwire. apply andb_true_iff in Hwire as [Hkx Hms].
    apply andb_true_iff in Hkx as [Hk Hx].
    cbn [members_size] in Hsize. cbn [json.write_members].
    rewrite !one_line_app, quote_one_line, IHvalue by (done || lia).
    destruct ms as [|kv ms]; [done|].
    rewrite one_line_app, IHmembers by (done || lia). done.
Qed.

Lemma ReadBytes_one_line (a : string) :
  one_line a = true → ReadBytes_newline (a +:+ ipc.newline) = Some (a +:+ ipc.newline).
Proof.
  induction a as [|c a IH]; [done|].
  cbn [one_line]. rewrite andb_true_iff, negb_true_iff. intros [Hc Ha].
  change (String c a +:+ ipc.newline) with (String c (a +:+ ipc.newline)).
  cbn [ReadBytes_newline]. by rewrite Hc, IH.
Qed.

(** A line written for an object of the wire is read as one line, and
    as that object. *)
Lemma line_of_wire (ms : list (string * json.t)) :
  wire_members ms = true → (members_size ms < json.maxNestingDepth)%nat →
  ReadBytes_newline (json.write (json.Object ms) +:+ ipc.newline)
    = Some (json.write (json.Object ms) +:+ ipc.newline)
  ∧ json.read (json.write (json.Object ms) +:+ ipc.newline) = inr (json.Object ms).
Proof.
  intros Hwire Hsize. split; [|by apply read_write_wire].
  apply ReadBytes_one_line.
  destruct (write_one_line (value_size (json.Object ms))) as [Hline _].
  by apply Hline.
Qed.

(** ** The proxy and the daemon, end to end *)

Section EndToEnd.
Context {fp : ipc.Filepath} {H : Type}.
#[local] Existing Instance example.text.
Implicit Types (s : ipc.Server H) (w : H * list ipc.Call) (c : ipc.Client) (req : ipc.Request).

Lemma Unmarshal_Request_line req :
  utf8_request req = true →
  ReadBytes_newline (json.write (ipc.marshal_Request req) +:+ ipc.newline)
    = Some (json.write (ipc.marshal_Request req) +:+ ipc.newline)
  ∧ ipc.Unmarshal_Request (text := example.text)
      (json.write (ipc.marshal_Request req) +:+ ipc.newline) ipc.Request_zero = (req, None).
Proof.
  intros Hvalid.
  destruct (marshal_Request_plain req Hvalid) as (ms & Hms & Hplain).
  assert (Hread : json.read (json.write (ipc.marshal_Request req) +:+ ipc.newline)
                  = inr (ipc.marshal_Request req)).
  { rewrite Hms. by apply read_write_object. }
  split.
  - rewrite Hms. apply ReadBytes_one_line.
    destruct (write_one_line (value_size (json.Object ms))) as [Hline _].
    apply Hline; [done|]. rewrite wire_Object. by apply wire_members_plain.
  - unfold ipc.Unmarshal_Request.
    change (json.parse ?x) with (json.read x). rewrite Hread.
    by apply unmarshal_marshal_Request.
Qed.

(** What [send] returns when the daemon answers with an object of the
    wire: that object, decoded. *)
Lemma send_served s w c req ms :
  ipc.client_storeDir c = ipc.storeDir s →
  utf8_request req = true →
  ipc.marshal_Response (text := example.text) (answer s req w) = Some (json.Object ms) →
  wire_members ms = true → (members_size ms < json.maxNestingDepth)%nat →
  ipc.send (text := example.text) c req (serving s w) =
    match ipc.unmarshal_Response (json.Object ms) ipc.Response_zero with
    | (_, Some err) => inl (wrap "parse response: " err)
    | (resp, None) => inr resp
    end.
Proof.
  intros Hdir Hvalid Hanswer Hwire Hsize.
  destruct (Unmarshal_Request_line req Hvalid) as [Hline Hreq].
  destruct (line_of_wire ms Hwire Hsize) as [Hback Hread].
  unfold ipc.send, serving. rewrite Hdir, String.eqb_refl.
  change (json.print ?x) with (json.write x).
  rewrite Hline. unfold ipc.handleConn. cbn [ipc.incoming ipc.fresh_conn].
  rewrite Hreq.
  unfold answer in Hanswer.
  assert (Hwritten : ∀ conn resp,
    ipc.marshal_Response (text := example.text) resp = Some (json.Object ms) →
    ipc.written conn = [] →
    foldr String.append "" (ipc.written (ipc.Close (ipc.writeResponse conn resp)))
    = json.write (json.Object ms) +:+ ipc.newline).
  { intros conn resp Hresp Hnone. unfold ipc.writeResponse, ipc.Close. cbn [ipc.written].
    rewrite Hresp, Hnone. change (json.print ?x) with (json.write x).
    cbn [app foldr]. by rewrite append_nil_r. }
  destruct (ipc.processRequest s req w) as [[resp|v] w'] eqn:Hrun; cbn [fst snd] in *;
    rewrite Hwritten by done; rewrite Hback;
    unfold ipc.Unmarshal_Response; change (json.parse ?x) with (json.read x);
    by rewrite Hread.
Qed.

Lemma depth_enough (n : nat) : (n ≤ 20)%nat → (n < json.maxNestingDepth)%nat.
Proof. unfold json.maxNestingDepth. lia. Qed.

(** A failure, with or without a message, comes back as it was sent. *)
Lemma send_failure s w c req e :
  ipc.client_storeDir c = ipc.storeDir s → utf8_request req = true →
  answer s req w = {| ipc.Success := false; ipc.Error := e; ipc.Data := ipc.AnyNil |} →
  utf8.ValidString e = true →
  ipc.send c req (serving s w)
    = inr {| ipc.Success := false; ipc.Error := e; ipc.Data := ipc.AnyNil |}.
Proof.
  intros Hdir Hvalid Hanswer He.
  rewrite (send_served s w c req ([("success", json.Bool false)] ++ ipc.str_omitempty "error" e))
    by first [ done
             | by rewrite Hanswer; unfold ipc.marshal_Response; cbn; rewrite app_nil_r
             | unfold ipc.str_omitempty, ipc.str_member; destruct (String.eqb e "");
               cbn; rewrite ?(coerce_valid e He), ?He; done
             | apply depth_enough; unfold ipc.str_omitempty, ipc.str_member;
               destruct (String.eqb e ""); cbn; lia ].
  unfold ipc.str_omitempty, ipc.str_member.
  destruct (String.eqb_spec e "") as [->|Hne]; [reflexivity|].
  cbn. by rewrite (coerce_valid e He).
Qed.

Lemma send_pong s w c req :
  ipc.client_storeDir c = ipc.storeDir s → utf8_request req = true →
  answer s req w = {| ipc.Success := true; ipc.Error := ""; ipc.Data := ipc.AnyString "pong" |} →
  ipc.send c req (serving s w)
    = inr {| ipc.Success := true; ipc.Error := ""; ipc.Data := ipc.AnyString "pong" |}.
Proof.
  intros Hdir Hvalid Hanswer.
  by rewrite (send_served s w c req [("success", json.Bool true); ("data", json.Str "pong")])
    by first [ done | by rewrite Hanswer | apply depth_enough; cbn; lia ].
Qed.

(** The record of a sent message comes back as the map of its fields. *)
Lemma send_result s w c req to msgID :
  ipc.client_storeDir c = ipc.storeDir s → utf8_request req = true →
  answer s req w = {| ipc.Success := true; ipc.Error := "";
                      ipc.Data := ipc.AnySendTextResult
                        {| ipc.Result_To := to; ipc.Result_MsgID := msgID |} |} →
  utf8.ValidString to = true → utf8.ValidString msgID = true →
  ipc.send c req (serving s w)
    = inr {| ipc.Success := true; ipc.Error := "";
             ipc.Data := ipc.AnyMap [("msg_id", ipc.AnyString msgID);
                                     ("to", ipc.AnyString to)] |}.
Proof.
  intros Hdir Hvalid Hanswer Hto Hid.
  by rewrite (send_served s w c req
                [("success", json.Bool true);
                 ("data", json.Object [("to", json.Str to); ("msg_id", json.Str msgID)])])
    by first [ done
             | by rewrite Hanswer; unfold ipc.marshal_Response; cbn;
                  unfold ipc.marshal_SendTextResult, ipc.str_member; cbn -[utf8.coerce];
                  rewrite (coerce_valid to Hto), (coerce_valid msgID Hid)
             | by cbn; rewrite Hto, Hid
             | apply depth_enough; cbn; lia ].
Qed.

(** A success whose data is a map of strings and booleans comes back
    as a success without an error. *)
Lemma send_deleted s w c req chat msgID (forEveryone : bool) :
  ipc.client_storeDir c = ipc.storeDir s → utf8_request req = true →
  answer s req w = {| ipc.Success := true; ipc.Error := "";
                      ipc.Data := ipc.AnyMap [("deleted", ipc.AnyBool true);
                                              ("chat", ipc.AnyString chat);
                                              ("msg_id", ipc.AnyString msgID);
                                              ("for_everyone", ipc.AnyBool forEveryone)] |} →
  utf8.ValidString chat = true → utf8.ValidString msgID = true →
  ipc.send c req (serving s w)
    = inr {| ipc.Success := true; ipc.Error := "";
             ipc.Data := ipc.AnyMap [("chat", ipc.AnyString chat);
                                     ("deleted", ipc.AnyBool true);
                                     ("for_everyone", ipc.AnyBool forEveryone);
                                     ("msg_id", ipc.AnyString msgID)] |}.
Proof.
  intros Hdir Hvalid Hanswer Hchat Hid.
  by rewrite (send_served s w c req
                [("success", json.Bool true);
                 ("data", json.Object [("chat", json.Str chat); ("deleted", json.Bool true);
                                       ("for_everyone", json.Bool forEveryone);
                                       ("msg_id", json.Str msgID)])])
    by first [ done
             | by rewrite Hanswer; unfold ipc.marshal_Response; cbn -[utf8.coerce];
                  rewrite (coerce_valid chat Hchat), (coerce_valid msgID Hid)
             | by cbn; rewrite Hchat, Hid
             | apply depth_enough; cbn; lia ].
Qed.

Lemma send_chat_state s w c req jid action :
  ipc.client_storeDir c = ipc.storeDir s → utf8_request req = true →
  answer s req w = {| ipc.Success := true; ipc.Error := "";
                      ipc.Data := ipc.AnyMap [("action", ipc.AnyString action);
                                              ("jid", ipc.AnyString jid);
                                              ("ok", ipc.AnyBool true)] |} →
  utf8.ValidString jid = true → utf8.ValidString action = true →
  ipc.send c req (serving s w)
    = inr {| ipc.Success := true; ipc.Error := "";
             ipc.Data := ipc.AnyMap [("action", ipc.AnyString action);
                                     ("jid", ipc.AnyString jid);
                                     ("ok", ipc.AnyBool true)] |}.
Proof.
  intros Hdir Hvalid Hanswer Hjid Haction.
  by rewrite (send_served s w c req
                [("success", json.Bool true);
                 ("data", json.Object [("action", json.Str action); ("jid", json.Str jid);
                                       ("ok", json.Bool true)])])
    by first [ done
             | by rewrite Hanswer; unfold ipc.marshal_Response; cbn -[utf8.coerce];
                  rewrite (coerce_valid jid Hjid), (coerce_valid action Haction)
             | by cbn; rewrite Hjid, Haction
             | apply depth_enough; cbn; lia ].
Qed.

(** X21. The proxy is transparent for [SendText].  With the daemon
    listening in the client's store directory, a recipient and a
    message that are text (well-formed UTF-8), and a handler that
    answers with text: [Client.SendText] returns what the handler's
    [SendText] returned for that recipient and message, after the
    request was written as a line, read, decoded, dispatched, and the
    response written as a line, read and decoded.  A message identifier
    with a nil error comes back as the result with the recipient; an
    error comes back as the error; a panic of the handler as the error
    "internal error: " and the panic value; and an empty recipient or
    message as the dispatcher's "to and message are required". *)
Theorem SendText_through_daemon s w c (to message : string) :
  ipc.client_storeDir c = ipc.storeDir s →
  utf8.ValidString to = true → utf8.ValidString message = true →
  valid_outcome valid_sent (ipc.SendText (ipc.handler s) to message w.1).1 = true →
  ipc.Client_SendText c to message (serving s w) =
    if (String.eqb to "" || String.eqb message "")%bool
    then (None, Some "to and message are required")
    else
      match (ipc.SendText (ipc.handler s) to message w.1).1 with
      | ipc.Returned (msgID, None) =>
        (Some {| ipc.Result_To := to; ipc.Result_MsgID := msgID |}, None)
      | ipc.Returned (_, Some err) => (None, Some err)
      | ipc.Panicked v => (None, Some ("internal error: " +:+ v))
      end.
Proof.
  intros Hdir Hto Hmessage Hreply.
  assert (Hvalid : utf8_request (ipc.send_text_request to message) = true).
  { unfold utf8_request. cbn -[utf8.ValidString]. by rewrite Hto, Hmessage. }
  pose proof (processRequest_send_text s (ipc.send_text_request to message) w eq_refl) as Hrun.
  cbn [ipc.To ipc.Message ipc.send_text_request] in Hrun.
  unfold ipc.Client_SendText.
  destruct (String.eqb to "" || String.eqb message "")%bool.
  { rewrite (send_failure s w c _ "to and message are required"); try done.
    unfold answer. by rewrite Hrun. }
  destruct (ipc.SendText (ipc.handler s) to message w.1) as [[[msgID [err|]]|v] st];
    cbn [fst valid_outcome valid_sent valid_error snd] in Hreply.
  - apply andb_true_iff in Hreply as [Hid Herr].
    rewrite (send_failure s w c _ err); try done. unfold answer. by rewrite Hrun.
  - apply andb_true_iff in Hreply as [Hid _].
    rewrite (send_result s w c _ to msgID); try done; [|unfold answer; by rewrite Hrun].
    cbn [ipc.Success negb ipc.Data]. unfold ipc.reparse_SendTextResult.
    cbn -[utf8.coerce]. by rewrite (coerce_valid to Hto), (coerce_valid msgID Hid).
  - rewrite (send_failure s w c _ ("internal error: " +:+ v)); try done.
    unfold answer. by rewrite Hrun.
Qed.

(** X22. The proxy is transparent for [DeleteMessage] and for
    [ChatState]: under the same conditions the helper of the client
    returns the error that the handler's method returned for the same
    arguments, nil for nil; a panic of the handler comes back as the
    error "internal error: " and the panic value, and a missing field
    as the dispatcher's validation error. *)
Theorem errors_through_daemon s w c :
  ipc.client_storeDir c = ipc.storeDir s →
  (∀ chat msgID forEveryone,
     utf8.ValidString chat = true → utf8.ValidString msgID = true →
     valid_outcome valid_error
       (ipc.DeleteMessage (ipc.handler s) chat msgID forEveryone w.1).1 = true →
     ipc.Client_DeleteMessage c chat msgID forEveryone (serving s w) =
       if (String.eqb chat "" || String.eqb msgID "")%bool
       then Some "chat and msg_id are required"
       else
         match (ipc.DeleteMessage (ipc.handler s) chat msgID forEveryone w.1).1 with
         | ipc.Returned err => err
         | ipc.Panicked v => Some ("internal error: " +:+ v)
         end)
  ∧ (∀ jid action duration,
     utf8.ValidString jid = true → utf8.ValidString action = true →
     utf8.ValidString duration = true →
     valid_outcome valid_error
       (ipc.ChatState (ipc.handler s) jid action duration w.1).1 = true →
     ipc.Client_ChatState c jid action duration (serving s w) =
       if (String.eqb jid "" || String.eqb action "")%bool
       then Some "chat and action are required"
       else
         match (ipc.ChatState (ipc.handler s) jid action duration w.1).1 with
         | ipc.Returned err => err
         | ipc.Panicked v => Some ("internal error: " +:+ v)
         end).
Proof.
  intros Hdir. split.
  - intros chat msgID forEveryone Hchat Hid Hreply.
    assert (Hvalid : utf8_request (ipc.delete_message_request chat msgID forEveryone) = true).
    { unfold utf8_request. cbn -[utf8.ValidString]. by rewrite Hchat, Hid. }
    pose proof (processRequest_delete_message s
                  (ipc.delete_message_request chat msgID forEveryone) w eq_refl) as Hrun.
    cbn [ipc.Chat ipc.MsgID ipc.ForEveryone ipc.delete_message_request] in Hrun.
    unfold ipc.Client_DeleteMessage.
    destruct (String.eqb chat "" || String.eqb msgID "")%bool.
    { rewrite (send_failure s w c _ "chat and msg_id are required"); try done.
      unfold answer. by rewrite Hrun. }
    destruct (ipc.DeleteMessage (ipc.handler s) chat msgID forEveryone w.1) as [[[err|]|v] st];
      cbn [fst valid_outcome valid_error] in Hreply.
    + rewrite (send_failure s w c _ err); try done. unfold answer. by rewrite Hrun.
    + rewrite (send_deleted s w c _ chat msgID forEveryone); try done.
      unfold answer. by rewrite Hrun.
    + rewrite (send_failure s w c _ ("internal error: " +:+ v)); try done.
      unfold answer. by rewrite Hrun.
  - intros jid action duration Hjid Haction Hduration Hreply.
    assert (Hvalid : utf8_request (ipc.chat_state_request jid action duration) = true).
    { unfold utf8_request. cbn -[utf8.ValidString]. by rewrite Hjid, Haction, Hduration. }
    pose proof (processRequest_chat_state s
                  (ipc.chat_state_request jid action duration) w eq_refl) as Hrun.
    cbn [ipc.Chat ipc.Action ipc.Duration ipc.chat_state_request] in Hrun.
    unfold ipc.Client_ChatState.
    destruct (String.eqb jid "" || String.eqb action "")%bool.
    { rewrite (send_failure s w c _ "chat and action are required"); try done.
      unfold answer. by rewrite Hrun. }
    destruct (ipc.ChatState (ipc.handler s) jid action duration w.1) as [[[err|]|v] st];
      cbn [fst valid_outcome valid_error] in Hreply.
    + rewrite (send_failure s w c _ err); try done. unfold answer. by rewrite Hrun.
    + rewrite (send_chat_state s w c _ jid action); try done.
      unfold answer. by rewrite Hrun.
    + rewrite (send_failure s w c _ ("internal error: " +:+ v)); try done.
      unfold answer. by rewrite Hrun.
Qed.

(** X23. [Ping] through the socket of a listening daemon returns nil,
    whatever the handler and its state, and the handler is not called
    for it. *)
Theorem Ping_through_daemon s w c :
  ipc.client_storeDir c = ipc.storeDir s →
  ipc.Client_Ping c (serving s w) = None
  ∧ (ipc.processRequest s ipc.ping_request w).2 = w.
Proof.
  intros Hdir. split; [|reflexivity].
  unfold ipc.Client_Ping. by rewrite (send_pong s w c ipc.ping_request).
Qed.

End EndToEnd.

Lemma SendText_through_daemon_witness :
  let s := example.started (example.scripted (ipc.Returned ("ABC123", None))
                                              (ipc.Returned None)) in
  ipc.Client_SendText (text := example.text) (fp := example.fp) (ipc.NewClient "/tmp/wa")
    "4915112345678" "hi" (serving (text := example.text) (fp := example.fp) s (0, []))
  = (Some {| ipc.Result_To := "4915112345678"; ipc.Result_MsgID := "ABC123" |}, None).
Proof.
  intros s.
  exact (SendText_through_daemon (fp := example.fp) s (0, []) (ipc.NewClient "/tmp/wa")
           "4915112345678" "hi" eq_refl eq_refl eq_refl eq_refl).
Defined.

Lemma errors_through_daemon_witness :
  let s := example.started example.disconnected in
  ipc.Client_ChatState (text := example.text) (fp := example.fp) (ipc.NewClient "/tmp/wa")
    example.alice "archive" "" (serving (text := example.text) (fp := example.fp) s (0, []))
  = Some "whatsapp not connected".
Proof.
  intros s.
  exact (proj2 (errors_through_daemon (fp := example.fp) s (0, []) (ipc.NewClient "/tmp/wa")
                  eq_refl)
           example.alice "archive" "" eq_refl eq_refl eq_refl eq_refl).
Defined.

Lemma Ping_through_daemon_witness :
  let s := example.started example.disconnected in
  ipc.Client_Ping (text := example.text) (fp := example.fp) (ipc.NewClient "/tmp/wa")
    (serving (text := example.text) (fp := example.fp) s (0, [])) = None.
Proof.
  intros s.
  exact (proj1 (Ping_through_daemon (fp := example.fp) s (0, []) (ipc.NewClient "/tmp/wa")
                  eq_refl)).
Defined.

(** ** The daemon's handler: guards, results, no panic *)

Section Handler.
Context {lib : Lib} {seconds : chats.Seconds} {S : Type} {wac : app.WAClient S}
  {messaging : sync.Messaging (S := S)}.
Implicit Types (h : main.syncHandler S).

(** X24. The three methods of the daemon's handler share their guards,
    in this order: without an application the error is
    "app not initialized", without a session client
    "whatsapp client not initialized", with a client that is not
    connected "whatsapp not connected".  A refused call changes
    nothing: nothing is sent, revoked or patched, and the cache is as
    it was, whatever the arguments (also for a recipient that does not
    parse, or an action that does not exist). *)
Theorem handler_guards h (r : refusal) :
  refused h = Some r →
  (∀ to message,
     sync.SendText to message h = (ipc.Returned ("", Some (refusal_error r)), h))
  ∧ (∀ chat msgID forEveryone,
     sync.DeleteMessage chat msgID forEveryone h = (ipc.Returned (Some (refusal_error r)), h))
  ∧ (∀ jid action duration,
     main.ChatState jid action duration h = (ipc.Returned (Some (refusal_error r)), h)).
Proof.
  unfold refused, sync.SendText, sync.DeleteMessage, main.ChatState.
  destruct (main.h_app h) as [a|]; [|by intros [= <-]].
  destruct (app.wa a) as [s|]; [|by intros [= <-]].
  destruct (app.IsConnected s); [done|]. by intros [= <-].
Qed.

Lemma on_wa_returns (f : S → option error * S) (a : app.App S) g :
  is_Some (app.wa a) →
  (∀ a', ∃ err a'', g a' = (ipc.Returned err, a'')) →
  ∃ err a', app.on_wa f a (λ err a',
              match err with
              | Some e => (ipc.Returned (Some e), a')
              | None => g a'
              end) = (ipc.Returned err, a').
Proof.
  intros [s Hwa] Hg. unfold app.on_wa. rewrite Hwa.
  destruct (f s) as [[e|] s']; [by eexists _, _|]. apply Hg.
Qed.

Lemma on_db_returns f (a : app.App S) : ∃ err a', app.on_db f a = (ipc.Returned err, a').
Proof. unfold app.on_db. destruct (f (app.db a)). by eexists _, _. Qed.

Lemma operations_return (a : app.App S) (jid : JID) :
  is_Some (app.wa a) →
  (∀ archive, ∃ err a', app.ArchiveChat jid archive a = (ipc.Returned err, a'))
  ∧ (∀ pin, ∃ err a', app.PinChat jid pin a = (ipc.Returned err, a'))
  ∧ (∀ mute duration, ∃ err a', app.MuteChat jid mute duration a = (ipc.Returned err, a'))
  ∧ (∀ read, ∃ err a', app.MarkChatRead jid read a = (ipc.Returned err, a')).
Proof.
  intros Hwa. split_and!; intros;
    unfold app.ArchiveChat, app.PinChat, app.MuteChat, app.MarkChatRead;
    apply on_wa_returns; try done; intros; apply on_db_returns.
Qed.

Lemma lift_returns (r : ipc.outcome (option error) * app.App S) :
  (∃ err a', r = (ipc.Returned err, a')) →
  ∃ err h', main.lift r = (ipc.Returned err, h').
Proof. intros (err & a' & ->). by eexists _, _. Qed.

Lemma ChatState_returns jid action duration h :
  ∃ err h', main.ChatState jid action duration h = (ipc.Returned err, h').
Proof.
  unfold main.ChatState.
  destruct (main.h_app h) as [a|]; [|by eexists _, _].
  destruct (app.wa a) as [s|] eqn:Hwa; [|by eexists _, _].
  destruct (app.IsConnected s); [|by eexists _, _]. cbn [negb].
  destruct (ParseUserOrJID jid) as [err|chatJID]; [by eexists _, _|].
  destruct (operations_return a chatJID ltac:(by rewrite Hwa)) as (Ha & Hp & Hm & Hr).
  repeat case_match; try (by eexists _, _); by apply lift_returns.
Qed.

Lemma SendText_returns to message h :
  ∃ r h', sync.SendText to message h = (ipc.Returned r, h').
Proof.
  unfold sync.SendText.
  repeat case_match; by eexists _, _.
Qed.

Lemma DeleteMessage_returns chat msgID forEveryone h :
  ∃ err h', sync.DeleteMessage chat msgID forEveryone h = (ipc.Returned err, h').
Proof.
  unfold sync.DeleteMessage.
  repeat case_match; by eexists _, _.
Qed.

(** X25. The daemon's handler never panics on its own: each of its
    three methods returns in every state, since the guards keep the
    operations of the application from a nil session.  So the
    dispatcher of a server built on this handler returns a response for
    every request, and the answer "internal error" of the recovering
    function is never written for it. *)
Theorem handler_never_panics {text : json.Text} (s : ipc.Server (main.syncHandler S))
    (req : ipc.Request) (w : main.syncHandler S * list ipc.Call) :
  ipc.handler s = sync.handler →
  ∃ resp w', ipc.processRequest s req w = (ipc.Returned resp, w').
Proof.
  intros Hhandler. unfold ipc.processRequest, ipc.bind, ipc.invoke, ipc.ret. rewrite Hhandler.
  cbn [sync.handler ipc.SendText ipc.DeleteMessage ipc.ChatState].
  destruct (String.eqb (ipc.Command req) "ping"); [by eexists _, _|].
  destruct (String.eqb (ipc.Command req) "send_text").
  { destruct (_ || _)%bool; [by eexists _, _|].
    destruct (SendText_returns (ipc.To req) (ipc.Message req) w.1) as ([id [err|]] & h' & ->);
      by eexists _, _. }
  destruct (String.eqb (ipc.Command req) "delete_message").
  { destruct (_ || _)%bool; [by eexists _, _|].
    destruct (DeleteMessage_returns (ipc.Chat req) (ipc.MsgID req) (ipc.ForEveryone req) w.1)
      as ([err|] & h' & ->); by eexists _, _. }
  destruct (String.eqb (ipc.Command req) "chat_state").
  { destruct (_ || _)%bool; [by eexists _, _|].
    destruct (ChatState_returns (ipc.Chat req) (ipc.Action req) (ipc.Duration req) w.1)
      as ([err|] & h' & ->); by eexists _, _. }
  by eexists _, _.
Qed.

(** X26. Past the guards, with a recipient that parses: when the
    session refuses the message, [SendText] of the handler returns
    "send: " and the session's error, and neither the cache nor the
    clock changes; when the session sends it, [SendText] returns the
    identifier of the message and a nil error in every state of the
    cache, since the errors of the two writes to the cache are
    dropped.  [DeleteMessage] returns the error of [RevokeMessage] as
    it is (nil for nil) and never touches the cache; on a client that
    is not the [*wa.Client] it revokes nothing. *)
Theorem handler_results h (a : app.App S) (s : S) :
  main.h_app h = Some a → app.wa a = Some s → app.IsConnected s = true →
  (∀ to toJID message, ParseUserOrJID to = inr toJID →
     (∀ id err s1, sync.wa_SendText toJID message s = ((id, Some err), s1) →
        sync.SendText to message h
          = (ipc.Returned ("", Some ("send: " +:+ err)), main.set_app (sync.with_wa a s1)))
     ∧ (∀ msgID s1, sync.wa_SendText toJID message s = ((msgID, None), s1) →
        ∃ h', sync.SendText to message h = (ipc.Returned (msgID, None), h')))
  ∧ (∀ chat chatJID msgID forEveryone, ParseUserOrJID chat = inr chatJID →
     (sync.wa_is_Client s = false →
        sync.DeleteMessage chat msgID forEveryone h
          = (ipc.Returned (Some "unexpected WA client type"), h))
     ∧ (sync.wa_is_Client s = true →
        sync.DeleteMessage chat msgID forEveryone h
          = (ipc.Returned (sync.wa_RevokeMessage chatJID msgID forEveryone s).1,
             main.set_app (sync.with_wa a (sync.wa_RevokeMessage chatJID msgID forEveryone s).2)))).
Proof.
  intros Happ Hwa Hconn. split.
  - intros to toJID message Hto. unfold sync.SendText. rewrite Happ, Hwa, Hconn, Hto.
    cbn [negb]. split.
    + intros id err s1 ->. done.
    + intros msgID s1 ->. destruct (sync.wa_ResolveChatName _ _ _). by eexists.
  - intros chat chatJID msgID forEveryone Hchat. unfold sync.DeleteMessage.
    rewrite Happ, Hwa, Hconn, Hchat. cbn [negb]. split; intros ->; [done|].
    cbn [negb]. by destruct (sync.wa_RevokeMessage _ _ _ _).
Qed.

End Handler.

(** ** The table of chats: what [UpsertChat] keeps and what [GetChat] reads *)

Section Chats.
Context {lib : Lib} {seconds : chats.Seconds}.
Implicit Types (d : store.DB) (jid : string).

(** X27. [UpsertChat] on a working connection returns nil and leaves
    one row for the chat, the other rows as they were.  The kind is
    the one given, "unknown" for a blank one.  A name that is not
    empty replaces the name; an empty one never clears a name that is
    known.  The time of the last message never goes back: it is the
    later of the one kept and the one given.  The four columns of the
    chat state are those of the row that was there, and 0 in a new
    row.  A second [UpsertChat] with the same arguments changes
    nothing more. *)
Theorem UpsertChat_keeps_what_is_known jid (kind name : string) (lastTS : Time) d :
  store.broken d = None →
  ∃ d' r', chats.UpsertChat jid kind name lastTS d = (None, d')
    ∧ store.broken d' = None
    ∧ store.chats d' !! jid = Some r'
    ∧ (∀ j, j ≠ jid → store.chats d' !! j = store.chats d !! j)
    ∧ store.kind r' = (if String.eqb (TrimSpace kind) "" then "unknown" else kind)
    ∧ (name ≠ "" → store.name r' = name)
    ∧ match store.chats d !! jid with
      | None =>
        store.name r' = name ∧ store.last_message_ts r' = chats.unix lastTS
        ∧ store.archived r' = 0%Z ∧ store.pinned r' = 0%Z
        ∧ store.muted_until r' = 0%Z ∧ store.unread r' = 0%Z
      | Some r =>
        (name = "" → store.name r' = store.name r)
        ∧ store.last_message_ts r' = (store.last_message_ts r `max` chats.unix lastTS)%Z
        ∧ store.archived r' = store.archived r ∧ store.pinned r' = store.pinned r
        ∧ store.muted_until r' = store.muted_until r ∧ store.unread r' = store.unread r
      end
    ∧ chats.UpsertChat jid kind name lastTS d' = (None, d').
Proof.
  intros Hb. unfold chats.UpsertChat at 1. rewrite Hb.
  eexists _, _. split; [reflexivity|]. cbn [store.broken store.chats].
  split; [done|]. split; [by rewrite lookup_insert_eq|].
  split; [by intros j Hj; rewrite lookup_insert_ne|].
  destruct (store.chats d !! jid) as [r|] eqn:Hrow; cbn [store.kind store.name
    store.last_message_ts store.archived store.pinned store.muted_until store.unread].
  - split; [done|]. split.
    { intros Hname. by rewrite (proj2 (String.eqb_neq _ _) Hname). }
    split_and!; try done.
    + by intros ->.
    + destruct (Z.ltb_spec (store.last_message_ts r) (chats.unix lastTS)); lia.
    + unfold chats.UpsertChat. cbn [store.broken store.chats]. rewrite ?Hb, lookup_insert_eq.
      cbn [store.kind store.name store.last_message_ts store.archived store.pinned
           store.muted_until store.unread].
      rewrite insert_insert_eq. do 3 f_equal.
      f_equal.
      * by destruct (String.eqb name "").
      * destruct (Z.ltb_spec (store.last_message_ts r) (chats.unix lastTS)) as [Hlt|Hge].
        -- by rewrite Z.ltb_irrefl.
        -- by rewrite (proj2 (Z.ltb_ge _ _) Hge).
  - split_and!; try done.
    unfold chats.UpsertChat. cbn [store.broken store.chats]. rewrite ?Hb, lookup_insert_eq.
    cbn [store.kind store.name store.last_message_ts store.archived store.pinned
         store.muted_until store.unread].
    rewrite insert_insert_eq, Z.ltb_irrefl. do 3 f_equal.
    f_equal. by destruct (String.eqb name "").
Qed.

(** X28. What [GetChat] reads after a write, on a working connection
    and with [boolToInt] giving 1 and 0: after a setter on a chat that
    has a row, the flag that was set reads as it was set, and the
    other fields as before; a setter on a chat without a row makes
    none, so that [GetChat] still answers [sql.ErrNoRows], whereas
    after [UpsertChat] it finds the chat, with all flags false when the
    row is new. *)
Theorem GetChat_reads_back jid d :
  store.broken d = None → boolToInt true = 1%Z → boolToInt false = 0%Z →
  (store.chats d !! jid = None →
     (∀ set, set ∈ [store.SetChatArchived jid true; store.SetChatArchived jid false;
                    store.SetChatPinned jid true; store.SetChatPinned jid false;
                    store.SetChatUnread jid true; store.SetChatUnread jid false] →
        chats.GetChat jid (set d).2 = (chats.Chat_zero, Some chats.ErrNoRows))
     ∧ (∀ v, chats.GetChat jid (store.SetChatMutedUntil jid v d).2
             = (chats.Chat_zero, Some chats.ErrNoRows))
     ∧ (∀ kind name lastTS, ∃ c,
          chats.GetChat jid (chats.UpsertChat jid kind name lastTS d).2 = (c, None)
          ∧ chats.JID c = jid ∧ chats.Name c = name
          ∧ chats.Archived c = false ∧ chats.Pinned c = false
          ∧ chats.MutedUntil c = 0%Z ∧ chats.Unread c = false))
  ∧ (∀ c, chats.GetChat jid d = (c, None) →
     (∀ v, chats.GetChat jid (store.SetChatArchived jid v d).2
           = ({| chats.JID := chats.JID c; chats.Kind := chats.Kind c; chats.Name := chats.Name c;
                 chats.LastMessageTS := chats.LastMessageTS c; chats.Archived := v;
                 chats.Pinned := chats.Pinned c; chats.MutedUntil := chats.MutedUntil c;
                 chats.Unread := chats.Unread c |}, None))
     ∧ (∀ v, chats.GetChat jid (store.SetChatPinned jid v d).2
           = ({| chats.JID := chats.JID c; chats.Kind := chats.Kind c; chats.Name := chats.Name c;
                 chats.LastMessageTS := chats.LastMessageTS c; chats.Archived := chats.Archived c;
                 chats.Pinned := v; chats.MutedUntil := chats.MutedUntil c;
                 chats.Unread := chats.Unread c |}, None))
     ∧ (∀ v, chats.GetChat jid (store.SetChatMutedUntil jid v d).2
           = ({| chats.JID := chats.JID c; chats.Kind := chats.Kind c; chats.Name := chats.Name c;
                 chats.LastMessageTS := chats.LastMessageTS c; chats.Archived := chats.Archived c;
                 chats.Pinned := chats.Pinned c; chats.MutedUntil := v;
                 chats.Unread := chats.Unread c |}, None))
     ∧ (∀ v, chats.GetChat jid (store.SetChatUnread jid v d).2
           = ({| chats.JID := chats.JID c; chats.Kind := chats.Kind c; chats.Name := chats.Name c;
                 chats.LastMessageTS := chats.LastMessageTS c; chats.Archived := chats.Archived c;
                 chats.Pinned := chats.Pinned c; chats.MutedUntil := chats.MutedUntil c;
                 chats.Unread := v |}, None))).
Proof.
  intros Hb Htrue Hfalse.
  assert (Hbool : ∀ v : bool, negb (boolToInt v =? 0)%Z = v).
  { intros []; by rewrite ?Htrue, ?Hfalse. }
  split.
  - intros Hnone. split_and!.
    + intros set Hset. repeat (apply elem_of_cons in Hset as [->|Hset]);
        try (by apply elem_of_nil in Hset);
        unfold store.SetChatArchived, store.SetChatPinned, store.SetChatUnread,
          store.exec_update, chats.GetChat; rewrite Hb; cbn [snd store.broken store.chats];
        by rewrite ?Hb, lookup_alter_eq, Hnone.
    + intros v. unfold store.SetChatMutedUntil, store.exec_update, chats.GetChat.
      rewrite Hb. cbn [snd store.broken store.chats]. by rewrite ?Hb, lookup_alter_eq, Hnone.
    + intros kind name lastTS. unfold chats.UpsertChat, chats.GetChat. rewrite Hb, Hnone.
      cbn [snd store.broken store.chats]. rewrite ?Hb, lookup_insert_eq.
      eexists. split; [reflexivity|]. done.
  - intros c. unfold chats.GetChat at 1. rewrite Hb.
    destruct (store.chats d !! jid) as [r|] eqn:Hrow; [|done]. intros [= <-].
    split_and!; intros v;
      unfold store.SetChatArchived, store.SetChatPinned, store.SetChatMutedUntil,
        store.SetChatUnread, store.exec_update, chats.GetChat; rewrite Hb;
      cbn [snd store.broken store.chats]; rewrite ?Hb, lookup_alter_eq, Hrow;
      cbn; by rewrite ?Hbool.
Qed.

End Chats.

(** ** Sender names *)

Lemma strip_prefix_app (sub s rest : string) :
  json.strip_prefix sub s = Some rest ↔ s = sub +:+ rest.
Proof.
  revert s. induction sub as [|c sub IH]; intros s.
  - simpl. split; [by intros [= ->] | by intros ->].
  - destruct s as [|d s]; simpl; [split; [done | by intros [=]]|].
    destruct (Ascii.eqb_spec c d) as [->|Hne].
    + rewrite IH. split; [by intros -> | by intros [= ->]].
    + split; [done | intros [= H1 _]; by destruct Hne].
Qed.

(** [contains] decides [Contains]. *)
Lemma contains_Contains (s sub : string) : resolve.contains s sub = true ↔ Contains s sub.
Proof.
  induction s as [|c s IH].
  - simpl. destruct (json.strip_prefix sub "") as [rest|] eqn:Hp.
    + apply strip_prefix_app in Hp. split; [|done]. intros _. by exists "", rest.
    + split; [done|]. intros (pre & post & Heq).
      destruct pre; [|done]. simpl in Heq.
      assert (json.strip_prefix sub "" = Some post) by (by apply strip_prefix_app).
      congruence.
  - cbn [resolve.contains].
    destruct (json.strip_prefix sub (String c s)) as [rest|] eqn:Hp.
    + apply strip_prefix_app in Hp. split; [|done]. intros _. by exists "", rest.
    + rewrite IH. split.
      * intros (pre & post & ->). by exists (String c pre), post.
      * intros (pre & post & Heq). destruct pre as [|d pre].
        -- simpl in Heq.
           assert (json.strip_prefix sub (String c s) = Some post) by (by apply strip_prefix_app).
           congruence.
        -- injection Heq as -> ->. by exists pre, post.
Qed.

Section Resolve.
Context {lib : Lib} {A : Type} {contacts : resolve.Contacts A}.
Implicit Types (m : resolve.Message) (a : A).

Lemma resolve_one_filled m a : filled m (resolve.resolve_one m a).1.
Proof.
  unfold resolve.resolve_one, filled.
  destruct (String.eqb_spec (resolve.SenderName m) "") as [Hname|Hname]; cbn [negb orb];
    [|by auto].
  destruct (resolve.FromMe m) eqn:Hme; [by auto|].
  destruct (String.eqb (TrimSpace (resolve.SenderJID m)) ""); [by auto|].
  destruct (resolve.contains (TrimSpace (resolve.SenderJID m)) "@lid") eqn:Hlid;
    cbn [negb]; [|by auto].
  apply contains_Contains in Hlid.
  destruct (resolve.ParseJID _) as [err|jid]; [by auto|].
  destruct (resolve.GetPNForLID jid a) as [[pn [err|]] a1]; [by auto|].
  destruct (resolve.IsEmpty pn); [by auto|].
  destruct (resolve.GetContact pn a1) as [[info err] a2].
  set (name := match err with None => resolve.BestContactName info | Some _ => "" end).
  destruct (String.eqb_spec name "") as [_|Hbest]; cbn [negb fst].
  - destruct (String.eqb_spec (resolve.User pn) "") as [_|Huser]; cbn [negb fst]; [by auto|].
    split; [done|]. split; [done|]. right. split_and!; try done.
  - split; [done|]. split; [done|]. right. split_and!; try done.
Qed.

Lemma each_filled msgs a : Forall2 filled msgs (resolve.each msgs a).1.
Proof.
  revert a. induction msgs as [|m msgs IH]; intros a; [constructor|].
  cbn [resolve.each].
  pose proof (resolve_one_filled m a) as Hm.
  destruct (resolve.resolve_one m a) as [m' a1].
  specialize (IH a1). destruct (resolve.each msgs a1) as [rest a2].
  by constructor.
Qed.

Lemma filled_refl m : filled m m.
Proof. unfold filled. auto. Qed.

(** X29. [ResolveSenderNames] only fills in blanks.  The slice keeps
    its length and every message its sender and its direction; a
    message that has a name, or was sent by this account, or whose
    sender is not a hidden user, is left exactly as it was; and a name
    that is written is never empty.  On an empty slice nothing is
    done, not even [OpenWA]; and when [OpenWA] fails the messages are
    left as they were. *)
Theorem ResolveSenderNames_fills_blanks msgs a :
  Forall2 filled msgs (resolve.ResolveSenderNames msgs a).1
  ∧ length (resolve.ResolveSenderNames msgs a).1 = length msgs
  ∧ resolve.ResolveSenderNames [] a = ([], a)
  ∧ (∀ err a1, resolve.OpenWA a = (Some err, a1) →
       (resolve.ResolveSenderNames msgs a).1 = msgs).
Proof.
  assert (Hfilled : Forall2 filled msgs (resolve.ResolveSenderNames msgs a).1).
  { unfold resolve.ResolveSenderNames. destruct msgs as [|m msgs]; [constructor|].
    destruct (resolve.OpenWA a) as [[err|] a1]; [|apply each_filled].
    apply Forall_Forall2_diag, Forall_forall. intros; apply filled_refl. }
  split_and!; [done | symmetry; by eapply Forall2_length | done |].
  intros err a1 Hopen. unfold resolve.ResolveSenderNames. rewrite Hopen. by destruct msgs.
Qed.

End Resolve.

(** ** The daemon's socket, from start to exit *)

Section SyncCommand.
Context {lib : Lib} {fp : ipc.Filepath} {text : json.Text} {P : Type}
  {syncing : syncCmd.Syncing (P := P)} {H : Type}.
Implicit Types (handler : ipc.Handler H) (f : syncCmd.syncFlags) (fs : gset string)
  (p : main.Proc P).

(** [Stop] of the server that [Start] left removes its socket file,
    whatever the file system has become in between. *)
Lemma Stop_started (s srv : ipc.Server H) unlink bind fs fs1 fs2 :
  ipc.done s = false →
  ipc.Start unlink bind s fs = (None, srv, fs1) →
  ∃ srv' fs', ipc.Stop srv fs2 = ipc.Returned (srv', fs')
    ∧ ipc.SocketPath (ipc.storeDir s) ∉ fs'.
Proof.
  intros Hdone. unfold ipc.Start.
  destruct (ipc.net_Listen _ _ _) as [[err|l] fs3]; [done|].
  intros [= <- <-]. unfold ipc.Stop. cbn. rewrite Hdone.
  do 2 eexists. split; [done|]. apply os_Remove_gone.
Qed.

(** X30. [wacli sync] and the socket, once [newApp] and [EnsureAuthed]
    succeeded.  The IPC server is started in follow mode only, and
    [--once] decides the mode before [--follow]: with [--once], or
    without [--follow], or with [--enable-ipc=false], [Start] is not
    called and the run is [Sync] with its report, then [closeApp].
    When [Start] fails, the command writes the warning to standard
    error and goes on in the same way, with no [Stop] to come.  When
    [Start] succeeded, [Stop] is deferred: whatever [Sync] does to the
    state and to the files, and whether it returns, fails or panics,
    no file is at the socket path when the command is over, provided
    [closeApp], which runs after [Stop], puts none there; a client that
    comes later finds [IsAvailable] false and takes the direct path.
    A panic of [Sync] is still the outcome of the command, after [Stop]
    and [closeApp] have run. *)
Theorem sync_leaves_no_socket handler flags f (unlink bind : option error) fs p st1 fs1 st2 fs2 :
  syncCmd.newApp (main.state p) fs = (ipc.Returned None, st1, fs1) →
  syncCmd.EnsureAuthed st1 fs1 = (ipc.Returned None, st2, fs2) →
  let path := ipc.SocketPath (syncCmd.StoreDir st2) in
  let p2 := syncCmd.set_state st2 p in
  let wanted := (syncCmd.enableIPC f && negb (syncCmd.once f) && syncCmd.follow f)%bool in
  let started := ipc.Start unlink bind (ipc.NewServer (syncCmd.StoreDir st2) handler) fs2 in
  let result := syncCmd.RunE handler flags f unlink bind fs p in
  (syncCmd.once f = true → syncCmd.mode_of f = syncCmd.SyncModeOnce)
  ∧ (wanted = false →
       result = syncCmd.deferred_closeApp (syncCmd.report flags f (syncCmd.mode_of f) p2 fs2))
  ∧ (∀ err, wanted = true → started.1.1 = Some err →
       result = syncCmd.deferred_closeApp
                  (syncCmd.report flags f syncCmd.SyncModeFollow
                     (main.Fprintf_stderr (syncCmd.warning err) p2) started.2))
  ∧ (wanted = true → started.1.1 = None →
       (∀ st fs', path ∉ fs' → path ∉ (syncCmd.closeApp st fs').2) →
       (path ∉ result.2)
       ∧ ipc.IsAvailable (ipc.NewClient (syncCmd.StoreDir st2)) result.2 = false
       ∧ main.stderr result.1.2 = main.stderr p
       ∧ (∀ v, (syncCmd.report flags f syncCmd.SyncModeFollow p2 started.2).1.1 = ipc.Panicked v →
            ∃ v', result.1.1 = ipc.Panicked v')).
Proof.
  intros Hnew Hauth path p2 wanted started result.
  assert (Hmode : (syncCmd.enableIPC f && syncCmd.is_follow (syncCmd.mode_of f))%bool = wanted).
  { unfold wanted, syncCmd.mode_of.
    by destruct (syncCmd.enableIPC f), (syncCmd.once f), (syncCmd.follow f). }
  assert (Hfollow : wanted = true → syncCmd.mode_of f = syncCmd.SyncModeFollow).
  { unfold wanted, syncCmd.mode_of.
    by destruct (syncCmd.enableIPC f), (syncCmd.once f), (syncCmd.follow f). }
  assert (Hresult : result = syncCmd.deferred_closeApp
            (if wanted then
               match started with
               | (Some err, _, fs3) =>
                 syncCmd.report flags f (syncCmd.mode_of f)
                   (main.Fprintf_stderr (syncCmd.warning err) p2) fs3
               | (None, srv, fs3) =>
                 syncCmd.deferred_Stop srv (syncCmd.report flags f (syncCmd.mode_of f) p2 fs3)
               end
             else syncCmd.report flags f (syncCmd.mode_of f) p2 fs2)).
  { unfold result, syncCmd.RunE. by rewrite Hnew, Hauth, Hmode. }
  split_and!.
  - unfold syncCmd.mode_of. by intros ->.
  - intros Hw. by rewrite Hresult, Hw.
  - intros err Hw Herr. rewrite Hresult, Hw, (Hfollow Hw).
    destruct started as [[e srv] fs3]. simpl in Herr. by subst e.
  - intros Hw Hok Hclose. rewrite Hresult, Hw, (Hfollow Hw).
    destruct started as [[e srv] fs3] eqn:Hstart. simpl in Hok. subst e. simpl.
    destruct (syncCmd.report flags f syncCmd.SyncModeFollow p2 fs3) as [[o p3] fs4] eqn:Hreport.
    destruct (Stop_started (ipc.NewServer (syncCmd.StoreDir st2) handler) srv unlink bind
                fs2 fs3 fs4 eq_refl Hstart)
      as (srv' & fs5 & Hstop & Hgone).
    cbn [ipc.storeDir ipc.NewServer] in Hgone. fold path in Hgone.
    unfold syncCmd.deferred_Stop, syncCmd.deferred_closeApp. rewrite Hstop.
    pose proof (Hclose (main.state p3) fs5 Hgone) as Hafter.
    assert (Hstderr : main.stderr p3 = main.stderr p).
    { revert Hreport. unfold syncCmd.report.
      destruct (syncCmd.Sync _ _ _) as [[[[stored [err|]]|v] st] fs6].
      - by intros [= <- <- <-].
      - destruct (main.asJSON flags).
        + destruct (syncCmd.WriteJSON_synced _ _). by intros [= <- <- <-].
        + by intros [= <- <- <-].
      - by intros [= <- <- <-]. }
    destruct (syncCmd.closeApp (main.state p3) fs5) as [[[u|v'] st] fs6]; simpl in *.
    + split_and!; try done.
      * unfold ipc.IsAvailable, ipc.os_Stat, ipc.NewClient. cbn. fold path. by case_decide.
      * intros v ->. by eexists.
    + split_and!; try done.
      * unfold ipc.IsAvailable, ipc.os_Stat, ipc.NewClient. cbn. fold path. by case_decide.
      * intros v _. by eexists.
Qed.

End SyncCommand.

(** ** The tests of [ResolveSenderNames], replayed *)

Example LIDWithContact :
  (resolve.ResolveSenderNames (lib := example.lib) (contacts := scenario.contacts) [scenario.from scenario.lid "" false]
     (Some "Max Mustermann")).1
  = [scenario.from scenario.lid "Max Mustermann" false].
Proof. reflexivity. Qed.

Example LIDWithoutContact :
  (resolve.ResolveSenderNames (lib := example.lib) (contacts := scenario.contacts) [scenario.from scenario.lid "" false] None).1
  = [scenario.from scenario.lid "+4915112345678" false].
Proof. reflexivity. Qed.

Example LIDNotInMap :
  (resolve.ResolveSenderNames (lib := example.lib) (contacts := scenario.contacts)
     [scenario.from "999999999999999@lid" "" false] (Some "Max Mustermann")).1
  = [scenario.from "999999999999999@lid" "" false].
Proof. reflexivity. Qed.

Example NormalJIDUnchanged :
  (resolve.ResolveSenderNames (lib := example.lib) (contacts := scenario.contacts) [scenario.from scenario.pn "" false]
     (Some "Max Mustermann")).1
  = [scenario.from scenario.pn "" false].
Proof. reflexivity. Qed.

Example AlreadyResolved_FromMeSkipped :
  (resolve.ResolveSenderNames (lib := example.lib) (contacts := scenario.contacts)
     [scenario.from scenario.lid "Already Known" false; scenario.from scenario.lid "" true]
     (Some "Max Mustermann")).1
  = [scenario.from scenario.lid "Already Known" false; scenario.from scenario.lid "" true].
Proof. reflexivity. Qed.

(** ** Witnesses for the daemon's handler and the table of chats *)

Lemma handler_guards_witness :
  sync.SendText (lib := example.lib) (seconds := scenario.seconds) (wac := example.wa_client)
      (messaging := scenario.messaging) example.alice "hi"
    scenario.unopened
  = (ipc.Returned ("", Some "whatsapp client not initialized"), scenario.unopened)
  ∧ main.ChatState (lib := example.lib) (wac := example.wa_client) example.alice "snooze" ""
      scenario.unopened
  = (ipc.Returned (Some "whatsapp client not initialized"), scenario.unopened).
Proof.
  pose proof (handler_guards (lib := example.lib) (seconds := scenario.seconds)
                (wac := example.wa_client) (messaging := scenario.messaging)
                scenario.unopened NoClient eq_refl) as (Hsend & _ & Hstate).
  split; [exact (Hsend example.alice "hi") | exact (Hstate example.alice "snooze" "")].
Defined.

Lemma handler_never_panics_witness :
  let s := ipc.NewServer "/tmp/wa"
             (sync.handler (lib := example.lib) (seconds := scenario.seconds)
                (wac := example.wa_client) (messaging := scenario.messaging)) in
  ∃ resp w',
    ipc.processRequest (text := example.text) s
      (ipc.chat_state_request example.alice "archive" "") (scenario.unopened, [])
    = (ipc.Returned resp, w').
Proof.
  intros s.
  exact (handler_never_panics (lib := example.lib) (seconds := scenario.seconds)
           (wac := example.wa_client) (messaging := scenario.messaging)
           (text := example.text) s
           (ipc.chat_state_request example.alice "archive" "") (scenario.unopened, [])
           eq_refl).
Defined.

Lemma handler_results_witness :
  ∃ h', sync.SendText (lib := example.lib) (seconds := scenario.seconds) (wac := example.wa_client)
      (messaging := scenario.messaging) example.alice "hi"
          scenario.ready
        = (ipc.Returned ("3EB0C0FFEE", None), h').
Proof.
  exact (proj2 (proj1 (handler_results (lib := example.lib) (seconds := scenario.seconds)
                         (wac := example.wa_client) (messaging := scenario.messaging)
                         scenario.ready _ _ eq_refl eq_refl eq_refl)
                  example.alice example.alice "hi" eq_refl) "3EB0C0FFEE" _ eq_refl).
Defined.

Lemma UpsertChat_keeps_what_is_known_witness :
  ∃ d' r', chats.UpsertChat (lib := example.lib) (seconds := scenario.seconds) example.alice "" "" 1600000000000000000%Z
             example.cache = (None, d')
    ∧ store.chats d' !! example.alice = Some r'
    ∧ store.kind r' = "unknown" ∧ store.name r' = "Alice"
    ∧ store.last_message_ts r' = 1700000000%Z ∧ store.unread r' = 1%Z.
Proof.
  destruct (UpsertChat_keeps_what_is_known (lib := example.lib) (seconds := scenario.seconds) example.alice "" ""
              1600000000000000000%Z example.cache eq_refl)
    as (d' & r' & Hrun & _ & Hrow & _ & Hkind & _ & Hold & _).
  exists d', r'. split; [exact Hrun|]. split; [exact Hrow|].
  change (store.chats example.cache !! example.alice) with
    (Some {| store.kind := "dm"; store.name := "Alice"; store.last_message_ts := 1700000000;
             store.archived := 0; store.pinned := 0; store.muted_until := 0;
             store.unread := 1 |}) in Hold.
  destruct Hold as (Hname & Hts & _ & _ & _ & Hunread).
  split; [exact Hkind|]. split; [exact (Hname eq_refl)|]. split; [exact Hts | exact Hunread].
Defined.

Lemma GetChat_reads_back_witness :
  chats.GetChat (seconds := scenario.seconds) example.alice
    (store.SetChatArchived (lib := example.lib) example.alice true example.cache).2
  = ({| chats.JID := example.alice; chats.Kind := "dm"; chats.Name := "Alice";
        chats.LastMessageTS := 1700000000000000000%Z; chats.Archived := true;
        chats.Pinned := false; chats.MutedUntil := 0; chats.Unread := true |}, None).
Proof.
  exact (proj1 (proj2 (GetChat_reads_back (lib := example.lib) (seconds := scenario.seconds) example.alice example.cache
                         eq_refl eq_refl eq_refl) _ eq_refl) true).
Defined.

(** ** [wacli sync] over the file of a daemon that died, with a [Sync]
    that panics *)

Lemma sync_leaves_no_socket_witness :
  let fs : gset string := {[ "/tmp/wa/wacli.sock" ]} in
  let result := syncCmd.RunE (fp := example.fp) (syncing := scenario.syncing)
                  example.disconnected example.flags syncCmd.default_flags None None
                  fs example.proc in
  result.1.1 = ipc.Panicked "boom"
  ∧ main.state result.1.2 = ["newApp"; "EnsureAuthed"; "Sync"; "closeApp"]
  ∧ ("/tmp/wa/wacli.sock" ∉ result.2)
  ∧ ipc.IsAvailable (fp := example.fp) (ipc.NewClient "/tmp/wa") result.2 = false.
Proof.
  intros fs result.
  pose proof (sync_leaves_no_socket (fp := example.fp) (syncing := scenario.syncing)
                example.disconnected example.flags syncCmd.default_flags None None
                fs example.proc _ _ _ _ eq_refl eq_refl) as (_ & _ & _ & Hstarted).
  destruct (Hstarted eq_refl eq_refl) as (Hgone & Havail & _).
  { intros st fs' Hnot Hin. apply Hnot. simpl in Hin.
    by apply elem_of_difference in Hin as [Hin _]. }
  split; [reflexivity|]. split; [reflexivity|]. split; [exact Hgone | exact Havail].
Defined.

(** ** The vocabulary of chat states before the guards *)

(** The claim C5 fails before the guards of the handler are passed:
    the daemon that has not opened its session answers "snooze", which
    is none of the eight actions, with the error of the guard, and that
    error does not name the action; it answers "archive", one of the
    eight, with the same error. *)
Lemma C5_counterexample :
  let h := scenario.unopened in
  let run action :=
    main.ChatState (lib := example.lib) (wac := example.wa_client) example.alice action "" h in
  ("snooze" ∉ chat_state_actions)
  ∧ run "snooze" = (ipc.Returned (Some "whatsapp client not initialized"), h)
  ∧ run "archive" = (ipc.Returned (Some "whatsapp client not initialized"), h)
  ∧ ¬ names_the_action "snooze" (run "snooze")
  ∧ ¬ (∀ (h : main.syncHandler (wa.Client example.session)) action,
         action ∉ chat_state_actions →
         names_the_action action
           (main.ChatState (lib := example.lib) (wac := example.wa_client)
              example.alice action "" h)).
Proof.
  intros h run.
  assert (Hout : "snooze" ∉ chat_state_actions).
  { unfold chat_state_actions.
    repeat (apply not_elem_of_cons; split; [discriminate|]). apply not_elem_of_nil. }
  assert (Hnot : ¬ names_the_action "snooze" (run "snooze")).
  { intros (err & Herr & Hnames). injection Herr as <-.
    apply contains_Contains in Hnames. vm_compute in Hnames. discriminate Hnames. }
  split_and!; [exact Hout | reflexivity | reflexivity | exact Hnot |].
  intros Hall. exact (Hnot (Hall h "snooze" Hout)).
Qed.
